(** * Mantid algorithm usage: the merge engine of [merge_data.py]

    A shallow embedding of [src/merge_data.py] (with the record type of
    [src/parse_raw_results.py]) and the properties of its merge engine.

    Conventions of the embedding:
    - Python [int] is [Z]; Python [float] is an exact rational [Q]
      (rounding is outside the model);
    - Python [str] is [string] (names, paths and file texts are ASCII);
    - a Python exception is a value of [exn], a computation that may raise
      returns [outcome A];
    - a Python [dict] keyed by [str] is an insertion-ordered association
      list with unique keys, [dict V];
    - the file system, [re.sub] and [config.cache_dir] are fields of a
      [World] the functions take as an argument. *)

From Stdlib Require Import List String Ascii ZArith QArith Bool Lia DecimalString.
From Stdlib Require DecimalPos Permutation Sorted.
Import ListNotations.

Local Open Scope string_scope.
Local Open Scope Z_scope.

Set Implicit Arguments.

(** ** Exceptions *)

Inductive exn : Type :=
| RuntimeError (msg : string)
| KeyError (key : string)
| ValueError (literal : string)
| IndexError
| IOError (filename : string)
| ReError (pattern : string)
| OverflowError.

Definition outcome (A : Type) : Type := (exn + A)%type.

Definition ok {A : Type} (a : A) : outcome A := inr a.
Definition raise {A : Type} (e : exn) : outcome A := inl e.

Definition bind {A B : Type} (c : outcome A) (k : A -> outcome B) : outcome B :=
  match c with
  | inl e => inl e
  | inr a => k a
  end.

Notation "x <- c ;; k" := (bind c (fun x => k))
  (at level 61, c at next level, right associativity).

(** A [for] loop that threads a state and stops at the first exception. *)
Fixpoint for_each {A S : Type} (body : S -> A -> outcome S) (xs : list A) (s : S)
  : outcome S :=
  match xs with
  | [] => ok s
  | x :: xs' => s' <- body s x ;; for_each body xs' s'
  end.

(** A [for] loop over mutable items: each item is replaced by the body's
    result, in order, stopping at the first exception. *)
Fixpoint map_each {A B : Type} (body : A -> outcome B) (xs : list A)
  : outcome (list B) :=
  match xs with
  | [] => ok []
  | x :: xs' => y <- body x ;; ys <- map_each body xs' ;; ok (y :: ys)
  end.

(** ** The Python string operations the program uses *)

(** [s[:-2:-1]]: the last character as a string, [""] for the empty string. *)
Fixpoint last_char (s : string) : string :=
  match s with
  | EmptyString => EmptyString
  | String c s' =>
      match s' with
      | EmptyString => String c EmptyString
      | String _ _ => last_char s'
      end
  end.

(** [s[:-1]]: all but the last character. *)
Fixpoint drop_last (s : string) : string :=
  match s with
  | EmptyString => EmptyString
  | String c s' =>
      match s' with
      | EmptyString => EmptyString
      | String _ _ => String c (drop_last s')
      end
  end.

Definition digit_value (c : ascii) : option Z :=
  let n := Z.of_nat (nat_of_ascii c) in
  if (48 <=? n) && (n <=? 57) then Some (n - 48) else None.

(** [int(s)] for the slices the program passes: at most one character.
    A longer string is read as an unsigned decimal numeral. *)
Fixpoint int_digits (acc : Z) (s : string) : option Z :=
  match s with
  | EmptyString => Some acc
  | String c s' =>
      match digit_value c with
      | Some d => int_digits (10 * acc + d) s'
      | None => None
      end
  end.

Definition int (s : string) : outcome Z :=
  match s with
  | EmptyString => raise (ValueError s)
  | String _ _ =>
      match int_digits 0 s with
      | Some n => ok n
      | None => raise (ValueError s)
      end
  end.

(** [str(n)] for an integer. *)
Definition str (n : Z) : string := NilZero.string_of_int (Z.to_int n).

(** [s.split(sep)] for a one-character separator: never the empty list. *)
Fixpoint str_split (sep : ascii) (s : string) : list string :=
  match s with
  | EmptyString => [EmptyString]
  | String c s' =>
      if Ascii.eqb c sep then EmptyString :: str_split sep s'
      else match str_split sep s' with
           | [] => [String c EmptyString]
           | w :: ws => String c w :: ws
           end
  end.

(** ASCII white space as [str.strip()] sees it. *)
Definition is_space (c : ascii) : bool :=
  let n := nat_of_ascii c in
  ((9 <=? n) && (n <=? 13) || (28 <=? n) && (n <=? 32))%nat.

Fixpoint lstrip (s : string) : string :=
  match s with
  | EmptyString => EmptyString
  | String c s' => if is_space c then lstrip s' else s
  end.

Fixpoint rstrip (s : string) : string :=
  match s with
  | EmptyString => EmptyString
  | String c s' =>
      let t := rstrip s' in
      if is_space c && String.eqb t EmptyString then EmptyString else String c t
  end.

Definition str_strip (s : string) : string := rstrip (lstrip s).

(** [s.count(sub)] for a non-empty [sub]: occurrences that do not overlap,
    from the left.  [skip] is the number of characters still covered by the
    last occurrence found. *)
Fixpoint count_from (sub s : string) (skip : nat) : Z :=
  match s with
  | EmptyString => 0
  | String _ s' =>
      match skip with
      | S k => count_from sub s' k
      | O =>
          if prefix sub s then 1 + count_from sub s' (String.length sub - 1)
          else count_from sub s' 0
      end
  end.

Definition str_count (s sub : string) : Z := count_from sub s 0.

(** [s.replace(old, new)] for a non-empty [old]. *)
Fixpoint replace_from (old new s : string) (skip : nat) : string :=
  match s with
  | EmptyString => EmptyString
  | String c s' =>
      match skip with
      | S k => replace_from old new s' k
      | O =>
          if prefix old s then new ++ replace_from old new s' (String.length old - 1)
          else String c (replace_from old new s' 0)
      end
  end.

Definition str_replace (s old new : string) : string := replace_from old new s 0.

(** [x in xs] for a list of strings. *)
Definition str_in (x : string) (xs : list string) : bool :=
  existsb (String.eqb x) xs.

(** [xs[-1]] and [xs[0]] on the result of [str_split], which is never empty. *)
Definition last_item (xs : list string) : string := last xs EmptyString.
Definition first_item (xs : list string) : string := hd EmptyString xs.

(** [sum(xs)]. *)
Definition sum (xs : list Z) : Z := fold_left Z.add xs 0.

(** [float(n)] of an integer, which is also how a float operation converts
    an integer operand: the integer is rounded to the nearest double, ties
    to even, and [OverflowError] is raised when that is past the largest
    double, that is from 2^1024 - 2^970 on in absolute value.  The float is
    kept as the exact rational [n]; rounding to 53 bits is not modelled. *)
Definition float_limit : Z := 2 ^ 1024 - 2 ^ 970.

Definition float (n : Z) : outcome Q :=
  if Z.abs n <? float_limit then ok (inject_Z n) else raise OverflowError.

(** ** Python dictionaries keyed by strings *)

Definition dict (V : Type) : Type := list (string * V).

Section Dict.
Variable V : Type.

Definition keys (d : dict V) : list string := map fst d.
Definition values (d : dict V) : list V := map snd d.

(** [d[k]] where it exists. *)
Fixpoint dict_get (k : string) (d : dict V) : option V :=
  match d with
  | [] => None
  | (k', v) :: d' => if String.eqb k k' then Some v else dict_get k d'
  end.

(** [k in d]. *)
Definition dict_mem (k : string) (d : dict V) : bool :=
  match dict_get k d with
  | Some _ => true
  | None => false
  end.

(** [d[k]], raising [KeyError]. *)
Definition dict_item (k : string) (d : dict V) : outcome V :=
  match dict_get k d with
  | Some v => ok v
  | None => raise (KeyError k)
  end.

(** [d[k] = v]: an existing key keeps its place, a new one goes last. *)
Fixpoint dict_set (k : string) (v : V) (d : dict V) : dict V :=
  match d with
  | [] => [(k, v)]
  | (k', v') :: d' =>
      if String.eqb k k' then (k, v) :: d' else (k', v') :: dict_set k v d'
  end.

(** [del d[k]], raising [KeyError] when [k] is not a key. *)
Fixpoint dict_del (k : string) (d : dict V) : outcome (dict V) :=
  match d with
  | [] => raise (KeyError k)
  | (k', v') :: d' =>
      if String.eqb k k' then ok d'
      else d'' <- dict_del k d' ;; ok ((k', v') :: d'')
  end.

(** [for k in ks: del d[k]]. *)
Definition del_all (ks : list string) (d : dict V) : outcome (dict V) :=
  for_each (fun d k => dict_del k d) ks d.

(** [d.setdefault(k, v)]: the record under [k] and the dictionary, where
    [v] was inserted if [k] was not a key. *)
Definition dict_setdefault (k : string) (v : V) (d : dict V) : V * dict V :=
  match dict_get k d with
  | Some v' => (v', d)
  | None => (v, dict_set k v d)
  end.
End Dict.

(** [for item in d.values(): body(item)] where the body mutates the item:
    every value is replaced, keys and order stay. *)
Definition update_values {V : Type} (body : V -> outcome V) (d : dict V)
  : outcome (dict V) :=
  map_each (fun kv => v' <- body (snd kv) ;; ok (fst kv, v')) d.

(** ** The world outside the program *)

(** What the program reads from its environment: [read_file f] is the text
    [open(f, 'r').read()] returns, [None] when [open] raises [IOError];
    [re_sub p r s] is [re.sub(p, r, s)], [None] when the pattern does not
    compile; [cache_dir] is [config.cache_dir]. *)
Record World : Type := {
  read_file : string -> option string;
  re_sub : string -> string -> string -> option string;
  cache_dir : string
}.

Definition open_read (w : World) (filename : string) : outcome string :=
  match read_file w filename with
  | Some text => ok text
  | None => raise (IOError filename)
  end.

Definition re_sub_call (w : World) (pattern repl s : string) : outcome string :=
  match re_sub w pattern repl s with
  | Some s' => ok s'
  | None => raise (ReError pattern)
  end.

(** The command line, [args]. *)
Module Args.
Record t : Type := mk {
  ours : bool;
  include_tests : bool;
  max_count : Z;
  wide_output : bool;
  include_blacklisted : bool;
  summary : bool;
  create_figures : bool
}.
End Args.

(** ** The records of the two providers *)

Module AlgFileRecord.
(** Modelled from the spec: [parse_mantid_source.AlgFileRecord], whose
    module is not part of the sources; its fields are the ones
    [AlgRecord.__init__] copies (section 6 of the specification: name,
    path, language, is_test, module).  [type] is the language, which the
    program compares with ['C++'] and ['Python']. *)
Record t : Type := mk {
  name : string;
  path : string;
  type : string;
  is_test : bool;
  module : string
}.
End AlgFileRecord.

Module AlgResultRecord.
(** [parse_raw_results.AlgResultRecord]. *)
Record t : Type := mk {
  name : string;
  count : Z;
  is_child : bool;
  version : string
}.

(** [AlgResultRecord(entries)] on one decoded line [[name, count, is_child, version]]. *)
Definition init (entries : string * Z * bool * string) : t :=
  let '(e0, e1, e2, e3) := entries in mk e0 e1 e2 e3.
End AlgResultRecord.

(** [parse_raw_results.get_algorithm_results] on the decoded lines of the
    raw results file. *)
Definition get_algorithm_results (lines : list (string * Z * bool * string))
  : list AlgResultRecord.t :=
  fold_left (fun records line => (records ++ [AlgResultRecord.init line])%list) lines [].

(** ** [AlgRecord] *)

Module AlgRecord.
(** The attributes [superseded], [line_count] and [is_deprecated] are
    assigned by [merge] before anything reads them; until then the
    embedding holds [""], [""] and [false] there. *)
Record t : Type := mk {
  ours : bool;
  has_test : bool;
  test_fraction : Q;
  test_count : Z;
  name : string;
  path : string;
  type : string;
  is_test : bool;
  module : string;
  count_direct : list Z;
  count_internal : list Z;
  superseded : string;
  line_count : string;
  is_deprecated : bool
}.

Definition set_name (x : string) (r : t) : t :=
  mk (ours r) (has_test r) (test_fraction r) (test_count r) x (path r)
     (type r) (is_test r) (module r) (count_direct r) (count_internal r)
     (superseded r) (line_count r) (is_deprecated r).

Definition set_has_test (x : bool) (r : t) : t :=
  mk (ours r) x (test_fraction r) (test_count r) (name r) (path r)
     (type r) (is_test r) (module r) (count_direct r) (count_internal r)
     (superseded r) (line_count r) (is_deprecated r).

Definition set_test_fraction (x : Q) (r : t) : t :=
  mk (ours r) (has_test r) x (test_count r) (name r) (path r)
     (type r) (is_test r) (module r) (count_direct r) (count_internal r)
     (superseded r) (line_count r) (is_deprecated r).

Definition set_test_count (x : Z) (r : t) : t :=
  mk (ours r) (has_test r) (test_fraction r) x (name r) (path r)
     (type r) (is_test r) (module r) (count_direct r) (count_internal r)
     (superseded r) (line_count r) (is_deprecated r).

Definition set_count_direct (x : list Z) (r : t) : t :=
  mk (ours r) (has_test r) (test_fraction r) (test_count r) (name r) (path r)
     (type r) (is_test r) (module r) x (count_internal r)
     (superseded r) (line_count r) (is_deprecated r).

Definition set_count_internal (x : list Z) (r : t) : t :=
  mk (ours r) (has_test r) (test_fraction r) (test_count r) (name r) (path r)
     (type r) (is_test r) (module r) (count_direct r) x
     (superseded r) (line_count r) (is_deprecated r).

Definition set_superseded (x : string) (r : t) : t :=
  mk (ours r) (has_test r) (test_fraction r) (test_count r) (name r) (path r)
     (type r) (is_test r) (module r) (count_direct r) (count_internal r)
     x (line_count r) (is_deprecated r).

Definition set_line_count (x : string) (r : t) : t :=
  mk (ours r) (has_test r) (test_fraction r) (test_count r) (name r) (path r)
     (type r) (is_test r) (module r) (count_direct r) (count_internal r)
     (superseded r) x (is_deprecated r).

Definition set_is_deprecated (x : bool) (r : t) : t :=
  mk (ours r) (has_test r) (test_fraction r) (test_count r) (name r) (path r)
     (type r) (is_test r) (module r) (count_direct r) (count_internal r)
     (superseded r) (line_count r) x.

(** [AlgRecord(data)]: [data] is a catalog record or a name.  The third
    branch of the source, [RuntimeError('Bad init type')], is for a value
    of another type, which the type of [data] excludes. *)
Definition init (data : AlgFileRecord.t + string) : t :=
  match data with
  | inl data =>
      mk true false 0%Q 0
         (AlgFileRecord.name data) (AlgFileRecord.path data)
         (AlgFileRecord.type data) (AlgFileRecord.is_test data)
         (AlgFileRecord.module data)
         [0; 0; 0; 0; 0; 0; 0; 0] [0; 0; 0; 0; 0; 0; 0; 0] "" "" false
  | inr data =>
      mk false false 0%Q 0 data "-" "-" false "-"
         [0; 0; 0; 0; 0; 0; 0; 0] [0; 0; 0; 0; 0; 0; 0; 0] "" "" false
  end.

Definition index_for_version (version : string) : outcome nat :=
  if String.eqb version "3.5" then ok 0%nat
  else if String.eqb version "3.6" then ok 1%nat
  else if String.eqb version "3.7" then ok 2%nat
  else if String.eqb version "3.8" then ok 3%nat
  else if String.eqb version "3.9" then ok 4%nat
  else if String.eqb version "3.10" then ok 5%nat
  else if String.eqb version "3.11" then ok 6%nat
  else if String.eqb version "3.12" then ok 7%nat
  else raise (RuntimeError ("Unknown version " ++ version)).

(** [counts[index] += count], [IndexError] past the end of the list. *)
Fixpoint add_at (counts : list Z) (index : nat) (count : Z) : outcome (list Z) :=
  match counts, index with
  | [], _ => raise IndexError
  | x :: counts', O => ok ((x + count) :: counts')
  | x :: counts', S index' =>
      counts'' <- add_at counts' index' count ;; ok (x :: counts'')
  end.

Definition add_result_data (self : t) (result : AlgResultRecord.t) : outcome t :=
  index <- index_for_version (AlgResultRecord.version result) ;;
  let count := AlgResultRecord.count result in
  if AlgResultRecord.is_child result then
    counts <- add_at (count_internal self) index count ;;
    ok (set_count_internal counts self)
  else
    counts <- add_at (count_direct self) index count ;;
    ok (set_count_direct counts self).

Definition get_count (self : t) : Z :=
  sum (count_direct self) + sum (count_internal self).

(** [float(sum(self.count_internal))/count]: the sum is converted first,
    then the division converts [count]; either conversion can raise
    [OverflowError].  [count] is at least 1 there, so that the division
    never raises [ZeroDivisionError]. *)
Definition get_internal_fraction (self : t) : outcome Q :=
  let count := get_count self in
  if count <? 1 then ok 1%Q
  else
    internal <- float (sum (count_internal self)) ;;
    divisor <- float count ;;
    ok (internal / divisor)%Q.
End AlgRecord.

(** ** Line counts, tests and deprecation *)

Definition newline : ascii := ascii_of_nat 10.

Definition get_file_length (w : World) (filename : string) : outcome Z :=
  text <- open_read w filename ;;
  ok (Z.of_nat (List.length (str_split newline (str_strip text)))).

Definition get_test_count (w : World) (filename : string) : outcome Z :=
  text <- open_read w filename ;;
  ok (str_count text "  void test" + str_count text "  def test").

(** [try: body except: pass], the state [s] being what the body had
    reached when it raised. *)
Definition try_pass {S : Type} (body : outcome S) (s : S) : S :=
  match body with
  | inr s' => s'
  | inl _ => s
  end.

(** The test block of [add_line_count_info]: the body of the inner [try]
    on the test source, with the state (count, record) it leaves behind
    when one of its calls raises. *)
Definition add_test_info (w : World) (testsource : string) (source_lines : Z)
    (count : Z) (record : AlgRecord.t) : Z * AlgRecord.t :=
  match get_file_length w testsource with
  | inl _ => (count, record)
  | inr test_lines =>
      let count := count + test_lines in
      let record := AlgRecord.set_has_test true record in
      let record :=
        AlgRecord.set_test_fraction
          (inject_Z test_lines / inject_Z source_lines)%Q record in
      match get_test_count w testsource with
      | inl _ => (count, record)
      | inr n => (count, AlgRecord.set_test_count n record)
      end
  end.

Definition add_line_count_info (w : World) (record : AlgRecord.t)
  : outcome AlgRecord.t :=
  let source := AlgRecord.path record in
  let count := 0 in
  match get_file_length w source with
  | inl (IOError _) => ok (AlgRecord.set_line_count "-" record)
  | inl e => raise e
  | inr source_lines =>
      let count := count + source_lines in
      let basename :=
        first_item (str_split "." (last_item (str_split "/" source))) in
      (* Header lines (if applicable) *)
      count <-
        (if String.eqb (AlgRecord.type record) "C++"
            && negb (AlgRecord.is_test record)
         then
           let module := last_item (str_split "/" (AlgRecord.module record)) in
           header <- re_sub_call w ("/src/" ++ basename ++ ".cpp")
                       ("/inc/Mantid" ++ module ++ "/" ++ basename ++ ".h")
                       source ;;
           ok (try_pass (n <- get_file_length w header ;; ok (count + n)) count)
         else ok count) ;;
      (* Test lines (if applicable) *)
      state <-
        (if negb (AlgRecord.is_test record) then
           testsource <-
             (if String.eqb (AlgRecord.type record) "C++" then
                t <- re_sub_call w ("/src/" ++ basename ++ ".cpp")
                       ("/test/" ++ basename ++ "Test.h") source ;;
                ok (Some t)
              else if String.eqb (AlgRecord.type record) "Python" then
                ok (Some (str_replace
                            (str_replace
                               (str_replace source "/plugins/algorithms/"
                                  "/test/python/plugins/algorithms/")
                               ".py" "Test.py")
                            "/WorkflowAlgorithms" ""))
              else ok None) ;;
           match testsource with
           | Some testsource =>
               ok (add_test_info w testsource source_lines count record)
           | None => ok (count, record)
           end
         else ok (count, record)) ;;
      ok (AlgRecord.set_line_count (str (fst state)) (snd state))
  end.

Definition is_deprecated (w : World) (record : AlgRecord.t)
    (deprecated_headers : list string) : outcome bool :=
  let source := AlgRecord.path record in
  if String.eqb (AlgRecord.type record) "C++" && negb (AlgRecord.is_test record)
  then
    let basename :=
      first_item (str_split "." (last_item (str_split "/" source))) in
    let module := last_item (str_split "/" (AlgRecord.module record)) in
    header <- re_sub_call w ("/src/" ++ basename ++ ".cpp")
                ("/inc/Mantid" ++ module ++ "/" ++ basename ++ ".h") source ;;
    ok (str_in header deprecated_headers)
  else ok false.

Definition load_blacklist (w : World) : outcome (list string) :=
  text <- open_read w "blacklist" ;;
  ok (str_split newline (str_strip text)).

(** ** [merge], pass by pass *)

Definition merged_t : Type := dict AlgRecord.t.

(** Add known algorithms (found in Mantid source tree). *)
Definition add_known (algs : list AlgFileRecord.t) : merged_t :=
  fold_left
    (fun merged alg =>
       dict_set (AlgFileRecord.name alg) (AlgRecord.init (inl alg)) merged)
    algs [].

(** [merged.setdefault(result.name, AlgRecord(result.name)).add_result_data(result)] *)
Definition add_result (merged : merged_t) (result : AlgResultRecord.t)
  : outcome merged_t :=
  let name := AlgResultRecord.name result in
  let (record, merged) := dict_setdefault name (AlgRecord.init (inr name)) merged in
  record <- AlgRecord.add_result_data record result ;;
  ok (dict_set name record merged).

(** Add items from results, adding new records if unknown. *)
Definition add_results (results : list AlgResultRecord.t) (merged : merged_t)
  : outcome merged_t :=
  for_each add_result results merged.

(** The body of the supersession loop; [merged] is the dictionary the loop
    runs over, whose keys the loop does not change. *)
Definition init_superseded (merged : merged_t) (item : AlgRecord.t)
  : outcome AlgRecord.t :=
  alg_version <- int (last_char (AlgRecord.name item)) ;;
  let superseded :=
    if dict_mem (drop_last (AlgRecord.name item) ++ str (alg_version + 1)) merged
    then "superseded" else "          -" in
  ok (AlgRecord.set_superseded superseded item).

(** Add deprecation info. *)
Definition add_deprecation_info (w : World) (merged : merged_t)
  : outcome merged_t :=
  text <- open_read w (cache_dir w ++ "/deprecated-algorithms") ;;
  let deprecated_headers := str_split newline text in
  update_values
    (fun item =>
       d <- is_deprecated w item deprecated_headers ;;
       ok (AlgRecord.set_is_deprecated d item))
    merged.

(** Remove blacklisted items. *)
Definition remove_blacklisted (w : World) (merged : merged_t) : outcome merged_t :=
  blacklist <- load_blacklist w ;;
  del_all blacklist merged.

(** Remove unwanted items based on arguments. *)
Definition remove_unwanted (args : Args.t) (merged : merged_t) : outcome merged_t :=
  let to_delete :=
    flat_map
      (fun kv =>
         let key := fst kv in
         let value := snd kv in
         ((if Args.ours args && negb (AlgRecord.ours value) then [key] else [])
          ++
          (if negb (Args.include_tests args) && AlgRecord.is_test value
           then [key] else []))%list)
      merged in
  del_all to_delete merged.

(** Special cases: Q1D2. *)
Definition special_cases (merged : merged_t) : outcome merged_t :=
  tmp <- dict_item "Q1D.v2" merged ;;
  let tmp := AlgRecord.set_name "Q1D2.v1" tmp in
  merged <- dict_del "Q1D.v2" merged ;;
  ok (dict_set "Q1D2.v1" tmp merged).

(** The unified set: [merged] after the catalog and the results are in. *)
Definition merge_unified (algs : list AlgFileRecord.t)
    (results : list AlgResultRecord.t) : outcome merged_t :=
  add_results results (add_known algs).

(** [merged] as it reaches the blacklist removal: superseded field, line
    counts and deprecation info are set. *)
Definition merge_annotated (w : World) (algs : list AlgFileRecord.t)
    (results : list AlgResultRecord.t) : outcome merged_t :=
  merged <- merge_unified algs results ;;
  merged <- update_values (init_superseded merged) merged ;;
  merged <- update_values (add_line_count_info w) merged ;;
  add_deprecation_info w merged.

(** [merged] as it reaches the special cases. *)
Definition merge_filtered (w : World) (args : Args.t)
    (algs : list AlgFileRecord.t) (results : list AlgResultRecord.t)
  : outcome merged_t :=
  merged <- merge_annotated w algs results ;;
  merged <- remove_blacklisted w merged ;;
  remove_unwanted args merged.

(** [merge()].  [algs] is what [parse_mantid_source.get_declared_algorithms()]
    returned and [results] what [parse_raw_results.get_algorithm_results()]
    returned, after [update_cache] refreshed the cache. *)
Definition merge (w : World) (args : Args.t) (algs : list AlgFileRecord.t)
    (results : list AlgResultRecord.t) : outcome merged_t :=
  merged <- merge_filtered w args algs results ;;
  special_cases merged.

(** ** The summary *)

Module Summary.
Record t : Type := mk {
  total : Z;
  unused : Z;
  up_to_threshold : Z;
  deprecated : Z;
  superseded : Z;
  untested : Z
}.

Definition init : t := mk 0 0 0 0 0 0.
End Summary.

(** One turn of the loop of [get_summary].  [r.superseded is 'superseded']
    compares with the interned literal [merge] assigned, so it holds
    exactly when the field has that text. *)
Definition summary_step (args : Args.t) (summary : Summary.t) (r : AlgRecord.t)
  : Summary.t :=
  let total := Summary.total summary + 1 in
  let deprecated :=
    if AlgRecord.is_deprecated r then Summary.deprecated summary + 1
    else Summary.deprecated summary in
  let untested :=
    if negb (AlgRecord.has_test r) then Summary.untested summary + 1
    else Summary.untested summary in
  let superseded :=
    if String.eqb (AlgRecord.superseded r) "superseded"
    then Summary.superseded summary + 1 else Summary.superseded summary in
  let count := AlgRecord.get_count r in
  let unused :=
    if count =? 0 then Summary.unused summary + 1 else Summary.unused summary in
  let up_to_threshold :=
    if count =? 0 then Summary.up_to_threshold summary + 1
    else Summary.up_to_threshold summary in
  let up_to_threshold :=
    if (0 <? count) && (count <=? Args.max_count args) then up_to_threshold + 1
    else up_to_threshold in
  Summary.mk total unused up_to_threshold deprecated superseded untested.

Definition get_summary (args : Args.t) (merged : merged_t) : Summary.t :=
  fold_left (summary_step args) (values merged) Summary.init.

(** ** The reports *)



(** [sorted(records, key=lambda k : k.get_count())], a stable sort. *)
Fixpoint insert_record (x : AlgRecord.t) (records : list AlgRecord.t)
  : list AlgRecord.t :=
  match records with
  | [] => [x]
  | y :: ys =>
      if AlgRecord.get_count x <=? AlgRecord.get_count y then x :: y :: ys
      else y :: insert_record x ys
  end.

Definition sorted_by_count (records : list AlgRecord.t) : list AlgRecord.t :=
  fold_right insert_record [] records.


(** What [print_summary] collects in its loop. *)
Module Collected.
Record t : Type := mk {
  line_count : Z;
  line_count_unused : Z;
  line_count_up_to_threshold : Z;
  deprecated : list string;
  superseded : list string;
  unused : list string;
  below_max : list string;
  untested : list string
}.

Definition init : t := mk 0 0 0 [] [] [] [] [].
End Collected.


(** What [print_summary] prints: the five sorted sections, the three line
    totals and the summary of [get_summary]. *)
Module Printed.
Record t : Type := mk {
  unused : list string;
  below_max : list string;
  untested : list string;
  deprecated : list string;
  superseded : list string;
  line_count : Z;
  line_count_up_to_threshold : Z;
  line_count_unused : Z;
  summary : Summary.t
}.
End Printed.


(** The figures: the records by use count, in seven ranges. *)
Definition thresholds : list Z := [1; 10; 20; 100; 1000; 10000; 1000000000].

(** [while record.get_count() >= thresholds[index]: index = index + 1],
    [rest] being [thresholds[index:]]; past the end of the list
    [thresholds[index]] raises [IndexError]. *)
Fixpoint advance (count : Z) (rest : list Z) (index : nat) : outcome nat :=
  match rest with
  | [] => raise IndexError
  | threshold :: rest' =>
      if count >=? threshold then advance count rest' (S index) else ok index
  end.

(** One turn of the loop over the sorted records: the state is [index],
    [counts] and [code].  [record.line_count is not '-'] compares with the
    string [merge] assigns, so it holds when the text differs. *)
Definition bucket_step (state : nat * list Z * list Z) (record : AlgRecord.t)
  : outcome (nat * list Z * list Z) :=
  let '(index, counts, code) := state in
  index <- advance (AlgRecord.get_count record) (skipn index thresholds) index ;;
  counts <- AlgRecord.add_at counts index 1 ;;
  if negb (String.eqb (AlgRecord.line_count record) "-") then
    n <- int (AlgRecord.line_count record) ;;
    code <- AlgRecord.add_at code index n ;;
    ok (index, counts, code)
  else ok (index, counts, code).

(** [counts] and [code] as the figures plot them. *)
Definition figure_buckets (merged : merged_t) : outcome (list Z * list Z) :=
  let records := sorted_by_count (values merged) in
  let counts := repeat 0 (List.length thresholds) in
  let code := repeat 0 (List.length thresholds) in
  state <- for_each bucket_step records (0%nat, counts, code) ;;
  ok (snd (fst state), snd state).

(** ** Vocabulary of the statements *)

(** The supported versions, slot by slot. *)
Definition supported_versions : list string :=
  ["3.5"; "3.6"; "3.7"; "3.8"; "3.9"; "3.10"; "3.11"; "3.12"].

Definition is_supported (version : string) : bool :=
  str_in version supported_versions.

(** What the passes after the results leave alone in a record. *)
Definition same_core (r r' : AlgRecord.t) : Prop :=
  AlgRecord.name r' = AlgRecord.name r
  /\ AlgRecord.ours r' = AlgRecord.ours r
  /\ AlgRecord.is_test r' = AlgRecord.is_test r
  /\ AlgRecord.count_direct r' = AlgRecord.count_direct r
  /\ AlgRecord.count_internal r' = AlgRecord.count_internal r.

(** Invariants of the entries of [merged]. *)
Definition key_is_name (kv : string * AlgRecord.t) : Prop :=
  AlgRecord.name (snd kv) = fst kv.

Definition eight_slots (kv : string * AlgRecord.t) : Prop :=
  List.length (AlgRecord.count_direct (snd kv)) = 8%nat
  /\ List.length (AlgRecord.count_internal (snd kv)) = 8%nat.

Definition counts_nonneg (r : AlgRecord.t) : Prop :=
  Forall (fun x => 0 <= x) (AlgRecord.count_direct r)
  /\ Forall (fun x => 0 <= x) (AlgRecord.count_internal r).

(** A record that does not come from the catalog is not a test. *)
Definition test_is_ours (kv : string * AlgRecord.t) : Prop :=
  AlgRecord.ours (snd kv) = false -> AlgRecord.is_test (snd kv) = false.

(** Every record of [m] is a record of [m0] under the same key, up to the
    fields the later passes assign. *)
Definition descends (m0 m : merged_t) : Prop :=
  forall k r, In (k, r) m -> exists r0, In (k, r0) m0 /\ same_core r0 r.

(** The text the supersession pass assigns to a record of [merged]. *)
Definition superseded_text (merged : merged_t) (name : string) (alg_version : Z)
  : string :=
  if dict_mem (drop_last name ++ str (alg_version + 1)) merged
  then "superseded" else "          -".

(** The number of records of [merged] that satisfy [p]. *)
Definition count_if (p : AlgRecord.t -> bool) (merged : merged_t) : Z :=
  Z.of_nat (List.length (filter p (values merged))).

(** The identity [X.vN]. *)
Definition identity (X : string) (N : Z) : string := X ++ ".v" ++ str N.

(** The sum of the counts of the observations of one name. *)
Definition observed_total (k : string) (results : list AlgResultRecord.t) : Z :=
  sum (map AlgResultRecord.count
         (filter (fun result => String.eqb (AlgResultRecord.name result) k)
            results)).

(** Every record of [merged] has the total [f] gives for its key, and [f]
    is 0 for the names that are not keys. *)
Definition totals_agree (f : string -> Z) (merged : merged_t) : Prop :=
  forall k,
    match dict_get k merged with
    | Some r => AlgRecord.get_count r = f k
    | None => f k = 0
    end.

(** The observations that go to one slot. *)
Definition in_slot (index : nat) (result : AlgResultRecord.t) : bool :=
  match AlgRecord.index_for_version (AlgResultRecord.version result) with
  | inr i => Nat.eqb i index
  | inl _ => false
  end.

(** The sum of the counts of the observations of one name, one kind of
    call and one slot. *)
Definition slot_total (k : string) (child : bool) (index : nat)
    (results : list AlgResultRecord.t) : Z :=
  sum (map AlgResultRecord.count
         (filter
            (fun result =>
               String.eqb (AlgResultRecord.name result) k
               && Bool.eqb (AlgResultRecord.is_child result) child
               && in_slot index result)
            results)).

Definition slots_agree (f : string -> bool -> nat -> Z) (merged : merged_t)
  : Prop :=
  forall k,
    match dict_get k merged with
    | Some r =>
        forall index,
          nth index (AlgRecord.count_direct r) 0 = f k false index
          /\ nth index (AlgRecord.count_internal r) 0 = f k true index
    | None => forall child index, f k child index = 0
    end.

(** The name whose observations the record under a returned key carries. *)
Definition observed_key (k : string) : string :=
  if String.eqb k "Q1D2.v1" then "Q1D.v2" else k.

(** The fields the passes after the results assign, as [AlgRecord(data)]
    leaves them. *)
Definition untouched (kv : string * AlgRecord.t) : Prop :=
  AlgRecord.has_test (snd kv) = false
  /\ AlgRecord.test_fraction (snd kv) = 0%Q
  /\ AlgRecord.test_count (snd kv) = 0
  /\ AlgRecord.superseded (snd kv) = ""
  /\ AlgRecord.line_count (snd kv) = ""
  /\ AlgRecord.is_deprecated (snd kv) = false.

(** A record made from a name alone. *)
Definition usage_only_shape (kv : string * AlgRecord.t) : Prop :=
  AlgRecord.ours (snd kv) = false ->
  AlgRecord.path (snd kv) = "-"
  /\ AlgRecord.type (snd kv) = "-"
  /\ AlgRecord.module (snd kv) = "-"
  /\ AlgRecord.is_test (snd kv) = false.

(** The names of the catalog and of the observations. *)
Definition input_names (algs : list AlgFileRecord.t)
    (results : list AlgResultRecord.t) : list string :=
  (map AlgFileRecord.name algs ++ map AlgResultRecord.name results)%list.

(** The test of the removal of unwanted items. *)
Definition unwanted (args : Args.t) (r : AlgRecord.t) : bool :=
  Args.ours args && negb (AlgRecord.ours r)
  || negb (Args.include_tests args) && AlgRecord.is_test r.

(** What the line count pass leaves alone in a record. *)
Definition same_but_tests (r r' : AlgRecord.t) : Prop :=
  AlgRecord.ours r' = AlgRecord.ours r
  /\ AlgRecord.name r' = AlgRecord.name r
  /\ AlgRecord.path r' = AlgRecord.path r
  /\ AlgRecord.type r' = AlgRecord.type r
  /\ AlgRecord.is_test r' = AlgRecord.is_test r
  /\ AlgRecord.module r' = AlgRecord.module r
  /\ AlgRecord.superseded r' = AlgRecord.superseded r
  /\ AlgRecord.is_deprecated r' = AlgRecord.is_deprecated r.

(** What the line count pass has set in a record: no line count when the
    source cannot be read; otherwise the numeral of a positive number, and
    test data only for a tested record. *)
Definition line_counted (w : World) (r : AlgRecord.t) : Prop :=
  (read_file w (AlgRecord.path r) = None
   /\ AlgRecord.line_count r = "-"
   /\ AlgRecord.has_test r = false)
  \/ (exists text n,
        read_file w (AlgRecord.path r) = Some text
        /\ 1 <= n
        /\ AlgRecord.line_count r = str n).

Definition test_data_ok (r : AlgRecord.t) : Prop :=
  (AlgRecord.has_test r = true ->
   AlgRecord.is_test r = false
   /\ (AlgRecord.type r = "C++" \/ AlgRecord.type r = "Python")
   /\ (0 < AlgRecord.test_fraction r)%Q
   /\ 0 <= AlgRecord.test_count r)
  /\ (AlgRecord.has_test r = false ->
      AlgRecord.test_fraction r = 0%Q /\ AlgRecord.test_count r = 0).



(** The range of the figures a use count falls in: the number of
    thresholds it has reached. *)
Definition bucket_of (count : Z) : nat :=
  List.length (filter (fun threshold => threshold <=? count) thresholds).

Definition in_bucket (index : nat) (r : AlgRecord.t) : bool :=
  Nat.eqb (bucket_of (AlgRecord.get_count r)) index.

(** The lines a record adds to the line totals. *)
Definition line_value (r : AlgRecord.t) : Z :=
  match int (AlgRecord.line_count r) with
  | inr n => n
  | inl _ => 0
  end.

(** A line count as [merge] assigns it. *)
Definition line_count_ok (r : AlgRecord.t) : Prop :=
  AlgRecord.line_count r = "-"
  \/ exists n, 1 <= n /\ AlgRecord.line_count r = str n.

(** The order of [sorted_by_count]. *)
Definition count_le (a b : AlgRecord.t) : Prop :=
  AlgRecord.get_count a <= AlgRecord.get_count b.

(** ** Sample worlds and inputs *)

(** A world with an empty deprecation list, the given blacklist file and no
    other file; [re.sub] finds no match. *)
Definition sample_world (blacklist : string) : World :=
  {| read_file := fun f =>
       if String.eqb f "cache/deprecated-algorithms" then Some ""
       else if String.eqb f "blacklist" then Some blacklist
       else None;
     re_sub := fun _ _ s => Some s;
     cache_dir := "cache" |}.

(** The command line without options. *)
Definition no_options : Args.t := Args.mk false false (-1) false false false false.

Definition observation (name : string) (count : Z) (is_child : bool)
    (version : string) : AlgResultRecord.t :=
  AlgResultRecord.init (name, count, is_child, version).

(** A catalog with one C++ algorithm, and observations that let [merge]
    return in [sample_world "B.v1"]: [B.v1] is blacklisted and [Q1D.v2] is
    there for the special case. *)
Definition sample_algs : list AlgFileRecord.t :=
  [AlgFileRecord.mk "A.v1" "Framework/Algorithms/src/A.cpp" "C++" false
     "Framework/Algorithms"].

Definition sample_results : list AlgResultRecord.t :=
  [observation "A.v1" 3 false "3.5"; observation "A.v2" 7 true "3.6";
   observation "B.v1" 1 false "3.5"; observation "Q1D.v2" 2 false "3.9"].

(** The mapping of a run that returned, [[]] for a run that raised. *)
Definition returned (run : outcome merged_t) : merged_t :=
  match run with
  | inr merged => merged
  | inl _ => []
  end.

(** The record under a key, a fresh record when there is none. *)
Definition record_at (k : string) (merged : merged_t) : AlgRecord.t :=
  match dict_get k merged with
  | Some r => r
  | None => AlgRecord.init (inr k)
  end.

Definition sample_merged : merged_t :=
  Eval vm_compute in
    returned (merge (sample_world "B.v1") no_options sample_algs sample_results).

Definition sample_A2 : AlgRecord.t :=
  Eval vm_compute in record_at "A.v2" sample_merged.

(** The example of section 8 of the specification. *)
Definition example_observations : list AlgResultRecord.t :=
  [observation "A.v1" 3 false "3.5"; observation "A.v2" 7 true "3.6"].

(** The two records of the example as the later passes leave them, up to
    the line count, which depends on the files of the world. *)
Definition example_A1 (line_count : string) : AlgRecord.t :=
  AlgRecord.mk false false 0%Q 0 "A.v1" "-" "-" false "-"
    [3; 0; 0; 0; 0; 0; 0; 0] [0; 0; 0; 0; 0; 0; 0; 0]
    "superseded" line_count false.

Definition example_A2 (line_count : string) : AlgRecord.t :=
  AlgRecord.mk false false 0%Q 0 "A.v2" "-" "-" false "-"
    [0; 0; 0; 0; 0; 0; 0; 0] [0; 7; 0; 0; 0; 0; 0; 0]
    "          -" line_count false.

(** Observations with versions 19 and 20 of one algorithm. *)
Definition two_digit_results : list AlgResultRecord.t :=
  [observation "A.v19" 1 false "3.5"; observation "A.v20" 2 false "3.5";
   observation "B.v1" 1 false "3.5"; observation "Q1D.v2" 1 false "3.5"].

(** Observations with a negative count. *)
Definition negative_results : list AlgResultRecord.t :=
  [observation "B.v1" 1 false "3.5"; observation "Q1D.v2" (-3) false "3.5";
   observation "Q1D.v2" 2 true "3.6"].

Definition mixed_sign_results : list AlgResultRecord.t :=
  [observation "B.v1" 1 false "3.5"; observation "Q1D.v2" (-3) false "3.5";
   observation "Q1D.v2" 5 true "3.6"].

(** Observations with a count that no double holds. *)
Definition overflow_results : list AlgResultRecord.t :=
  [observation "B.v1" 1 false "3.5";
   observation "Q1D.v2" (2 ^ 1024) true "3.5"].

(** Observations where the target of the rename is there already. *)
Definition collision_results : list AlgResultRecord.t :=
  [observation "B.v1" 1 false "3.5"; observation "Q1D2.v1" 10 false "3.5";
   observation "Q1D.v2" 2 false "3.9"].

Definition collision_filtered : merged_t :=
  Eval vm_compute in
    returned (merge_filtered (sample_world "B.v1") no_options [] collision_results).

Definition collision_merged : merged_t :=
  Eval vm_compute in
    returned (merge (sample_world "B.v1") no_options [] collision_results).

(** Observations where the blacklisted [Q1D2.v1] is the target of the
    rename. *)
Definition blacklisted_target_results : list AlgResultRecord.t :=
  [observation "Q1D2.v1" 10 false "3.5"; observation "Q1D.v2" 2 false "3.9"].

(** Observations with a version the program does not know. *)
Definition unknown_version_results : list AlgResultRecord.t :=
  [observation "A.v1" 3 false "3.5"; observation "A.v2" 1 false "4.0"].

(** A world with the files of one C++ algorithm, [Q1D], its header and its
    test, a deprecation list that names the header, a blacklist with
    [B.v1] and an empty file.  For these paths [re.sub] replaces the text
    of the pattern. *)
Definition text_of_lines (lines : list string) : string :=
  String.concat (String newline "") lines.

Definition rich_world : World :=
  {| read_file := fun f =>
       if String.eqb f "src/Framework/Algorithms/src/Q1D.cpp"
       then Some (text_of_lines ["#include <Q1D.h>"; "void Q1D::exec() {"; "}"; ""])
       else if String.eqb f "src/Framework/Algorithms/inc/MantidAlgorithms/Q1D.h"
       then Some (text_of_lines ["class Q1D {"; "};"])
       else if String.eqb f "src/Framework/Algorithms/test/Q1DTest.h"
       then Some (text_of_lines
                    ["class Q1DTest {"; "  void testInit() {}";
                     "  void testExec() {}"; "};"])
       else if String.eqb f "cache/deprecated-algorithms"
       then Some (text_of_lines
                    ["src/Framework/Algorithms/inc/MantidAlgorithms/Q1D.h"; ""])
       else if String.eqb f "blacklist" then Some (text_of_lines ["B.v1"; ""])
       else if String.eqb f "empty.py" then Some ""
       else None;
     re_sub := fun pattern repl s => Some (str_replace s pattern repl);
     cache_dir := "cache" |}.

Definition rich_algs : list AlgFileRecord.t :=
  [AlgFileRecord.mk "Q1D.v2" "src/Framework/Algorithms/src/Q1D.cpp" "C++" false
     "Framework/Algorithms";
   AlgFileRecord.mk "T.v1" "src/Framework/Algorithms/test/TTest.h" "C++" true
     "Framework/Algorithms"].

Definition rich_results : list AlgResultRecord.t :=
  [observation "A.v1" 3 false "3.5"; observation "B.v1" 1 false "3.5";
   observation "Q1D.v2" 2 true "3.9"; observation "Q1D.v2" 5 false "3.9"].

(** The command line [--ours], and one with [--max-count 5 --summary]. *)
Definition ours_only : Args.t := Args.mk true false (-1) false false false false.
Definition up_to_five : Args.t := Args.mk false false 5 false false true false.

Definition rich_annotated : merged_t :=
  Eval vm_compute in returned (merge_annotated rich_world rich_algs rich_results).

Definition rich_filtered : merged_t :=
  Eval vm_compute in
    returned (merge_filtered rich_world no_options rich_algs rich_results).

Definition rich_merged : merged_t :=
  Eval vm_compute in
    returned (merge rich_world no_options rich_algs rich_results).

Definition rich_Q1D2 : AlgRecord.t :=
  Eval vm_compute in record_at "Q1D2.v1" rich_merged.

Definition rich_ours_merged : merged_t :=
  Eval vm_compute in
    returned (merge rich_world ours_only rich_algs rich_results).

Definition sample_annotated : merged_t :=
  Eval vm_compute in
    returned (merge_annotated (sample_world "B.v1") sample_algs sample_results).

(** A world without files. *)
Definition bare_world : World :=
  {| read_file := fun _ => None;
     re_sub := fun _ _ s => Some s;
     cache_dir := "cache" |}.

(** An observation whose name carries no version. *)
Definition unversioned_results : list AlgResultRecord.t :=
  [observation "Load" 1 false "3.5"].

(** Observations with a use count of 1000000000. *)
Definition huge_results : list AlgResultRecord.t :=
  [observation "B.v1" 1 false "3.5";
   observation "Q1D.v2" 1000000000 false "3.12"].

Definition huge_merged : merged_t :=
  Eval vm_compute in
    returned (merge (sample_world "B.v1") no_options [] huge_results).

(** * Properties *)

Unset Implicit Arguments.

(** ** The exception monad and the loops *)

Lemma bind_ok_inv (A B : Type) (c : outcome A) (k : A -> outcome B) (b : B) :
  (x <- c ;; k x) = ok b -> exists a, c = ok a /\ k a = ok b.
Proof.
  destruct c as [e | a]; simpl; intros H.
  - discriminate H.
  - exists a. split; [reflexivity | exact H].
Qed.

Lemma bind_raise (A B : Type) (c : outcome A) (k : A -> outcome B) (e : exn) :
  c = raise e -> (x <- c ;; k x) = raise e.
Proof. intros ->. reflexivity. Qed.

Lemma bind_ok (A B : Type) (c : outcome A) (k : A -> outcome B) (a : A) :
  c = ok a -> (x <- c ;; k x) = k a.
Proof. intros ->. reflexivity. Qed.

Ltac bind_inv H :=
  let a := fresh "m" in
  let Ha := fresh "H" a in
  apply bind_ok_inv in H; destruct H as (a & Ha & H).

Lemma map_each_Forall2 (A B : Type) (body : A -> outcome B) (xs : list A)
    (ys : list B) :
  map_each body xs = ok ys -> Forall2 (fun x y => body x = ok y) xs ys.
Proof.
  revert ys. induction xs as [| x xs IH]; simpl; intros ys H.
  - inversion H. constructor.
  - bind_inv H. bind_inv H. inversion H; subst. constructor; auto.
Qed.

(** ** Dictionaries *)

Section DictFacts.
Variable V : Type.
Implicit Types (d : dict V) (k : string) (v : V).

Lemma dict_get_None_iff k d : dict_get k d = None <-> ~ In k (keys d).
Proof.
  induction d as [| [k' v'] d IH]; simpl.
  - tauto.
  - destruct (String.eqb_spec k k') as [-> | Hne].
    + split; [discriminate | intros H; exfalso; apply H; now left].
    + rewrite IH. split; intros H; [intros [E | HI] | ]; auto; congruence.
Qed.

Lemma dict_get_In k v d : dict_get k d = Some v -> In (k, v) d.
Proof.
  induction d as [| [k' v'] d IH]; simpl; [discriminate |].
  destruct (String.eqb_spec k k') as [-> | Hne]; intros H.
  - inversion H; subst. now left.
  - right. auto.
Qed.

Lemma In_keys k v d : In (k, v) d -> In k (keys d).
Proof. intros H. change k with (fst (k, v)). now apply in_map. Qed.

Lemma In_dict_get k v d : NoDup (keys d) -> In (k, v) d -> dict_get k d = Some v.
Proof.
  induction d as [| [k' v'] d IH]; simpl; [tauto |].
  intros Hnd [E | HI].
  - inversion E; subst. now rewrite String.eqb_refl.
  - inversion Hnd as [| ? ? Hk Hnd']; subst.
    destruct (String.eqb_spec k k') as [-> | Hne].
    + exfalso. apply Hk. eapply In_keys; eauto.
    + auto.
Qed.

Lemma dict_mem_true_iff k d : dict_mem k d = true <-> In k (keys d).
Proof.
  unfold dict_mem. destruct (dict_get k d) eqn:E.
  - split; [intros _ | reflexivity].
    apply dict_get_In in E. eapply In_keys; eauto.
  - apply dict_get_None_iff in E. split; [discriminate | tauto].
Qed.

Lemma dict_get_set_eq k v d : dict_get k (dict_set k v d) = Some v.
Proof.
  induction d as [| [k' v'] d IH]; simpl.
  - now rewrite String.eqb_refl.
  - destruct (String.eqb_spec k k') as [-> | Hne]; simpl.
    + now rewrite String.eqb_refl.
    + destruct (String.eqb_spec k k'); [contradiction | exact IH].
Qed.

Lemma dict_get_set_neq k k' v d :
  k' <> k -> dict_get k' (dict_set k v d) = dict_get k' d.
Proof.
  intros Hne. induction d as [| [k0 v0] d IH]; simpl.
  - destruct (String.eqb_spec k' k); [contradiction | reflexivity].
  - destruct (String.eqb_spec k k0) as [-> | Hne0]; simpl.
    + destruct (String.eqb_spec k' k0); [contradiction | reflexivity].
    + now rewrite IH.
Qed.

Lemma In_dict_set k v d (x : string * V) :
  In x (dict_set k v d) -> x = (k, v) \/ In x d.
Proof.
  induction d as [| [k' v'] d IH]; simpl.
  - intros [E | []]. now left.
  - destruct (String.eqb_spec k k') as [-> | Hne]; simpl.
    + intros [E | HI]; auto.
    + intros [E | HI]; auto. destruct (IH HI); auto.
Qed.

Lemma In_keys_dict_set k k' v d :
  In k' (keys (dict_set k v d)) <-> k' = k \/ In k' (keys d).
Proof.
  induction d as [| [k0 v0] d IH]; simpl.
  - intuition.
  - destruct (String.eqb_spec k k0) as [-> | Hne]; simpl.
    + intuition.
    + rewrite IH. intuition.
Qed.

Lemma NoDup_dict_set k v d : NoDup (keys d) -> NoDup (keys (dict_set k v d)).
Proof.
  induction d as [| [k' v'] d IH]; simpl; intros Hnd.
  - constructor; [intros [] | constructor].
  - inversion Hnd as [| ? ? Hk Hnd']; subst.
    destruct (String.eqb_spec k k') as [-> | Hne]; simpl.
    + now constructor.
    + constructor; [| auto].
      rewrite In_keys_dict_set. intros [E | HI]; [congruence | contradiction].
Qed.

Lemma Forall_dict_set (P : string * V -> Prop) k v d :
  Forall P d -> P (k, v) -> Forall P (dict_set k v d).
Proof.
  intros Hd Hkv. apply Forall_forall. intros x Hx.
  apply In_dict_set in Hx. destruct Hx as [-> | Hx]; [exact Hkv |].
  rewrite Forall_forall in Hd. auto.
Qed.

Lemma length_dict_set_mem k v d :
  In k (keys d) -> List.length (dict_set k v d) = List.length d.
Proof.
  induction d as [| [k' v'] d IH]; simpl; [tauto |].
  destruct (String.eqb_spec k k') as [-> | Hne]; simpl; [reflexivity |].
  intros [E | HI]; [congruence | now rewrite IH].
Qed.

Lemma dict_del_raise k d (e : exn) : dict_del k d = raise e -> e = KeyError k.
Proof.
  induction d as [| [k' v'] d IH]; simpl.
  - intros H. inversion H. reflexivity.
  - destruct (String.eqb_spec k k'); [discriminate |].
    destruct (dict_del k d) as [e' | d'] eqn:E; simpl; [| discriminate].
    intros H. inversion H; subst. now apply IH.
Qed.

Lemma dict_del_missing k d : ~ In k (keys d) -> dict_del k d = raise (KeyError k).
Proof.
  induction d as [| [k' v'] d IH]; simpl; intros H; [reflexivity |].
  destruct (String.eqb_spec k k') as [-> | Hne]; [tauto |].
  rewrite IH by tauto. reflexivity.
Qed.

Lemma dict_del_present k d : In k (keys d) -> exists d', dict_del k d = ok d'.
Proof.
  induction d as [| [k' v'] d IH]; simpl; [tauto |].
  destruct (String.eqb_spec k k') as [-> | Hne]; intros H.
  - eauto.
  - destruct IH as [d' ->]; [destruct H; congruence |]. simpl. eauto.
Qed.

Lemma dict_del_incl k d d' : dict_del k d = ok d' -> incl d' d.
Proof.
  revert d'. induction d as [| [k' v'] d IH]; simpl; intros d' H.
  - discriminate H.
  - destruct (String.eqb_spec k k') as [-> | Hne].
    + inversion H; subst. apply incl_tl, incl_refl.
    + bind_inv H. inversion H; subst.
      apply incl_cons; [now left | apply incl_tl; auto].
Qed.

Lemma dict_del_keys k k' d d' :
  dict_del k d = ok d' -> In k' (keys d') -> In k' (keys d).
Proof.
  intros H HI. unfold keys in *. apply in_map_iff in HI.
  destruct HI as ([k0 v0] & E & HI); simpl in E; subst.
  apply (dict_del_incl _ _ _ H) in HI. eapply In_keys; eauto.
Qed.

Lemma dict_del_keys_neq k k' d d' :
  dict_del k d = ok d' -> k' <> k -> In k' (keys d) -> In k' (keys d').
Proof.
  revert d'. induction d as [| [k0 v0] d IH]; simpl; intros d' H Hne HI.
  - discriminate H.
  - destruct (String.eqb_spec k k0) as [-> | Hne0].
    + inversion H; subst. destruct HI; [congruence | assumption].
    + bind_inv H. inversion H; subst. simpl.
      destruct HI; [now left | right; eauto].
Qed.

Lemma dict_del_NoDup k d d' :
  dict_del k d = ok d' -> NoDup (keys d) -> NoDup (keys d') /\ ~ In k (keys d').
Proof.
  revert d'. induction d as [| [k0 v0] d IH]; simpl; intros d' H Hnd.
  - discriminate H.
  - inversion Hnd as [| ? ? Hk Hnd']; subst.
    destruct (String.eqb_spec k k0) as [-> | Hne0].
    + inversion H; subst. auto.
    + bind_inv H. inversion H; subst. simpl.
      destruct (IH _ Hm Hnd') as [Hnd1 Hk1]. split.
      * constructor; [| assumption]. intros HI. apply Hk.
        eapply dict_del_keys; eauto.
      * intros [E | HI]; [congruence | contradiction].
Qed.

Lemma dict_get_del_neq k k' d d' :
  dict_del k d = ok d' -> k' <> k -> dict_get k' d' = dict_get k' d.
Proof.
  revert d'. induction d as [| [k0 v0] d IH]; simpl; intros d' H Hne.
  - discriminate H.
  - destruct (String.eqb_spec k k0) as [-> | Hne0].
    + inversion H; subst.
      destruct (String.eqb_spec k' k0); [contradiction | reflexivity].
    + bind_inv H. inversion H; subst. simpl.
      destruct (String.eqb_spec k' k0); [reflexivity | eauto].
Qed.

Lemma length_dict_del k d d' :
  dict_del k d = ok d' -> S (List.length d') = List.length d.
Proof.
  revert d'. induction d as [| [k0 v0] d IH]; simpl; intros d' H.
  - discriminate H.
  - destruct (String.eqb_spec k k0) as [-> | Hne0].
    + inversion H; subst. reflexivity.
    + bind_inv H. inversion H; subst. simpl. f_equal. auto.
Qed.

Lemma del_all_incl ks d d' : del_all ks d = ok d' -> incl d' d.
Proof.
  unfold del_all. revert d. induction ks as [| k ks IH]; simpl; intros d H.
  - inversion H; subst. apply incl_refl.
  - bind_inv H. eapply incl_tran; [eapply IH; eauto |].
    eapply dict_del_incl; eauto.
Qed.

Lemma del_all_keys ks k d d' :
  del_all ks d = ok d' -> In k (keys d') -> In k (keys d).
Proof.
  intros H HI. unfold keys in *. apply in_map_iff in HI.
  destruct HI as ([k0 v0] & E & HI); simpl in E; subst.
  apply (del_all_incl _ _ _ H) in HI. eapply In_keys; eauto.
Qed.

Lemma del_all_NoDup ks d d' :
  del_all ks d = ok d' -> NoDup (keys d) ->
  NoDup (keys d') /\ forall k, In k ks -> ~ In k (keys d').
Proof.
  unfold del_all. revert d. induction ks as [| k ks IH]; simpl; intros d H Hnd.
  - inversion H; subst. split; [assumption | tauto].
  - bind_inv H. destruct (dict_del_NoDup _ _ _ Hm Hnd) as [Hnd1 Hk1].
    destruct (IH _ H Hnd1) as [Hnd2 Hks]. split; [assumption |].
    intros k' [<- | HI]; [| auto].
    intros HI. apply Hk1. eapply del_all_keys; eauto.
Qed.

(** The loop raises when it meets a key that is not there (any more). *)
Lemma del_all_missing ks d k :
  In k ks -> ~ In k (keys d) ->
  exists k0, In k0 ks /\ del_all ks d = raise (KeyError k0).
Proof.
  unfold del_all. revert d. induction ks as [| k1 ks IH]; simpl; intros d HI Hk.
  - contradiction.
  - destruct (dict_del k1 d) as [e | d1] eqn:E; simpl.
    + apply dict_del_raise in E. subst. eauto.
    + destruct HI as [-> | HI].
      * rewrite dict_del_missing in E by assumption. discriminate E.
      * destruct (IH d1 HI) as (k0 & Hk0 & Hr).
        -- intros HI1. apply Hk. eapply dict_del_keys; eauto.
        -- eauto.
Qed.

Lemma del_all_returns ks d :
  NoDup ks -> incl ks (keys d) -> exists d', del_all ks d = ok d'.
Proof.
  unfold del_all. intros Hnd. revert d.
  induction Hnd as [| k ks Hk _ IH]; simpl; intros d Hi.
  - eauto.
  - destruct (dict_del_present k d) as [d1 Hd1]; [apply Hi; now left |].
    rewrite Hd1. simpl. apply IH. intros k' Hk'.
    eapply dict_del_keys_neq; [exact Hd1 | congruence | apply Hi; now right].
Qed.

Lemma update_values_Forall2 (body : V -> outcome V) d d' :
  update_values body d = ok d' ->
  Forall2 (fun x y => fst y = fst x /\ body (snd x) = ok (snd y)) d d'.
Proof.
  unfold update_values. intros H. apply map_each_Forall2 in H.
  induction H as [| x y xs ys Hxy _ IH]; constructor; [| exact IH].
  bind_inv Hxy. inversion Hxy; subst. simpl. auto.
Qed.

Lemma update_values_keys (body : V -> outcome V) d d' :
  update_values body d = ok d' -> keys d' = keys d.
Proof.
  intros H. apply update_values_Forall2 in H.
  induction H as [| x y xs ys [Hk _] _ IH]; simpl; [reflexivity |].
  now rewrite Hk, IH.
Qed.

Lemma update_values_In (body : V -> outcome V) d d' k v' :
  update_values body d = ok d' -> In (k, v') d' ->
  exists v, In (k, v) d /\ body v = ok v'.
Proof.
  intros H. apply update_values_Forall2 in H.
  induction H as [| [k0 v0] [k1 v1] xs ys [Hk Hb] _ IH]; simpl in *; [tauto |].
  intros [E | HI].
  - inversion E; subst. eauto.
  - destruct (IH HI) as (v & Hv & Hbv). eauto.
Qed.
End DictFacts.

(** ** Records *)

Lemma same_core_refl r : same_core r r.
Proof. repeat split. Qed.

Lemma same_core_trans r1 r2 r3 : same_core r1 r2 -> same_core r2 r3 -> same_core r1 r3.
Proof.
  unfold same_core. intros (A1 & A2 & A3 & A4 & A5) (B1 & B2 & B3 & B4 & B5).
  repeat split; congruence.
Qed.

Lemma init_superseded_ok merged item item' :
  init_superseded merged item = ok item' ->
  exists alg_version,
    int (last_char (AlgRecord.name item)) = ok alg_version
    /\ item' =
       AlgRecord.set_superseded
         (if dict_mem (drop_last (AlgRecord.name item) ++ str (alg_version + 1)) merged
          then "superseded" else "          -") item.
Proof.
  unfold init_superseded. intros H. bind_inv H. inversion H; subst. eauto.
Qed.

Lemma init_superseded_core merged item item' :
  init_superseded merged item = ok item' -> same_core item item'.
Proof.
  intros H. apply init_superseded_ok in H. destruct H as (v & _ & ->).
  repeat split.
Qed.

Lemma add_test_info_core w testsource source_lines count record :
  same_core record (snd (add_test_info w testsource source_lines count record))
  /\ AlgRecord.superseded (snd (add_test_info w testsource source_lines count record))
     = AlgRecord.superseded record.
Proof.
  unfold add_test_info.
  destruct (get_file_length w testsource); simpl; [repeat split |].
  destruct (get_test_count w testsource); simpl; repeat split.
Qed.

Lemma add_line_count_info_core w record record' :
  add_line_count_info w record = ok record' ->
  same_core record record'
  /\ AlgRecord.superseded record' = AlgRecord.superseded record.
Proof.
  unfold add_line_count_info.
  destruct (get_file_length w (AlgRecord.path record)) as [e | source_lines].
  - destruct e; intros H; inversion H; subst. repeat split.
  - intros H. bind_inv H. bind_inv H. inversion H; subst. clear H.
    assert (Hs : same_core record (snd m0)
                 /\ AlgRecord.superseded (snd m0) = AlgRecord.superseded record).
    { destruct (negb (AlgRecord.is_test record)).
      - bind_inv Hm0. destruct m1 as [testsource |].
        + inversion Hm0; subst. apply add_test_info_core.
        + inversion Hm0; subst. simpl. repeat split.
      - inversion Hm0; subst. simpl. repeat split. }
    destruct Hs as [(A1 & A2 & A3 & A4 & A5) A6]. repeat split; assumption.
Qed.

Lemma set_is_deprecated_core w headers item item' :
  (d <- is_deprecated w item headers ;; ok (AlgRecord.set_is_deprecated d item))
  = ok item' ->
  same_core item item' /\ AlgRecord.superseded item' = AlgRecord.superseded item.
Proof.
  intros H. bind_inv H. inversion H; subst. repeat split.
Qed.

Lemma add_at_length counts index count counts' :
  AlgRecord.add_at counts index count = ok counts' ->
  List.length counts' = List.length counts.
Proof.
  revert index counts'. induction counts as [| x counts IH]; intros [| i] counts' H;
    simpl in H; try discriminate H.
  - inversion H; subst. reflexivity.
  - bind_inv H. inversion H; subst. simpl. f_equal. eauto.
Qed.

Lemma add_at_in_range counts index count :
  (index < List.length counts)%nat ->
  exists counts', AlgRecord.add_at counts index count = ok counts'.
Proof.
  revert index. induction counts as [| x counts IH]; intros [| i] H; simpl in *;
    try lia.
  - eauto.
  - destruct (IH i) as [counts' ->]; [lia |]. simpl. eauto.
Qed.

Lemma sum_from (xs : list Z) (a : Z) : fold_left Z.add xs a = a + sum xs.
Proof.
  unfold sum. revert a. induction xs as [| x xs IH]; intros a; simpl.
  - lia.
  - rewrite IH, (IH x). lia.
Qed.

Lemma sum_cons (x : Z) (xs : list Z) : sum (x :: xs) = x + sum xs.
Proof. unfold sum at 1. simpl. apply sum_from. Qed.

Lemma sum_nonneg (xs : list Z) : Forall (fun x => 0 <= x) xs -> 0 <= sum xs.
Proof.
  induction 1 as [| x xs Hx _ IH].
  - unfold sum. simpl. lia.
  - rewrite sum_cons. lia.
Qed.

Lemma add_at_sum counts index count counts' :
  AlgRecord.add_at counts index count = ok counts' ->
  sum counts' = sum counts + count.
Proof.
  revert index counts'. induction counts as [| x counts IH]; intros [| i] counts' H;
    simpl in H; try discriminate H.
  - inversion H; subst. rewrite !sum_cons. lia.
  - bind_inv H. inversion H; subst. rewrite !sum_cons.
    rewrite (IH _ _ Hm). lia.
Qed.

Lemma add_at_nonneg counts index count counts' :
  0 <= count -> Forall (fun x => 0 <= x) counts ->
  AlgRecord.add_at counts index count = ok counts' ->
  Forall (fun x => 0 <= x) counts'.
Proof.
  intros Hc. revert index counts'.
  induction counts as [| x counts IH]; intros [| i] counts' Hf H;
    simpl in H; try discriminate H; inversion Hf; subst.
  - inversion H; subst. constructor; [lia | assumption].
  - bind_inv H. inversion H; subst. constructor; eauto.
Qed.

Lemma index_for_version_supported version :
  is_supported version = true ->
  exists index,
    AlgRecord.index_for_version version = ok index
    /\ nth_error supported_versions index = Some version.
Proof.
  unfold is_supported, str_in, supported_versions, AlgRecord.index_for_version.
  simpl.
  repeat (match goal with
          | |- context [String.eqb version ?s] =>
              destruct (String.eqb_spec version s) as [-> | ?]
          end; [eexists; split; reflexivity |]).
  discriminate.
Qed.

Lemma index_for_version_unsupported version :
  is_supported version = false ->
  AlgRecord.index_for_version version
  = raise (RuntimeError ("Unknown version " ++ version)).
Proof.
  unfold is_supported, str_in, supported_versions, AlgRecord.index_for_version.
  simpl.
  repeat (match goal with
          | |- context [String.eqb version ?s] =>
              destruct (String.eqb version s); [discriminate |]
          end).
  reflexivity.
Qed.

Lemma index_for_version_ok version index :
  AlgRecord.index_for_version version = ok index ->
  nth_error supported_versions index = Some version.
Proof.
  destruct (is_supported version) eqn:E.
  - destruct (index_for_version_supported _ E) as (i & Hi & Hn).
    rewrite Hi. intros H. inversion H; subst. exact Hn.
  - rewrite index_for_version_unsupported by exact E. discriminate.
Qed.

(** ** The unified set: catalog and results *)

Section UnifiedInvariant.
Variable I : string * AlgRecord.t -> Prop.
Variable C : AlgResultRecord.t -> Prop.
Hypothesis I_file :
  forall alg, I (AlgFileRecord.name alg, AlgRecord.init (inl alg)).
Hypothesis I_str : forall name, I (name, AlgRecord.init (inr name)).
Hypothesis I_add :
  forall k r result r',
    C result -> I (k, r) -> AlgRecord.add_result_data r result = ok r' ->
    I (k, r').

Lemma add_known_inv algs : Forall I (add_known algs).
Proof.
  unfold add_known.
  assert (G : forall acc : merged_t, Forall I acc ->
    Forall I (fold_left
      (fun merged alg =>
         dict_set (AlgFileRecord.name alg) (AlgRecord.init (inl alg)) merged)
      algs acc)).
  { induction algs as [| alg algs IH]; simpl; intros acc Hacc; [assumption |].
    apply IH. apply Forall_dict_set; auto. }
  apply G. constructor.
Qed.

Lemma add_result_inv merged result merged' :
  C result -> Forall I merged -> add_result merged result = ok merged' ->
  Forall I merged'.
Proof.
  intros HC HI. unfold add_result, dict_setdefault.
  destruct (dict_get (AlgResultRecord.name result) merged) as [r |] eqn:E;
    intros H; bind_inv H; inversion H; subst; clear H.
  - apply Forall_dict_set; [assumption |].
    apply (I_add _ r result _ HC); [| exact Hm].
    apply dict_get_In in E. rewrite Forall_forall in HI. auto.
  - apply Forall_dict_set; [apply Forall_dict_set; auto |].
    apply (I_add _ _ _ _ HC (I_str _) Hm).
Qed.

Lemma add_results_inv results merged merged' :
  Forall C results -> Forall I merged -> add_results results merged = ok merged' ->
  Forall I merged'.
Proof.
  unfold add_results. intros HC. revert merged.
  induction HC as [| result results Hr _ IH]; simpl; intros merged HI H.
  - inversion H; subst. assumption.
  - bind_inv H. eapply IH; [| exact H]. eapply add_result_inv; eauto.
Qed.

Lemma merge_unified_inv algs results merged :
  Forall C results -> merge_unified algs results = ok merged -> Forall I merged.
Proof.
  unfold merge_unified. intros HC H.
  exact (add_results_inv _ _ _ HC (add_known_inv algs) H).
Qed.
End UnifiedInvariant.

Lemma Forall_True (A : Type) (xs : list A) : Forall (fun _ => True) xs.
Proof. induction xs; constructor; auto. Qed.

Lemma add_result_data_core r result r' :
  AlgRecord.add_result_data r result = ok r' ->
  AlgRecord.name r' = AlgRecord.name r
  /\ AlgRecord.ours r' = AlgRecord.ours r
  /\ AlgRecord.is_test r' = AlgRecord.is_test r.
Proof.
  unfold AlgRecord.add_result_data. intros H. bind_inv H.
  destruct (AlgResultRecord.is_child result); bind_inv H; inversion H; subst;
    repeat split.
Qed.

Lemma merge_unified_key_is_name algs results merged :
  merge_unified algs results = ok merged -> Forall key_is_name merged.
Proof.
  apply merge_unified_inv with (C := fun _ => True).
  - intros alg. reflexivity.
  - intros name. reflexivity.
  - unfold key_is_name. simpl. intros k r result r' _ Hk H.
    apply add_result_data_core in H. destruct H as (-> & _). exact Hk.
  - apply Forall_True.
Qed.

Lemma merge_unified_eight_slots algs results merged :
  merge_unified algs results = ok merged -> Forall eight_slots merged.
Proof.
  apply merge_unified_inv with (C := fun _ => True).
  - intros alg. split; reflexivity.
  - intros name. split; reflexivity.
  - unfold eight_slots, AlgRecord.add_result_data. simpl.
    intros k r result r' _ [Hd Hi] H. bind_inv H.
    destruct (AlgResultRecord.is_child result); bind_inv H; inversion H; subst;
      simpl; apply add_at_length in Hm0; split; congruence.
  - apply Forall_True.
Qed.

Lemma merge_unified_counts_nonneg algs results merged :
  Forall (fun result => 0 <= AlgResultRecord.count result) results ->
  merge_unified algs results = ok merged ->
  Forall (fun kv => counts_nonneg (snd kv)) merged.
Proof.
  apply merge_unified_inv.
  - intros alg. split; simpl; repeat constructor; lia.
  - intros name. split; simpl; repeat constructor; lia.
  - unfold counts_nonneg, AlgRecord.add_result_data. simpl.
    intros k r result r' Hc [Hd Hi] H. bind_inv H.
    destruct (AlgResultRecord.is_child result); bind_inv H; inversion H; subst;
      simpl; split; try assumption.
    + exact (add_at_nonneg _ _ _ _ Hc Hi Hm0).
    + exact (add_at_nonneg _ _ _ _ Hc Hd Hm0).
Qed.

Lemma add_known_NoDup algs : NoDup (keys (add_known algs)).
Proof.
  unfold add_known.
  assert (G : forall acc : merged_t, NoDup (keys acc) ->
    NoDup (keys (fold_left
      (fun merged alg =>
         dict_set (AlgFileRecord.name alg) (AlgRecord.init (inl alg)) merged)
      algs acc))).
  { induction algs as [| alg algs IH]; simpl; intros acc Hacc; [assumption |].
    apply IH. now apply NoDup_dict_set. }
  apply G. constructor.
Qed.

Lemma add_result_NoDup merged result merged' :
  NoDup (keys merged) -> add_result merged result = ok merged' ->
  NoDup (keys merged').
Proof.
  intros Hnd. unfold add_result, dict_setdefault.
  destruct (dict_get (AlgResultRecord.name result) merged) as [r |];
    intros H; bind_inv H; inversion H; subst; repeat apply NoDup_dict_set;
    assumption.
Qed.

Lemma merge_unified_NoDup algs results merged :
  merge_unified algs results = ok merged -> NoDup (keys merged).
Proof.
  unfold merge_unified, add_results.
  generalize (add_known_NoDup algs). generalize (add_known algs).
  induction results as [| result results IH]; simpl; intros acc Hnd H.
  - inversion H; subst. assumption.
  - bind_inv H. eapply IH; [| exact H]. eapply add_result_NoDup; eauto.
Qed.

(** With eight slots in every record, a result of a supported version is
    added without an exception. *)
Lemma add_result_supported merged result :
  Forall eight_slots merged ->
  is_supported (AlgResultRecord.version result) = true ->
  exists merged', add_result merged result = ok merged'.
Proof.
  intros H8 Hs. apply index_for_version_supported in Hs.
  destruct Hs as (index & Hi & Hn).
  assert (Hlt : (index < 8)%nat).
  { change 8%nat with (List.length supported_versions).
    apply nth_error_Some. congruence. }
  assert (G : forall r, eight_slots (AlgResultRecord.name result, r) ->
            exists r', AlgRecord.add_result_data r result = ok r').
  { intros r [Hd Hc]. simpl in Hd, Hc. unfold AlgRecord.add_result_data.
    rewrite Hi. simpl. destruct (AlgResultRecord.is_child result).
    - destruct (@add_at_in_range (AlgRecord.count_internal r) index
                  (AlgResultRecord.count result)) as [c ->]; [lia |].
      simpl. eauto.
    - destruct (@add_at_in_range (AlgRecord.count_direct r) index
                  (AlgResultRecord.count result)) as [c ->]; [lia |].
      simpl. eauto. }
  unfold add_result, dict_setdefault.
  destruct (dict_get (AlgResultRecord.name result) merged) as [r |] eqn:E.
  - destruct (G r) as [r' ->]; [| simpl; eauto].
    apply dict_get_In in E. rewrite Forall_forall in H8. auto.
  - destruct (G (AlgRecord.init (inr (AlgResultRecord.name result)))) as [r' ->];
      [split; reflexivity | simpl; eauto].
Qed.

Lemma add_result_unsupported merged result :
  is_supported (AlgResultRecord.version result) = false ->
  add_result merged result
  = raise (RuntimeError ("Unknown version " ++ AlgResultRecord.version result)).
Proof.
  intros Hs. unfold add_result, dict_setdefault, AlgRecord.add_result_data.
  rewrite (index_for_version_unsupported _ Hs).
  destruct (dict_get (AlgResultRecord.name result) merged); reflexivity.
Qed.

(** ** The later passes *)

Lemma descends_refl m : descends m m.
Proof. intros k r H. exists r. split; [assumption | apply same_core_refl]. Qed.

Lemma descends_trans m1 m2 m3 : descends m1 m2 -> descends m2 m3 -> descends m1 m3.
Proof.
  intros H12 H23 k r H. destruct (H23 _ _ H) as (r2 & H2 & C2).
  destruct (H12 _ _ H2) as (r1 & H1 & C1). exists r1. split; [assumption |].
  eapply same_core_trans; eauto.
Qed.

Lemma descends_incl m m' : incl m' m -> descends m m'.
Proof. intros Hi k r H. exists r. split; [auto | apply same_core_refl]. Qed.

Lemma update_values_descends (body : AlgRecord.t -> outcome AlgRecord.t) m m' :
  (forall r r', body r = ok r' -> same_core r r') ->
  update_values body m = ok m' -> descends m m'.
Proof.
  intros Hb H k r' HI.
  destruct (update_values_In _ _ _ _ _ _ H HI) as (r & Hr & Hbr). eauto.
Qed.

(** What [merge] has built when it reaches the blacklist: the unified set
    with the same keys, the superseded text computed on the unified set. *)
Lemma merge_annotated_ok w algs results m :
  merge_annotated w algs results = ok m ->
  exists m0,
    merge_unified algs results = ok m0
    /\ keys m = keys m0
    /\ descends m0 m
    /\ forall k r, In (k, r) m ->
         exists r0 alg_version,
           In (k, r0) m0
           /\ int (last_char (AlgRecord.name r0)) = ok alg_version
           /\ AlgRecord.superseded r
              = superseded_text m0 (AlgRecord.name r0) alg_version.
Proof.
  unfold merge_annotated, add_deprecation_info. intros H.
  bind_inv H. rename m0 into u, Hm0 into Hu.
  bind_inv H. rename m0 into s, Hm0 into Hs.
  bind_inv H. rename m0 into l, Hm0 into Hl.
  bind_inv H. rename m0 into text, Hm0 into Htext.
  exists u. split; [exact Hu |]. split; [| split].
  - rewrite (update_values_keys _ _ _ _ H), (update_values_keys _ _ _ _ Hl).
    apply (update_values_keys _ _ _ _ Hs).
  - eapply descends_trans;
      [eapply descends_trans |].
    + eapply update_values_descends; [| exact Hs].
      intros r r'. apply init_superseded_core.
    + eapply update_values_descends; [| exact Hl].
      intros r r' Hr. now apply add_line_count_info_core in Hr.
    + eapply update_values_descends; [| exact H].
      intros r r' Hr. now apply set_is_deprecated_core in Hr.
  - intros k r HI.
    destruct (update_values_In _ _ _ _ _ _ H HI) as (r2 & HI2 & Hb2).
    apply set_is_deprecated_core in Hb2. destruct Hb2 as [_ E2].
    destruct (update_values_In _ _ _ _ _ _ Hl HI2) as (r1 & HI1 & Hb1).
    apply add_line_count_info_core in Hb1. destruct Hb1 as [_ E1].
    destruct (update_values_In _ _ _ _ _ _ Hs HI1) as (r0 & HI0 & Hb0).
    apply init_superseded_ok in Hb0. destruct Hb0 as (v & Hv & ->).
    exists r0, v. split; [assumption |]. split; [assumption |].
    rewrite E2, E1. reflexivity.
Qed.

Lemma merge_annotated_NoDup w algs results m :
  merge_annotated w algs results = ok m -> NoDup (keys m).
Proof.
  intros H. apply merge_annotated_ok in H. destruct H as (m0 & Hu & -> & _).
  eapply merge_unified_NoDup; eauto.
Qed.

Lemma merge_filtered_ok w args algs results m :
  merge_filtered w args algs results = ok m ->
  exists m5 blacklist,
    merge_annotated w algs results = ok m5
    /\ load_blacklist w = ok blacklist
    /\ incl m m5
    /\ NoDup (keys m)
    /\ forall item, In item blacklist -> ~ In item (keys m).
Proof.
  unfold merge_filtered, remove_blacklisted, remove_unwanted. intros H.
  bind_inv H. rename m0 into m5, Hm0 into H5.
  bind_inv H. rename m0 into m6, Hm0 into H6.
  bind_inv H6. rename m0 into blacklist, Hm0 into Hbl.
  exists m5, blacklist. split; [assumption |]. split; [assumption |].
  pose proof (merge_annotated_NoDup _ _ _ _ H5) as Hnd5.
  destruct (del_all_NoDup _ _ _ _ H6 Hnd5) as [Hnd6 Hgone].
  destruct (del_all_NoDup _ _ _ _ H Hnd6) as [Hnd7 _].
  split; [| split; [assumption |]].
  - eapply incl_tran; [eapply del_all_incl; eauto | eapply del_all_incl; eauto].
  - intros item Hi HI. apply (Hgone _ Hi). eapply del_all_keys; eauto.
Qed.

Lemma special_cases_ok m7 m :
  special_cases m7 = ok m ->
  exists tmp d,
    dict_get "Q1D.v2" m7 = Some tmp
    /\ dict_del "Q1D.v2" m7 = ok d
    /\ m = dict_set "Q1D2.v1" (AlgRecord.set_name "Q1D2.v1" tmp) d.
Proof.
  unfold special_cases, dict_item. intros H. bind_inv H.
  destruct (dict_get "Q1D.v2" m7) as [tmp |]; [| discriminate Hm0].
  inversion Hm0; subst. bind_inv H. inversion H; subst. eauto.
Qed.

Lemma special_cases_missing m7 :
  dict_get "Q1D.v2" m7 = None -> special_cases m7 = raise (KeyError "Q1D.v2").
Proof. unfold special_cases, dict_item. intros ->. reflexivity. Qed.

Lemma special_cases_present m7 tmp :
  dict_get "Q1D.v2" m7 = Some tmp ->
  exists d,
    dict_del "Q1D.v2" m7 = ok d
    /\ special_cases m7
       = ok (dict_set "Q1D2.v1" (AlgRecord.set_name "Q1D2.v1" tmp) d).
Proof.
  intros Hg. unfold special_cases, dict_item. rewrite Hg. simpl.
  destruct (dict_del_present _ "Q1D.v2" m7) as [d Hd].
  - apply dict_get_In in Hg. eapply In_keys; eauto.
  - exists d. rewrite Hd. simpl. auto.
Qed.

(** The entries of the mapping [merge] returns. *)
Lemma merge_ok w args algs results m :
  merge w args algs results = ok m ->
  exists m7 tmp,
    merge_filtered w args algs results = ok m7
    /\ In ("Q1D.v2", tmp) m7
    /\ NoDup (keys m)
    /\ forall k r, In (k, r) m ->
         (k = "Q1D2.v1" /\ r = AlgRecord.set_name "Q1D2.v1" tmp)
         \/ (k <> "Q1D.v2" /\ k <> "Q1D2.v1" /\ In (k, r) m7).
Proof.
  unfold merge. intros H. bind_inv H. rename m0 into m7, Hm0 into H7.
  apply special_cases_ok in H. destruct H as (tmp & d & Hg & Hd & ->).
  exists m7, tmp. split; [assumption |].
  split; [now apply dict_get_In |].
  destruct (merge_filtered_ok _ _ _ _ _ H7) as (m5 & bl & _ & _ & _ & Hnd7 & _).
  destruct (dict_del_NoDup _ _ _ _ Hd Hnd7) as [Hndd Hkd].
  assert (Hnd : NoDup
            (keys (dict_set "Q1D2.v1" (AlgRecord.set_name "Q1D2.v1" tmp) d)))
    by now apply NoDup_dict_set.
  split; [exact Hnd |].
  intros k r HI. destruct (String.eqb_spec k "Q1D2.v1") as [-> | Hne].
  - left. split; [reflexivity |].
    apply (In_dict_get _ _ _ _ Hnd) in HI.
    rewrite dict_get_set_eq in HI. now inversion HI.
  - right. apply In_dict_set in HI. destruct HI as [E | HI]; [congruence |].
    split; [| split; [assumption |]].
    + intros ->. apply Hkd. eapply In_keys; eauto.
    + eapply dict_del_incl; eauto.
Qed.

Lemma merge_filtered_descends w args algs results m7 :
  merge_filtered w args algs results = ok m7 ->
  exists m0, merge_unified algs results = ok m0 /\ descends m0 m7.
Proof.
  intros H. apply merge_filtered_ok in H.
  destruct H as (m5 & bl & H5 & _ & Hincl & _).
  apply merge_annotated_ok in H5. destruct H5 as (m0 & Hu & _ & Hd & _).
  exists m0. split; [assumption |].
  eapply descends_trans; [exact Hd | now apply descends_incl].
Qed.

(** ** The options never make [merge] raise *)

Lemma merge_unified_test_is_ours algs results merged :
  merge_unified algs results = ok merged -> Forall test_is_ours merged.
Proof.
  apply merge_unified_inv with (C := fun _ => True).
  - intros alg. unfold test_is_ours. simpl. discriminate.
  - intros name. unfold test_is_ours. simpl. reflexivity.
  - unfold test_is_ours. simpl. intros k r result r' _ Hr H.
    apply add_result_data_core in H. destruct H as (_ & -> & ->). exact Hr.
  - apply Forall_True.
Qed.

Lemma remove_unwanted_returns args merged :
  NoDup (keys merged) -> Forall test_is_ours merged ->
  exists merged', remove_unwanted args merged = ok merged'.
Proof.
  intros Hnd Ht. unfold remove_unwanted. apply del_all_returns.
  - induction merged as [| [k r] merged IH]; simpl; [constructor |].
    inversion Hnd as [| ? ? Hk Hnd']; subst. inversion Ht as [| ? ? Hr Ht']; subst.
    specialize (IH Hnd' Ht'). unfold test_is_ours in Hr. simpl in Hr.
    assert (Hin : forall x,
              In x (flat_map
                      (fun kv =>
                         (if Args.ours args && negb (AlgRecord.ours (snd kv))
                          then [fst kv] else [])
                         ++ (if negb (Args.include_tests args)
                                && AlgRecord.is_test (snd kv)
                             then [fst kv] else []))%list merged) ->
              In x (keys merged)).
    { intros x Hx. apply in_flat_map in Hx. destruct Hx as ([k0 r0] & H0 & Hx).
      simpl in Hx.
      assert (x = k0).
      { destruct (Args.ours args && negb (AlgRecord.ours r0)),
          (negb (Args.include_tests args) && AlgRecord.is_test r0);
          simpl in Hx; intuition. }
      subst. eapply In_keys; eauto. }
    destruct (AlgRecord.ours r) eqn:Eo.
    + rewrite andb_false_r. simpl.
      destruct (negb (Args.include_tests args) && AlgRecord.is_test r); simpl;
        [constructor; auto | assumption].
    + rewrite (Hr eq_refl), andb_false_r, app_nil_r.
      destruct (Args.ours args && negb false); simpl;
        [constructor; auto | assumption].
  - intros x Hx. apply in_flat_map in Hx. destruct Hx as ([k0 r0] & H0 & Hx).
    simpl in Hx.
    assert (x = k0).
    { destruct (Args.ours args && negb (AlgRecord.ours r0)),
        (negb (Args.include_tests args) && AlgRecord.is_test r0);
        simpl in Hx; intuition. }
    subst. eapply In_keys; eauto.
Qed.

(** Once the blacklist is removed, the removal of the unwanted items goes
    through whatever the options are. *)
Lemma merge_filtered_returns w args algs results m5 m6 :
  merge_annotated w algs results = ok m5 ->
  remove_blacklisted w m5 = ok m6 ->
  exists m7, merge_filtered w args algs results = ok m7.
Proof.
  intros H5 H6. unfold merge_filtered. rewrite H5. simpl. rewrite H6. simpl.
  pose proof (merge_annotated_NoDup _ _ _ _ H5) as Hnd5.
  unfold remove_blacklisted in H6. bind_inv H6.
  destruct (del_all_NoDup _ _ _ _ H6 Hnd5) as [Hnd6 _].
  apply remove_unwanted_returns; [assumption |].
  apply merge_annotated_ok in H5. destruct H5 as (m0 & Hu & _ & Hd & _).
  pose proof (merge_unified_test_is_ours _ _ _ Hu) as Ht0.
  rewrite Forall_forall in Ht0. apply Forall_forall. intros [k r] HI.
  apply (del_all_incl _ _ _ _ H6) in HI.
  destruct (Hd _ _ HI) as (r0 & HI0 & (_ & Eo & Et & _)).
  specialize (Ht0 _ HI0). unfold test_is_ours in *. simpl in *.
  rewrite Eo, Et. exact Ht0.
Qed.

(** Every record [merge] returns carries the counts of a record of the
    unified set: the one under its key, or the one under [Q1D.v2] for the
    key [Q1D2.v1]. *)
Lemma merge_record_origin w args algs results m k r :
  merge w args algs results = ok m -> In (k, r) m ->
  exists m0 k0 r0,
    merge_unified algs results = ok m0
    /\ In (k0, r0) m0
    /\ AlgRecord.count_direct r = AlgRecord.count_direct r0
    /\ AlgRecord.count_internal r = AlgRecord.count_internal r0
    /\ (k = "Q1D2.v1" /\ k0 = "Q1D.v2" /\ AlgRecord.name r = "Q1D2.v1"
        \/ k = k0 /\ k <> "Q1D2.v1" /\ AlgRecord.name r = AlgRecord.name r0).
Proof.
  intros H HI. apply merge_ok in H. destruct H as (m7 & tmp & H7 & Ht & _ & Hm).
  apply merge_filtered_descends in H7. destruct H7 as (m0 & Hu & Hd).
  exists m0. destruct (Hm _ _ HI) as [[-> ->] | (_ & Hne & HI7)].
  - destruct (Hd _ _ Ht) as (r0 & HI0 & (A1 & A2 & A3 & A4 & A5)).
    exists "Q1D.v2", r0. simpl. repeat split; auto.
  - destruct (Hd _ _ HI7) as (r0 & HI0 & (A1 & A2 & A3 & A4 & A5)).
    exists k, r0. repeat split; auto.
Qed.

(** ** Counts *)

Lemma get_count_nonneg r : counts_nonneg r -> 0 <= AlgRecord.get_count r.
Proof.
  intros [Hd Hi]. unfold AlgRecord.get_count.
  apply sum_nonneg in Hd. apply sum_nonneg in Hi. lia.
Qed.

Lemma merge_counts_nonneg w args algs results m k r :
  Forall (fun result => 0 <= AlgResultRecord.count result) results ->
  merge w args algs results = ok m -> In (k, r) m -> counts_nonneg r.
Proof.
  intros Hc H HI.
  destruct (merge_record_origin _ _ _ _ _ _ _ H HI)
    as (m0 & k0 & r0 & Hu & HI0 & Ed & Ei & _).
  pose proof (merge_unified_counts_nonneg _ _ _ Hc Hu) as Hn.
  rewrite Forall_forall in Hn. specialize (Hn _ HI0). simpl in Hn.
  unfold counts_nonneg. rewrite Ed, Ei. exact Hn.
Qed.

Lemma Qdiv_unit_interval (s c : Z) :
  0 <= s <= c -> 0 < c ->
  (0 <= inject_Z s / inject_Z c)%Q /\ (inject_Z s / inject_Z c <= 1)%Q.
Proof.
  intros Hs Hc. destruct c as [| p | p]; try lia.
  unfold Qdiv, Qmult, Qinv, Qle, inject_Z. simpl. lia.
Qed.

(** C5, as the code has it: [get_count()] is the sum of the direct counts
    plus the sum of the internal counts, and for every record of the
    mapping [merge] returns it is non-negative when no observation carries a
    negative count.  The program does not check the counts it reads. *)
Theorem get_count_is_sum_and_nonneg w args algs results m k r :
  Forall (fun result => 0 <= AlgResultRecord.count result) results ->
  merge w args algs results = ok m ->
  In (k, r) m ->
  AlgRecord.get_count r
  = sum (AlgRecord.count_direct r) + sum (AlgRecord.count_internal r)
  /\ 0 <= AlgRecord.get_count r.
Proof.
  intros Hc H HI. split; [reflexivity |].
  apply get_count_nonneg. eapply merge_counts_nonneg; eauto.
Qed.

(** The conversion to a float, in range and out of range. *)
Lemma float_in_range n : Z.abs n < float_limit -> float n = ok (inject_Z n).
Proof.
  intros H. unfold float.
  destruct (Z.ltb_spec (Z.abs n) float_limit) as [_ | Hge]; [reflexivity | lia].
Qed.

Lemma float_overflow n : float_limit <= Z.abs n -> float n = raise OverflowError.
Proof.
  intros H. unfold float.
  destruct (Z.ltb_spec (Z.abs n) float_limit) as [Hlt | _]; [lia | reflexivity].
Qed.

Lemma get_internal_fraction_in_range r :
  1 <= AlgRecord.get_count r < float_limit ->
  Z.abs (sum (AlgRecord.count_internal r)) < float_limit ->
  AlgRecord.get_internal_fraction r
  = ok (inject_Z (sum (AlgRecord.count_internal r))
        / inject_Z (AlgRecord.get_count r))%Q.
Proof.
  intros Hc Hi. unfold AlgRecord.get_internal_fraction.
  destruct (Z.ltb_spec (AlgRecord.get_count r) 1) as [Hlt | _]; [lia |].
  rewrite (float_in_range _ Hi). cbn [bind ok].
  rewrite float_in_range by lia. reflexivity.
Qed.

Lemma get_internal_fraction_overflow r :
  float_limit <= AlgRecord.get_count r ->
  AlgRecord.get_internal_fraction r = raise OverflowError.
Proof.
  intros Hc. assert (Hl : 1 < float_limit) by (vm_compute; reflexivity).
  unfold AlgRecord.get_internal_fraction.
  destruct (Z.ltb_spec (AlgRecord.get_count r) 1) as [Hlt | _]; [lia |].
  unfold float at 1.
  destruct (Z.abs (sum (AlgRecord.count_internal r)) <? float_limit);
    [| reflexivity].
  cbn [bind ok]. rewrite float_overflow by lia. reflexivity.
Qed.

(** C6, as the code has it: [get_internal_fraction()] is 1.0 when
    [get_count()] is below 1; otherwise it is the quotient of the internal
    sum by [get_count()], unless one of the two is too large for a float,
    and then it raises [OverflowError].  For every record of the mapping
    [merge] returns, when no observation carries a negative count: it is 1.0
    when [get_count()] is 0; when [get_count()] is not 0 and below
    2^1024 - 2^970 it is the quotient, which lies in [0, 1]; and from
    2^1024 - 2^970 on it raises [OverflowError]. *)
Theorem get_internal_fraction_cases w args algs results m k r :
  Forall (fun result => 0 <= AlgResultRecord.count result) results ->
  merge w args algs results = ok m ->
  In (k, r) m ->
  (AlgRecord.get_count r = 0 -> AlgRecord.get_internal_fraction r = ok 1%Q)
  /\ (AlgRecord.get_count r <> 0 ->
      AlgRecord.get_count r < float_limit ->
      AlgRecord.get_internal_fraction r
      = ok (inject_Z (sum (AlgRecord.count_internal r))
            / inject_Z (AlgRecord.get_count r))%Q
      /\ (0 <= inject_Z (sum (AlgRecord.count_internal r))
               / inject_Z (AlgRecord.get_count r))%Q
      /\ (inject_Z (sum (AlgRecord.count_internal r))
          / inject_Z (AlgRecord.get_count r) <= 1)%Q)
  /\ (float_limit <= AlgRecord.get_count r ->
      AlgRecord.get_internal_fraction r = raise OverflowError).
Proof.
  intros Hc H HI.
  pose proof (merge_counts_nonneg _ _ _ _ _ _ _ Hc H HI) as Hn.
  pose proof (get_count_nonneg _ Hn) as Hpos.
  destruct Hn as [Hd Hi]. apply sum_nonneg in Hd. apply sum_nonneg in Hi.
  assert (Hle : sum (AlgRecord.count_internal r) <= AlgRecord.get_count r)
    by (unfold AlgRecord.get_count; lia).
  assert (Hl : 1 < float_limit) by (vm_compute; reflexivity).
  split; [| split].
  - intros E. unfold AlgRecord.get_internal_fraction. rewrite E. reflexivity.
  - intros Hne Hlt. split.
    + apply get_internal_fraction_in_range; lia.
    + apply Qdiv_unit_interval; lia.
  - intros Hge. apply get_internal_fraction_overflow; lia.
Qed.

(** C10: in the mapping [merge] returns every key is the name of the record
    it maps to. *)
Theorem merge_keys_are_names w args algs results m :
  merge w args algs results = ok m -> Forall key_is_name m.
Proof.
  intros H. apply Forall_forall. intros [k r] HI. unfold key_is_name. simpl.
  destruct (merge_record_origin _ _ _ _ _ _ _ H HI)
    as (m0 & k0 & r0 & Hu & HI0 & _ & _ & Hk).
  destruct Hk as [(-> & _ & ->) | (-> & _ & ->)]; [reflexivity |].
  pose proof (merge_unified_key_is_name _ _ _ Hu) as Hn.
  rewrite Forall_forall in Hn. exact (Hn _ HI0).
Qed.

(** ** Totals *)

Lemma observed_total_cons k result results :
  observed_total k (result :: results)
  = (if String.eqb (AlgResultRecord.name result) k
     then AlgResultRecord.count result else 0)
    + observed_total k results.
Proof.
  unfold observed_total. simpl.
  destruct (String.eqb (AlgResultRecord.name result) k); simpl;
    [apply sum_cons | lia].
Qed.

Lemma add_result_data_get_count r result r' :
  AlgRecord.add_result_data r result = ok r' ->
  AlgRecord.get_count r' = AlgRecord.get_count r + AlgResultRecord.count result.
Proof.
  unfold AlgRecord.add_result_data, AlgRecord.get_count. intros H. bind_inv H.
  destruct (AlgResultRecord.is_child result); bind_inv H; inversion H; subst;
    simpl; apply add_at_sum in Hm0; lia.
Qed.

Lemma add_result_totals f merged result merged' :
  totals_agree f merged ->
  add_result merged result = ok merged' ->
  totals_agree
    (fun k =>
       f k + (if String.eqb (AlgResultRecord.name result) k
              then AlgResultRecord.count result else 0))
    merged'.
Proof.
  intros Hf. unfold add_result, dict_setdefault.
  destruct (dict_get (AlgResultRecord.name result) merged) as [r0 |] eqn:E;
    intros H; bind_inv H; inversion H; subst; clear H; intros k;
    destruct (String.eqb_spec (AlgResultRecord.name result) k) as [<- | Hne].
  - rewrite dict_get_set_eq. apply add_result_data_get_count in Hm.
    specialize (Hf (AlgResultRecord.name result)). rewrite E in Hf. lia.
  - rewrite dict_get_set_neq by congruence.
    specialize (Hf k). destruct (dict_get k merged); lia.
  - rewrite dict_get_set_eq. apply add_result_data_get_count in Hm.
    specialize (Hf (AlgResultRecord.name result)). rewrite E in Hf.
    change (AlgRecord.get_count
              (AlgRecord.init (inr (AlgResultRecord.name result)))) with 0 in Hm.
    lia.
  - rewrite !dict_get_set_neq by congruence.
    specialize (Hf k). destruct (dict_get k merged); lia.
Qed.

Lemma add_results_totals results f merged merged' :
  totals_agree f merged ->
  add_results results merged = ok merged' ->
  totals_agree (fun k => f k + observed_total k results) merged'.
Proof.
  unfold add_results. revert f merged.
  induction results as [| result results IH]; simpl; intros f merged Hf H.
  - inversion H; subst. intros k. specialize (Hf k).
    unfold observed_total, sum. simpl. destruct (dict_get k merged'); lia.
  - bind_inv H. pose proof (add_result_totals _ _ _ _ Hf Hm) as Hf1.
    pose proof (IH _ _ Hf1 H) as Hf2. intros k. specialize (Hf2 k).
    rewrite observed_total_cons. destruct (dict_get k merged'); lia.
Qed.

Lemma add_known_totals algs : totals_agree (fun _ => 0) (add_known algs).
Proof.
  pose proof (add_known_inv (fun kv => AlgRecord.get_count (snd kv) = 0)
                (fun alg => eq_refl) algs) as Hz.
  intros k. destruct (dict_get k (add_known algs)) as [r |] eqn:E;
    [| reflexivity].
  apply dict_get_In in E. rewrite Forall_forall in Hz. exact (Hz _ E).
Qed.

(** In the unified set [get_count()] is the total of the observations of
    the name: every observation was added once. *)
Lemma merge_unified_totals algs results m0 k r :
  merge_unified algs results = ok m0 ->
  dict_get k m0 = Some r ->
  AlgRecord.get_count r = observed_total k results.
Proof.
  unfold merge_unified. intros H Hg.
  pose proof (add_results_totals _ _ _ _ (add_known_totals algs) H k) as Ht.
  simpl in Ht. rewrite Hg in Ht. exact Ht.
Qed.

(** X8: [get_count()] of a returned record is the sum of the counts of
    all observations of its name, every observation being added once; the
    record under [Q1D2.v1] carries the observations of [Q1D.v2]. *)
Lemma merge_totals w args algs results m k r :
  merge w args algs results = ok m ->
  In (k, r) m ->
  AlgRecord.get_count r
  = observed_total (if String.eqb k "Q1D2.v1" then "Q1D.v2" else k) results.
Proof.
  intros H HI.
  destruct (merge_record_origin _ _ _ _ _ _ _ H HI)
    as (m0 & k0 & r0 & Hu & HI0 & Ed & Ei & Hk).
  pose proof (In_dict_get _ _ _ _ (merge_unified_NoDup _ _ _ Hu) HI0) as Hg.
  apply (merge_unified_totals _ _ _ _ _ Hu) in Hg.
  unfold AlgRecord.get_count in *. rewrite Ed, Ei, Hg.
  destruct Hk as [(-> & -> & _) | (-> & Hne & _)].
  - reflexivity.
  - destruct (String.eqb_spec k0 "Q1D2.v1"); [contradiction | reflexivity].
Qed.

(** ** The summary *)

Lemma get_summary_from args (rs : list AlgRecord.t) (acc : Summary.t) :
  let s := fold_left (summary_step args) rs acc in
  Summary.total s = Summary.total acc + Z.of_nat (List.length rs)
  /\ Summary.unused s
     = Summary.unused acc
       + Z.of_nat (List.length (filter (fun r => AlgRecord.get_count r =? 0) rs))
  /\ Summary.untested s
     = Summary.untested acc
       + Z.of_nat (List.length (filter (fun r => negb (AlgRecord.has_test r)) rs))
  /\ Summary.deprecated s
     = Summary.deprecated acc
       + Z.of_nat (List.length (filter AlgRecord.is_deprecated rs))
  /\ Summary.superseded s
     = Summary.superseded acc
       + Z.of_nat (List.length
           (filter (fun r => String.eqb (AlgRecord.superseded r) "superseded") rs)).
Proof.
  revert acc. induction rs as [| r rs IH]; intros acc; simpl.
  - repeat split; lia.
  - destruct (IH (summary_step args acc r)) as (T & U & N & D & P).
    rewrite T, U, N, D, P. clear IH T U N D P.
    unfold summary_step; simpl.
    destruct (AlgRecord.get_count r =? 0), (negb (AlgRecord.has_test r)),
      (AlgRecord.is_deprecated r),
      (String.eqb (AlgRecord.superseded r) "superseded");
      simpl List.length; repeat split; lia.
Qed.

(** C8: the summary counts the records with [get_count() = 0] as unused,
    those without a test as untested, those with [is_deprecated] as
    deprecated and those marked superseded as superseded. *)
Theorem get_summary_counts args merged :
  Summary.unused (get_summary args merged)
  = count_if (fun r => AlgRecord.get_count r =? 0) merged
  /\ Summary.untested (get_summary args merged)
     = count_if (fun r => negb (AlgRecord.has_test r)) merged
  /\ Summary.deprecated (get_summary args merged)
     = count_if AlgRecord.is_deprecated merged
  /\ Summary.superseded (get_summary args merged)
     = count_if (fun r => String.eqb (AlgRecord.superseded r) "superseded") merged.
Proof.
  unfold get_summary, count_if.
  destruct (get_summary_from args (values merged) Summary.init)
    as (_ & U & N & D & P).
  rewrite U, N, D, P. simpl. repeat split.
Qed.

(** ** Unknown versions *)

Lemma is_supported_iff version :
  is_supported version = true <-> In version supported_versions.
Proof.
  unfold is_supported, str_in. rewrite existsb_exists. split.
  - intros (x & Hx & E). apply String.eqb_eq in E. now subst.
  - intros H. exists version. split; [assumption | apply String.eqb_refl].
Qed.

Lemma not_supported_iff version :
  is_supported version = false <-> ~ In version supported_versions.
Proof.
  rewrite <- is_supported_iff. destruct (is_supported version); split;
    congruence.
Qed.

Lemma add_result_eight_slots merged result merged' :
  Forall eight_slots merged -> add_result merged result = ok merged' ->
  Forall eight_slots merged'.
Proof.
  apply add_result_inv with (C := fun _ => True); [| | exact Logic.I].
  - intros name. split; reflexivity.
  - unfold eight_slots, AlgRecord.add_result_data. simpl.
    intros k r res r' _ [Hd Hi] H. bind_inv H.
    destruct (AlgResultRecord.is_child res); bind_inv H; inversion H; subst;
      simpl; apply add_at_length in Hm0; split; congruence.
Qed.

Lemma add_results_unsupported results merged result :
  Forall eight_slots merged ->
  In result results ->
  is_supported (AlgResultRecord.version result) = false ->
  exists bad,
    In bad results
    /\ is_supported (AlgResultRecord.version bad) = false
    /\ add_results results merged
       = raise (RuntimeError ("Unknown version " ++ AlgResultRecord.version bad)).
Proof.
  unfold add_results. intros H8 HI Hs. revert merged H8.
  induction results as [| r results IH]; simpl; intros merged H8.
  - contradiction.
  - destruct (is_supported (AlgResultRecord.version r)) eqn:Er.
    + destruct HI as [-> | HI]; [congruence |].
      destruct (add_result_supported merged r H8 Er) as [merged' Hm].
      rewrite Hm. simpl.
      destruct (IH HI merged') as (bad & Hb & Hbs & Hbr).
      * eapply add_result_eight_slots; eauto.
      * exists bad. auto.
    + exists r. rewrite (add_result_unsupported merged r Er). simpl. auto.
Qed.

Lemma merge_unified_raise w args algs results e :
  merge_unified algs results = raise e -> merge w args algs results = raise e.
Proof.
  intros H. unfold merge, merge_filtered, merge_annotated. rewrite H. reflexivity.
Qed.

(** C3: a usage observation whose version string is not one of the eight
    supported ones makes [merge] raise [RuntimeError('Unknown version ...')],
    so that no mapping is returned; each supported string has a slot index
    in 0..7 and no two strings share an index. *)
Theorem unknown_version_aborts_merge w args algs results result :
  In result results ->
  ~ In (AlgResultRecord.version result) supported_versions ->
  (exists bad,
     In bad results
     /\ ~ In (AlgResultRecord.version bad) supported_versions
     /\ merge w args algs results
        = raise (RuntimeError ("Unknown version " ++ AlgResultRecord.version bad)))
  /\ (forall version, In version supported_versions ->
        exists index,
          AlgRecord.index_for_version version = ok index /\ (index <= 7)%nat)
  /\ (forall v1 v2 index,
        AlgRecord.index_for_version v1 = ok index ->
        AlgRecord.index_for_version v2 = ok index -> v1 = v2).
Proof.
  intros HI Hs. split; [| split].
  - apply not_supported_iff in Hs.
    destruct (add_results_unsupported results (add_known algs) result)
      as (bad & Hb & Hbs & Hr); auto.
    + apply add_known_inv with (I := eight_slots). intros alg. split; reflexivity.
    + exists bad. split; [assumption |]. split; [now apply not_supported_iff |].
      now apply merge_unified_raise.
  - intros version Hv. apply is_supported_iff in Hv.
    destruct (index_for_version_supported _ Hv) as (index & Hi & Hn).
    exists index. split; [assumption |].
    assert (index < List.length supported_versions)%nat
      by (apply nth_error_Some; congruence).
    simpl in H. lia.
  - intros v1 v2 index H1 H2.
    apply index_for_version_ok in H1. apply index_for_version_ok in H2. congruence.
Qed.

(** ** The blacklist *)

Lemma load_blacklist_empty_file w :
  read_file w "blacklist" = Some "" -> load_blacklist w = ok [""].
Proof. unfold load_blacklist, open_read. intros ->. reflexivity. Qed.

Lemma merge_annotated_blacklist_raise w args algs results m5 blacklist k :
  merge_annotated w algs results = ok m5 ->
  load_blacklist w = ok blacklist ->
  del_all blacklist m5 = raise (KeyError k) ->
  merge w args algs results = raise (KeyError k).
Proof.
  intros H5 Hbl Hd. unfold merge, merge_filtered, remove_blacklisted.
  rewrite H5. simpl. rewrite Hbl. simpl. rewrite Hd. reflexivity.
Qed.

Lemma missing_blacklist_line_raises w args algs results m5 blacklist item :
  merge_annotated w algs results = ok m5 ->
  load_blacklist w = ok blacklist ->
  In item blacklist ->
  dict_mem item m5 = false ->
  exists k, In k blacklist /\ merge w args algs results = raise (KeyError k).
Proof.
  intros H5 Hbl HI Hm.
  destruct (del_all_missing _ blacklist m5 item HI) as (k & Hk & Hd).
  - rewrite <- dict_mem_true_iff. congruence.
  - exists k. split; [assumption |].
    eapply merge_annotated_blacklist_raise; eauto.
Qed.

(** C9: when a line of the blacklist is not a key of [merged] as the
    blacklist removal finds it, [merge] raises [KeyError] for a line of the
    blacklist; an empty blacklist file is read as the one line ['']. *)
Theorem blacklist_line_without_record_raises w args algs results m5 blacklist item :
  merge_annotated w algs results = ok m5 ->
  load_blacklist w = ok blacklist ->
  In item blacklist ->
  dict_mem item m5 = false ->
  (exists k, In k blacklist /\ merge w args algs results = raise (KeyError k))
  /\ (read_file w "blacklist" = Some "" -> blacklist = [""]).
Proof.
  intros H5 Hbl HI Hm. split.
  - eapply missing_blacklist_line_raises; eauto.
  - intros He. rewrite (load_blacklist_empty_file _ He) in Hbl.
    inversion Hbl. reflexivity.
Qed.

(** No record is ever kept under the empty name: the supersession pass
    raises [ValueError] on it. *)
Lemma merge_annotated_no_empty_key w algs results m5 :
  merge_annotated w algs results = ok m5 -> dict_mem "" m5 = false.
Proof.
  intros H. destruct (dict_mem "" m5) eqn:E; [| reflexivity].
  apply dict_mem_true_iff in E. unfold keys in E. apply in_map_iff in E.
  destruct E as ([k r] & Ek & HI). simpl in Ek. subst k.
  apply merge_annotated_ok in H. destruct H as (m0 & Hu & _ & _ & Hs).
  destruct (Hs _ _ HI) as (r0 & v & HI0 & Hv & _).
  pose proof (merge_unified_key_is_name _ _ _ Hu) as Hn.
  rewrite Forall_forall in Hn. specialize (Hn _ HI0). unfold key_is_name in Hn.
  simpl in Hn. rewrite Hn in Hv. discriminate Hv.
Qed.

(** X22: with an empty blacklist file [merge] never returns: the file is
    read as the one line [''], and no record is kept under the empty name,
    so that its deletion raises. *)
Lemma merge_empty_blacklist_raises w args algs results :
  read_file w "blacklist" = Some "" ->
  exists e, merge w args algs results = raise e.
Proof.
  intros He. destruct (merge_annotated w algs results) as [e | m5] eqn:H5.
  - exists e. unfold merge, merge_filtered. rewrite H5. reflexivity.
  - destruct (missing_blacklist_line_raises w args algs results m5 [""] "")
      as (k & _ & Hk).
    + assumption.
    + now apply load_blacklist_empty_file.
    + now left.
    + eapply merge_annotated_no_empty_key; eauto.
    + eauto.
Qed.

(** C2, as the code has it: an identity of the blacklist other than
    [Q1D2.v1] has no record in the mapping [merge] returns, whatever the
    options are.  [Q1D2.v1] is the exception: the special case puts the
    record of [Q1D.v2] under that key after the blacklist was applied. *)
Theorem blacklisted_identity_absent w args algs results m blacklist item :
  merge w args algs results = ok m ->
  load_blacklist w = ok blacklist ->
  In item blacklist ->
  item <> "Q1D2.v1" ->
  dict_get item m = None.
Proof.
  intros H Hbl HI Hne. apply dict_get_None_iff. intros Hk.
  unfold keys in Hk. apply in_map_iff in Hk.
  destruct Hk as ([k r] & Ek & Hkr). simpl in Ek. subst k.
  apply merge_ok in H. destruct H as (m7 & tmp & H7 & _ & _ & Hm).
  destruct (Hm _ _ Hkr) as [[E _] | (_ & _ & HI7)]; [contradiction |].
  apply merge_filtered_ok in H7.
  destruct H7 as (m5 & bl & _ & Hbl' & _ & _ & Hgone).
  rewrite Hbl in Hbl'. inversion Hbl'; subst bl.
  apply (Hgone _ HI). eapply In_keys; eauto.
Qed.

(** ** The special case *)

(** C7, as the code has it: when [Q1D2.v1] is a key already as the special
    case is reached, [merge] raises nothing: the record of [Q1D.v2], renamed,
    replaces the record that was under [Q1D2.v1], and the mapping has one
    record less. *)
Theorem rename_replaces_existing_target w args algs results m7 tmp old :
  merge_filtered w args algs results = ok m7 ->
  dict_get "Q1D.v2" m7 = Some tmp ->
  dict_get "Q1D2.v1" m7 = Some old ->
  exists m,
    merge w args algs results = ok m
    /\ dict_get "Q1D2.v1" m = Some (AlgRecord.set_name "Q1D2.v1" tmp)
    /\ dict_get "Q1D.v2" m = None
    /\ S (List.length m) = List.length m7.
Proof.
  intros H7 Ht Ho.
  destruct (special_cases_present m7 tmp Ht) as (d & Hd & Hs).
  exists (dict_set "Q1D2.v1" (AlgRecord.set_name "Q1D2.v1" tmp) d).
  split; [| split; [| split]].
  - unfold merge. rewrite H7. exact Hs.
  - apply dict_get_set_eq.
  - rewrite dict_get_set_neq by discriminate.
    apply dict_get_None_iff.
    apply merge_filtered_ok in H7. destruct H7 as (m5 & bl & _ & _ & _ & Hnd & _).
    apply (dict_del_NoDup _ _ _ _ Hd Hnd).
  - rewrite length_dict_set_mem; [eapply length_dict_del; eauto |].
    eapply dict_del_keys_neq; [exact Hd | discriminate |].
    apply dict_get_In in Ho. eapply In_keys; eauto.
Qed.

(** ** The example of the specification *)

Lemma add_line_count_info_no_language w r :
  AlgRecord.type r = "-" ->
  exists line_count,
    add_line_count_info w r = ok (AlgRecord.set_line_count line_count r).
Proof.
  intros Ht. unfold add_line_count_info.
  destruct (get_file_length w (AlgRecord.path r)) as [e | n] eqn:E.
  - unfold get_file_length, open_read in E.
    destruct (read_file w (AlgRecord.path r)); simpl in E; inversion E; subst.
    eexists; reflexivity.
  - rewrite Ht. simpl. destruct (AlgRecord.is_test r); simpl; eexists; reflexivity.
Qed.

Lemma example_annotated w text :
  read_file w (cache_dir w ++ "/deprecated-algorithms") = Some text ->
  exists l1 l2,
    merge_annotated w [] example_observations
    = ok [("A.v1", example_A1 l1); ("A.v2", example_A2 l2)].
Proof.
  intros Hd. unfold merge_annotated.
  set (u := merge_unified [] example_observations). vm_compute in u. subst u.
  cbn [bind].
  match goal with
  | |- context [update_values (init_superseded ?m) ?m] =>
      set (s := update_values (init_superseded m) m)
  end.
  vm_compute in s. subst s. cbn [bind].
  unfold update_values. cbn [map_each fst snd].
  match goal with
  | |- context [add_line_count_info w ?r] =>
      destruct (add_line_count_info_no_language w r eq_refl) as [l1 ->]
  end.
  match goal with
  | |- context [add_line_count_info w ?r] =>
      destruct (add_line_count_info_no_language w r eq_refl) as [l2 ->]
  end.
  cbn [bind].
  unfold add_deprecation_info, open_read. rewrite Hd. cbn [bind].
  exists l1, l2. vm_compute. reflexivity.
Qed.

(** Without [Q1D.v2] among the observations the special case raises. *)
Lemma example_never_returns w args :
  exists e, merge w args [] example_observations = raise e.
Proof.
  destruct (merge w args [] example_observations) as [e | m] eqn:H; [eauto |].
  exfalso. apply merge_ok in H. destruct H as (m7 & tmp & H7 & Ht & _).
  apply merge_filtered_descends in H7. destruct H7 as (m0 & Hu & Hd).
  destruct (Hd _ _ Ht) as (r0 & HI & _).
  vm_compute in Hu. inversion Hu; subst m0. clear Hu.
  simpl in HI. destruct HI as [E | [E | []]]; discriminate E.
Qed.

(** C4, as the code has it: on the empty catalog and the two observations,
    with an empty deprecation list and an empty blacklist file, [merge]
    returns no mapping: the empty file is read as the one line [''], whose
    deletion raises [KeyError], and in no world does the run get past the
    special case, [Q1D.v2] being absent.  The mapping [merge] has built when
    it reaches the blacklist holds exactly two records: [A.v1], superseded,
    with [get_count() = 3], and [A.v2], not superseded, with
    [get_count() = 7] and [get_internal_fraction() = 1.0]. *)
Theorem example_run w args text :
  read_file w (cache_dir w ++ "/deprecated-algorithms") = Some text ->
  read_file w "blacklist" = Some "" ->
  merge w args [] example_observations = raise (KeyError "")
  /\ (forall w' args', exists e, merge w' args' [] example_observations = raise e)
  /\ exists l1 l2,
       merge_annotated w [] example_observations
       = ok [("A.v1", example_A1 l1); ("A.v2", example_A2 l2)]
       /\ AlgRecord.superseded (example_A1 l1) = "superseded"
       /\ AlgRecord.get_count (example_A1 l1) = 3
       /\ AlgRecord.superseded (example_A2 l2) = "          -"
       /\ AlgRecord.get_count (example_A2 l2) = 7
       /\ exists fraction,
            AlgRecord.get_internal_fraction (example_A2 l2) = ok fraction
            /\ (fraction == 1)%Q.
Proof.
  intros Hd Hb. destruct (example_annotated w text Hd) as (l1 & l2 & H5).
  split; [| split].
  - eapply merge_annotated_blacklist_raise.
    + exact H5.
    + apply load_blacklist_empty_file. exact Hb.
    + reflexivity.
  - exact example_never_returns.
  - exists l1, l2. split; [exact H5 |]. repeat split.
    eexists. split; reflexivity.
Qed.

(** ** Versions with two digits *)

Lemma last_char_snoc s c : last_char (s ++ String c "") = String c "".
Proof.
  induction s as [| a s IH]; simpl; [reflexivity |].
  destruct (s ++ String c "") eqn:E; [| exact IH].
  destruct s; discriminate E.
Qed.

Lemma drop_last_snoc s c : drop_last (s ++ String c "") = s.
Proof.
  induction s as [| a s IH]; simpl; [reflexivity |].
  destruct (s ++ String c "") eqn:E.
  - destruct s; discriminate E.
  - now rewrite IH.
Qed.

Lemma append_assoc (s1 s2 s3 : string) : (s1 ++ s2) ++ s3 = s1 ++ (s2 ++ s3).
Proof. induction s1 as [| c s1 IH]; simpl; [reflexivity | now rewrite IH]. Qed.

Lemma int_single_digit c d : digit_value c = Some d -> int (String c "") = ok d.
Proof. intros H. unfold int. simpl. rewrite H. reflexivity. Qed.

(** What the supersession pass does with a name that ends in a digit: the
    key it looks for is the name without its last character, followed by
    the decimal numeral of that digit plus one. *)
Lemma init_superseded_last_digit merged item prefix c d :
  AlgRecord.name item = prefix ++ String c "" ->
  digit_value c = Some d ->
  init_superseded merged item
  = ok (AlgRecord.set_superseded
          (if dict_mem (prefix ++ str (d + 1)) merged
           then "superseded" else "          -")
          item).
Proof.
  intros Hn Hd. unfold init_superseded.
  rewrite Hn, last_char_snoc, drop_last_snoc, (int_single_digit _ _ Hd).
  reflexivity.
Qed.

Lemma str_single_digit N :
  1 <= N <= 9 -> exists c, str N = String c "" /\ digit_value c = Some N.
Proof.
  intros H.
  assert (E : N = 1 \/ N = 2 \/ N = 3 \/ N = 4 \/ N = 5 \/ N = 6 \/ N = 7
              \/ N = 8 \/ N = 9) by lia.
  repeat (destruct E as [-> | E]; [eexists; split; reflexivity |]).
  subst. eexists; split; reflexivity.
Qed.

(** For a version of one digit the pass looks for the next version. *)
Lemma single_digit_successor merged item X N :
  AlgRecord.name item = identity X N ->
  1 <= N <= 9 ->
  init_superseded merged item
  = ok (AlgRecord.set_superseded
          (if dict_mem (identity X (N + 1)) merged
           then "superseded" else "          -")
          item).
Proof.
  intros Hn HN. destruct (str_single_digit N HN) as (c & Hs & Hd).
  unfold identity in *. rewrite Hs, <- append_assoc in Hn.
  rewrite (init_superseded_last_digit merged item _ c N Hn Hd).
  now rewrite append_assoc.
Qed.

(** C1 on the code: with [A.v19] and [A.v20] both in the unified set and in
    the mapping [merge] returns, the record of [A.v19] is not marked
    superseded: the pass reads the last character, 9, as the version and
    looks for [A.v110]. *)
Theorem two_digit_version_not_superseded :
  exists m0 m r19,
    merge_unified [] two_digit_results = ok m0
    /\ dict_mem "A.v19" m0 = true
    /\ dict_mem "A.v20" m0 = true
    /\ merge (sample_world "B.v1") no_options [] two_digit_results = ok m
    /\ dict_mem "A.v20" m = true
    /\ dict_get "A.v19" m = Some r19
    /\ int (last_char (AlgRecord.name r19)) = ok 9
    /\ drop_last (AlgRecord.name r19) ++ str (9 + 1) = "A.v110"
    /\ AlgRecord.superseded r19 = "          -".
Proof.
  exists (returned (merge_unified [] two_digit_results)).
  exists (returned (merge (sample_world "B.v1") no_options [] two_digit_results)).
  exists (record_at "A.v19"
            (returned
               (merge (sample_world "B.v1") no_options [] two_digit_results))).
  vm_compute. repeat split.
Qed.

(** ** Runs *)

(** C5 fails as stated: an observation with a negative count gives a
    returned record whose [get_count()] is negative. *)
Lemma negative_count_gives_negative_get_count :
  exists m r,
    merge (sample_world "B.v1") no_options [] negative_results = ok m
    /\ dict_get "Q1D2.v1" m = Some r
    /\ AlgRecord.get_count r < 0.
Proof.
  exists (returned (merge (sample_world "B.v1") no_options [] negative_results)).
  exists (record_at "Q1D2.v1"
            (returned (merge (sample_world "B.v1") no_options [] negative_results))).
  vm_compute. repeat split.
Qed.

(** C6 fails as stated: with counts of both signs a returned record has
    [get_count() = 2] and an internal fraction of 5/2; and with a count of
    2^1024 a returned record has no internal fraction, [OverflowError] being
    raised. *)
Lemma mixed_signs_give_fraction_above_one :
  (exists m r fraction,
     merge (sample_world "B.v1") no_options [] mixed_sign_results = ok m
     /\ dict_get "Q1D2.v1" m = Some r
     /\ AlgRecord.get_count r = 2
     /\ AlgRecord.get_internal_fraction r = ok fraction
     /\ ~ (fraction <= 1)%Q)
  /\ (exists m r,
        merge (sample_world "B.v1") no_options [] overflow_results = ok m
        /\ dict_get "Q1D2.v1" m = Some r
        /\ AlgRecord.get_count r <> 0
        /\ AlgRecord.get_internal_fraction r = raise OverflowError).
Proof.
  split.
  - exists (returned (merge (sample_world "B.v1") no_options []
                       mixed_sign_results)).
    exists (record_at "Q1D2.v1"
              (returned (merge (sample_world "B.v1") no_options []
                           mixed_sign_results))).
    exists (5 # 2)%Q.
    split; [vm_compute; reflexivity |].
    split; [vm_compute; reflexivity |].
    split; [vm_compute; reflexivity |].
    split; [vm_compute; reflexivity |].
    vm_compute. intros H. apply H. reflexivity.
  - exists (returned (merge (sample_world "B.v1") no_options []
                       overflow_results)).
    exists (record_at "Q1D2.v1"
              (returned (merge (sample_world "B.v1") no_options []
                           overflow_results))).
    split; [vm_compute; reflexivity |].
    split; [vm_compute; reflexivity |].
    split; [vm_compute; discriminate |].
    vm_compute. reflexivity.
Qed.

(** C2 fails as stated: with [Q1D2.v1] in the blacklist the returned
    mapping has a record under [Q1D2.v1], the renamed record of [Q1D.v2]. *)
Lemma blacklisted_rename_target_is_returned :
  exists m r,
    load_blacklist (sample_world "Q1D2.v1") = ok ["Q1D2.v1"]
    /\ merge (sample_world "Q1D2.v1") no_options [] blacklisted_target_results
       = ok m
    /\ dict_get "Q1D2.v1" m = Some r
    /\ AlgRecord.get_count r = 2.
Proof.
  exists (returned
            (merge (sample_world "Q1D2.v1") no_options []
               blacklisted_target_results)).
  exists (record_at "Q1D2.v1"
            (returned
               (merge (sample_world "Q1D2.v1") no_options []
                  blacklisted_target_results))).
  vm_compute. repeat split.
Qed.

(** C7 fails as stated: with [Q1D2.v1] and [Q1D.v2] both there when the
    special case is reached, [merge] returns, and the record that was under
    [Q1D2.v1], with its count of 10, is gone. *)
Lemma rename_collision_is_silent :
  merge_filtered (sample_world "B.v1") no_options [] collision_results
  = ok collision_filtered
  /\ AlgRecord.get_count (record_at "Q1D2.v1" collision_filtered) = 10
  /\ dict_mem "Q1D.v2" collision_filtered = true
  /\ merge (sample_world "B.v1") no_options [] collision_results
     = ok collision_merged
  /\ List.length collision_merged = 1%nat
  /\ AlgRecord.get_count (record_at "Q1D2.v1" collision_merged) = 2.
Proof. vm_compute. repeat split. Qed.

(** C4 fails as stated: on the example [merge] returns no mapping. *)
Lemma example_run_raises :
  ~ exists m,
      merge (sample_world "") no_options [] example_observations = ok m.
Proof. intros [m H]. vm_compute in H. discriminate H. Qed.

(** [get_count_is_sum_and_nonneg] on the record of [A.v2] in the sample run. *)
Lemma get_count_is_sum_and_nonneg_witness :
  Forall (fun result => 0 <= AlgResultRecord.count result) sample_results
  /\ merge (sample_world "B.v1") no_options sample_algs sample_results
     = ok sample_merged
  /\ In ("A.v2", sample_A2) sample_merged
  /\ AlgRecord.get_count sample_A2
     = sum (AlgRecord.count_direct sample_A2)
       + sum (AlgRecord.count_internal sample_A2)
  /\ 0 <= AlgRecord.get_count sample_A2.
Proof.
  assert (Hc : Forall (fun result => 0 <= AlgResultRecord.count result)
                 sample_results)
    by (repeat constructor; simpl; lia).
  assert (H : merge (sample_world "B.v1") no_options sample_algs sample_results
              = ok sample_merged)
    by (vm_compute; reflexivity).
  assert (HI : In ("A.v2", sample_A2) sample_merged) by (simpl; auto).
  exact (conj Hc (conj H (conj HI
           (get_count_is_sum_and_nonneg _ _ _ _ _ _ _ Hc H HI)))).
Defined.

(** [get_internal_fraction_cases] on the record of [A.v2] in the sample run. *)
Lemma get_internal_fraction_cases_witness :
  Forall (fun result => 0 <= AlgResultRecord.count result) sample_results
  /\ merge (sample_world "B.v1") no_options sample_algs sample_results
     = ok sample_merged
  /\ In ("A.v2", sample_A2) sample_merged
  /\ AlgRecord.get_count sample_A2 <> 0
  /\ AlgRecord.get_count sample_A2 < float_limit
  /\ AlgRecord.get_internal_fraction sample_A2
     = ok (inject_Z (sum (AlgRecord.count_internal sample_A2))
           / inject_Z (AlgRecord.get_count sample_A2))%Q
  /\ (0 <= inject_Z (sum (AlgRecord.count_internal sample_A2))
           / inject_Z (AlgRecord.get_count sample_A2))%Q
  /\ (inject_Z (sum (AlgRecord.count_internal sample_A2))
      / inject_Z (AlgRecord.get_count sample_A2) <= 1)%Q.
Proof.
  assert (Hc : Forall (fun result => 0 <= AlgResultRecord.count result)
                 sample_results)
    by (repeat constructor; simpl; lia).
  assert (H : merge (sample_world "B.v1") no_options sample_algs sample_results
              = ok sample_merged)
    by (vm_compute; reflexivity).
  assert (HI : In ("A.v2", sample_A2) sample_merged) by (simpl; auto).
  assert (Hne : AlgRecord.get_count sample_A2 <> 0) by (vm_compute; discriminate).
  assert (Hlt : AlgRecord.get_count sample_A2 < float_limit)
    by (vm_compute; reflexivity).
  exact (conj Hc (conj H (conj HI (conj Hne (conj Hlt
           (proj1 (proj2 (get_internal_fraction_cases _ _ _ _ _ _ _ Hc H HI))
              Hne Hlt)))))).
Defined.

(** [merge_keys_are_names] on the sample run. *)
Lemma merge_keys_are_names_witness :
  merge (sample_world "B.v1") no_options sample_algs sample_results
  = ok sample_merged
  /\ Forall key_is_name sample_merged.
Proof.
  assert (H : merge (sample_world "B.v1") no_options sample_algs sample_results
              = ok sample_merged)
    by (vm_compute; reflexivity).
  exact (conj H (merge_keys_are_names _ _ _ _ _ H)).
Defined.

(** [unknown_version_aborts_merge] on an observation of version 4.0. *)
Lemma unknown_version_aborts_merge_witness :
  In (observation "A.v2" 1 false "4.0") unknown_version_results
  /\ ~ In "4.0" supported_versions
  /\ exists bad,
       In bad unknown_version_results
       /\ ~ In (AlgResultRecord.version bad) supported_versions
       /\ merge (sample_world "B.v1") no_options sample_algs
            unknown_version_results
          = raise (RuntimeError ("Unknown version " ++ AlgResultRecord.version bad)).
Proof.
  assert (HI : In (observation "A.v2" 1 false "4.0") unknown_version_results)
    by (simpl; auto).
  assert (Hs : ~ In "4.0" supported_versions)
    by (simpl; intros H; repeat (destruct H as [H | H]; [discriminate H |]);
        exact H).
  exact (conj HI (conj Hs
           (proj1 (unknown_version_aborts_merge (sample_world "B.v1") no_options
                     sample_algs unknown_version_results
                     (observation "A.v2" 1 false "4.0") HI Hs)))).
Defined.

(** [blacklist_line_without_record_raises] on the example with an empty
    blacklist file. *)
Lemma blacklist_line_without_record_raises_witness :
  merge_annotated (sample_world "") [] example_observations
  = ok [("A.v1", example_A1 "-"); ("A.v2", example_A2 "-")]
  /\ load_blacklist (sample_world "") = ok [""]
  /\ In "" [""]
  /\ dict_mem "" [("A.v1", example_A1 "-"); ("A.v2", example_A2 "-")] = false
  /\ exists k,
       In k [""]
       /\ merge (sample_world "") no_options [] example_observations
          = raise (KeyError k).
Proof.
  assert (H5 : merge_annotated (sample_world "") [] example_observations
               = ok [("A.v1", example_A1 "-"); ("A.v2", example_A2 "-")])
    by (vm_compute; reflexivity).
  assert (Hbl : load_blacklist (sample_world "") = ok [""]) by reflexivity.
  assert (HI : In "" [""]) by (simpl; auto).
  assert (Hm : dict_mem "" [("A.v1", example_A1 "-"); ("A.v2", example_A2 "-")]
               = false)
    by reflexivity.
  exact (conj H5 (conj Hbl (conj HI (conj Hm
           (proj1 (blacklist_line_without_record_raises (sample_world "")
                     no_options [] example_observations _ _ _ H5 Hbl HI Hm)))))).
Defined.

(** [blacklisted_identity_absent] on the sample run, where [B.v1] is
    blacklisted. *)
Lemma blacklisted_identity_absent_witness :
  merge (sample_world "B.v1") no_options sample_algs sample_results
  = ok sample_merged
  /\ load_blacklist (sample_world "B.v1") = ok ["B.v1"]
  /\ In "B.v1" ["B.v1"]
  /\ "B.v1" <> "Q1D2.v1"
  /\ dict_get "B.v1" sample_merged = None.
Proof.
  assert (H : merge (sample_world "B.v1") no_options sample_algs sample_results
              = ok sample_merged)
    by (vm_compute; reflexivity).
  assert (Hbl : load_blacklist (sample_world "B.v1") = ok ["B.v1"])
    by (vm_compute; reflexivity).
  assert (HI : In "B.v1" ["B.v1"]) by (simpl; auto).
  assert (Hne : "B.v1" <> "Q1D2.v1") by discriminate.
  exact (conj H (conj Hbl (conj HI (conj Hne
           (blacklisted_identity_absent _ _ _ _ _ _ _ H Hbl HI Hne))))).
Defined.

(** [rename_replaces_existing_target] on a run where [Q1D2.v1] was observed. *)
Lemma rename_replaces_existing_target_witness :
  merge_filtered (sample_world "B.v1") no_options [] collision_results
  = ok collision_filtered
  /\ dict_get "Q1D.v2" collision_filtered
     = Some (record_at "Q1D.v2" collision_filtered)
  /\ dict_get "Q1D2.v1" collision_filtered
     = Some (record_at "Q1D2.v1" collision_filtered)
  /\ exists m,
       merge (sample_world "B.v1") no_options [] collision_results = ok m
       /\ dict_get "Q1D2.v1" m
          = Some (AlgRecord.set_name "Q1D2.v1"
                    (record_at "Q1D.v2" collision_filtered))
       /\ dict_get "Q1D.v2" m = None
       /\ S (List.length m) = List.length collision_filtered.
Proof.
  assert (H7 : merge_filtered (sample_world "B.v1") no_options []
                 collision_results
               = ok collision_filtered)
    by (vm_compute; reflexivity).
  assert (Ht : dict_get "Q1D.v2" collision_filtered
               = Some (record_at "Q1D.v2" collision_filtered))
    by reflexivity.
  assert (Ho : dict_get "Q1D2.v1" collision_filtered
               = Some (record_at "Q1D2.v1" collision_filtered))
    by reflexivity.
  exact (conj H7 (conj Ht (conj Ho
           (rename_replaces_existing_target _ _ _ _ _ _ _ H7 Ht Ho)))).
Defined.

(** [example_run] in the world with an empty blacklist file. *)
Lemma example_run_witness :
  read_file (sample_world "")
    (cache_dir (sample_world "") ++ "/deprecated-algorithms") = Some ""
  /\ read_file (sample_world "") "blacklist" = Some ""
  /\ merge (sample_world "") no_options [] example_observations
     = raise (KeyError "").
Proof.
  assert (Hd : read_file (sample_world "")
                 (cache_dir (sample_world "") ++ "/deprecated-algorithms")
               = Some "")
    by reflexivity.
  assert (Hb : read_file (sample_world "") "blacklist" = Some "") by reflexivity.
  exact (conj Hd (conj Hb
           (proj1 (example_run (sample_world "") no_options "" Hd Hb)))).
Defined.

(** * Further properties of the merge *)

(** ** Slot by slot *)

Lemma add_at_nth counts index count counts' i :
  AlgRecord.add_at counts index count = ok counts' ->
  nth i counts' 0 = nth i counts 0 + (if Nat.eqb i index then count else 0).
Proof.
  revert index counts' i.
  induction counts as [| x counts IH]; intros [| index] counts' i H;
    simpl in H; try discriminate H.
  - inversion H; subst. destruct i; simpl; lia.
  - bind_inv H. inversion H; subst. destruct i; simpl; [lia |].
    apply (IH _ _ i) in Hm. exact Hm.
Qed.

Lemma slot_total_cons k child index result results :
  slot_total k child index (result :: results)
  = (if String.eqb (AlgResultRecord.name result) k
        && Bool.eqb (AlgResultRecord.is_child result) child
        && in_slot index result
     then AlgResultRecord.count result else 0)
    + slot_total k child index results.
Proof.
  unfold slot_total. simpl.
  destruct (String.eqb (AlgResultRecord.name result) k
            && Bool.eqb (AlgResultRecord.is_child result) child
            && in_slot index result); simpl; [apply sum_cons | lia].
Qed.

Lemma add_result_data_slots r result r' index :
  AlgRecord.add_result_data r result = ok r' ->
  nth index (AlgRecord.count_direct r') 0
  = nth index (AlgRecord.count_direct r) 0
    + (if Bool.eqb (AlgResultRecord.is_child result) false && in_slot index result
       then AlgResultRecord.count result else 0)
  /\ nth index (AlgRecord.count_internal r') 0
     = nth index (AlgRecord.count_internal r) 0
       + (if Bool.eqb (AlgResultRecord.is_child result) true && in_slot index result
          then AlgResultRecord.count result else 0).
Proof.
  unfold AlgRecord.add_result_data, in_slot. intros H. bind_inv H.
  rewrite Hm. rename m into j.
  destruct (AlgResultRecord.is_child result); bind_inv H; inversion H; subst;
    simpl; apply (add_at_nth _ _ _ _ index) in Hm0; rewrite Nat.eqb_sym.
  all: split; lia.
Qed.

Lemma add_result_slots f merged result merged' :
  slots_agree f merged ->
  add_result merged result = ok merged' ->
  slots_agree
    (fun k child index =>
       f k child index
       + (if String.eqb (AlgResultRecord.name result) k
             && Bool.eqb (AlgResultRecord.is_child result) child
             && in_slot index result
          then AlgResultRecord.count result else 0))
    merged'.
Proof.
  intros Hf. unfold add_result, dict_setdefault.
  destruct (dict_get (AlgResultRecord.name result) merged) as [r0 |] eqn:E;
    intros H; bind_inv H; inversion H; subst; clear H; intros k;
    destruct (String.eqb_spec (AlgResultRecord.name result) k) as [<- | Hne];
    simpl.
  - rewrite dict_get_set_eq. intros index.
    destruct (add_result_data_slots _ _ _ index Hm) as [Hd Hi].
    specialize (Hf (AlgResultRecord.name result)). rewrite E in Hf.
    destruct (Hf index) as [Fd Fi]. rewrite Hd, Hi, Fd, Fi. split; reflexivity.
  - rewrite dict_get_set_neq by congruence.
    specialize (Hf k). destruct (dict_get k merged).
    + intros index. destruct (Hf index). split; lia.
    + intros child index. rewrite Hf. lia.
  - rewrite dict_get_set_eq. intros index.
    destruct (add_result_data_slots _ _ _ index Hm) as [Hd Hi].
    specialize (Hf (AlgResultRecord.name result)). rewrite E in Hf.
    rewrite Hd, Hi, !Hf. split; f_equal;
      destruct index as [| [| [| [| [| [| [| [| [| ]]]]]]]]]; reflexivity.
  - rewrite !dict_get_set_neq by congruence.
    specialize (Hf k). destruct (dict_get k merged).
    + intros index. destruct (Hf index). split; lia.
    + intros child index. rewrite Hf. lia.
Qed.

Lemma add_results_slots results f merged merged' :
  slots_agree f merged ->
  add_results results merged = ok merged' ->
  slots_agree (fun k child index => f k child index + slot_total k child index results)
    merged'.
Proof.
  unfold add_results. revert f merged.
  induction results as [| result results IH]; simpl; intros f merged Hf H.
  - inversion H; subst. intros k. specialize (Hf k).
    destruct (dict_get k merged').
    + intros index. destruct (Hf index). unfold slot_total, sum. simpl.
      split; lia.
    + intros child index. rewrite Hf. reflexivity.
  - bind_inv H. pose proof (add_result_slots _ _ _ _ Hf Hm) as Hf1.
    pose proof (IH _ _ Hf1 H) as Hf2. intros k. specialize (Hf2 k).
    destruct (dict_get k merged').
    + intros index. destruct (Hf2 index). rewrite !slot_total_cons. split; lia.
    + intros child index. rewrite slot_total_cons.
      pose proof (Hf2 child index) as E. cbv beta in E. lia.
Qed.

Lemma add_known_slots algs : slots_agree (fun _ _ _ => 0) (add_known algs).
Proof.
  pose proof (add_known_inv
                (fun kv =>
                   AlgRecord.count_direct (snd kv) = [0; 0; 0; 0; 0; 0; 0; 0]
                   /\ AlgRecord.count_internal (snd kv) = [0; 0; 0; 0; 0; 0; 0; 0])
                (fun alg => conj eq_refl eq_refl) algs) as Hz.
  intros k. destruct (dict_get k (add_known algs)) as [r |] eqn:E;
    [| reflexivity].
  apply dict_get_In in E. rewrite Forall_forall in Hz.
  destruct (Hz _ E) as [Hd Hi]. simpl in Hd, Hi. rewrite Hd, Hi. intros index.
  split; destruct index as [| [| [| [| [| [| [| [| [| ]]]]]]]]]; reflexivity.
Qed.

Lemma merge_unified_slots algs results m0 k r index :
  merge_unified algs results = ok m0 ->
  dict_get k m0 = Some r ->
  nth index (AlgRecord.count_direct r) 0 = slot_total k false index results
  /\ nth index (AlgRecord.count_internal r) 0 = slot_total k true index results.
Proof.
  unfold merge_unified. intros H Hg.
  pose proof (add_results_slots _ _ _ _ (add_known_slots algs) H k) as Ht.
  simpl in Ht. rewrite Hg in Ht. exact (Ht index).
Qed.

(** X1: every slot of the count arrays of a returned record holds the sum of
    the counts of the observations of its name with that version, direct
    calls in [count_direct] and child calls in [count_internal]; the record
    under [Q1D2.v1] holds those of [Q1D.v2].  Every observation is counted
    once, in one slot. *)
Theorem merge_slots_are_observed_totals w args algs results m k r index :
  merge w args algs results = ok m ->
  In (k, r) m ->
  nth index (AlgRecord.count_direct r) 0
  = slot_total (observed_key k) false index results
  /\ nth index (AlgRecord.count_internal r) 0
     = slot_total (observed_key k) true index results.
Proof.
  intros H HI.
  destruct (merge_record_origin _ _ _ _ _ _ _ H HI)
    as (m0 & k0 & r0 & Hu & HI0 & Ed & Ei & Hk).
  pose proof (In_dict_get _ _ _ _ (merge_unified_NoDup _ _ _ Hu) HI0) as Hg.
  rewrite Ed, Ei.
  replace (observed_key k) with k0;
    [exact (merge_unified_slots _ _ _ _ _ index Hu Hg) |].
  unfold observed_key. destruct Hk as [(-> & -> & _) | (-> & Hne & _)].
  - reflexivity.
  - destruct (String.eqb_spec k0 "Q1D2.v1"); [contradiction | reflexivity].
Qed.

(** ** Which records are there *)

Lemma add_known_keys algs k :
  In k (keys (add_known algs)) <-> In k (map AlgFileRecord.name algs).
Proof.
  unfold add_known.
  assert (G : forall acc : merged_t,
    In k (keys (fold_left
      (fun merged alg =>
         dict_set (AlgFileRecord.name alg) (AlgRecord.init (inl alg)) merged)
      algs acc))
    <-> In k (keys acc) \/ In k (map AlgFileRecord.name algs)).
  { induction algs as [| alg algs IH]; simpl; intros acc; [tauto |].
    rewrite IH, In_keys_dict_set. intuition. }
  rewrite G. simpl. tauto.
Qed.

Lemma add_result_keys merged result merged' k :
  add_result merged result = ok merged' ->
  (In k (keys merged') <-> k = AlgResultRecord.name result \/ In k (keys merged)).
Proof.
  unfold add_result, dict_setdefault.
  destruct (dict_get (AlgResultRecord.name result) merged) as [r0 |] eqn:E;
    intros H; bind_inv H; inversion H; subst; clear H;
    rewrite ?In_keys_dict_set; tauto.
Qed.

Lemma merge_unified_keys algs results m0 k :
  merge_unified algs results = ok m0 ->
  (In k (keys m0) <-> In k (input_names algs results)).
Proof.
  unfold merge_unified, add_results, input_names. rewrite in_app_iff.
  rewrite <- (add_known_keys algs k). generalize (add_known algs).
  induction results as [| result results IH]; simpl; intros acc H.
  - inversion H; subst. tauto.
  - bind_inv H. rewrite (IH _ H), (add_result_keys _ _ _ k Hm). intuition.
Qed.

(** X2: [merge] returns only when [Q1D.v2] was declared or observed, and
    then the returned mapping has no record under [Q1D.v2] and has one under
    [Q1D2.v1], named [Q1D2.v1]. *)
Theorem merge_returns_renamed_Q1D w args algs results m :
  merge w args algs results = ok m ->
  In "Q1D.v2" (input_names algs results)
  /\ dict_get "Q1D.v2" m = None
  /\ exists r, dict_get "Q1D2.v1" m = Some r /\ AlgRecord.name r = "Q1D2.v1".
Proof.
  unfold merge. intros H. bind_inv H. rename m0 into m7, Hm0 into H7.
  apply special_cases_ok in H. destruct H as (tmp & d & Hg & Hd & ->).
  destruct (merge_filtered_ok _ _ _ _ _ H7) as (m5 & bl & H5 & _ & Hi & Hnd & _).
  split; [| split].
  - apply merge_annotated_ok in H5. destruct H5 as (m0 & Hu & Hk & _).
    apply (merge_unified_keys _ _ _ _ Hu). rewrite <- Hk.
    apply dict_get_In in Hg. apply Hi in Hg. eapply In_keys; eauto.
  - rewrite dict_get_set_neq by discriminate. apply dict_get_None_iff.
    apply (dict_del_NoDup _ _ _ _ Hd Hnd).
  - eexists. split; [apply dict_get_set_eq | reflexivity].
Qed.

Lemma dict_del_In_neq (V : Type) k0 (d d' : dict V) k v :
  dict_del k0 d = ok d' -> k <> k0 -> In (k, v) d -> In (k, v) d'.
Proof.
  revert d'. induction d as [| [k1 v1] d IH]; simpl; intros d' H Hne HI.
  - contradiction.
  - destruct (String.eqb_spec k0 k1) as [-> | Hne1].
    + inversion H; subst. destruct HI as [E | HI]; [congruence | assumption].
    + bind_inv H. inversion H; subst. destruct HI as [E | HI];
        [now left | right; eauto].
Qed.

Lemma del_all_In_iff (V : Type) ks (d d' : dict V) k v :
  del_all ks d = ok d' -> NoDup (keys d) ->
  (In (k, v) d' <-> In (k, v) d /\ ~ In k ks).
Proof.
  intros H Hnd. split.
  - intros HI. split; [eapply del_all_incl; eauto |].
    intros Hk. destruct (del_all_NoDup _ _ _ _ H Hnd) as [_ Hgone].
    apply (Hgone _ Hk). eapply In_keys; eauto.
  - clear Hnd. unfold del_all in H. revert d H.
    induction ks as [| k0 ks IH]; simpl; intros d H [HI Hk].
    + inversion H; subst. assumption.
    + bind_inv H. apply (IH _ H). split; [| tauto].
      eapply dict_del_In_neq; eauto.
Qed.

Lemma del_all_ok_inv (V : Type) ks (d d' : dict V) :
  del_all ks d = ok d' -> NoDup (keys d) -> NoDup ks /\ incl ks (keys d).
Proof.
  unfold del_all. revert d. induction ks as [| k ks IH]; simpl; intros d H Hnd.
  - split; [constructor | intros x []].
  - bind_inv H. destruct (dict_del_NoDup _ _ _ _ Hm Hnd) as [Hnd1 Hk1].
    destruct (IH _ H Hnd1) as [Hks Hincl].
    assert (Hk : In k (keys d)).
    { destruct (dict_get k d) eqn:E.
      - apply dict_get_In in E. eapply In_keys; eauto.
      - apply dict_get_None_iff in E. rewrite dict_del_missing in Hm by assumption.
        discriminate Hm. }
    split.
    + constructor; [| assumption]. intros HI. apply Hk1. now apply Hincl.
    + intros x [<- | Hx]; [assumption |].
      eapply dict_del_keys; [exact Hm | now apply Hincl].
Qed.

Lemma remove_unwanted_In_iff args merged merged' k r :
  NoDup (keys merged) ->
  remove_unwanted args merged = ok merged' ->
  (In (k, r) merged' <-> In (k, r) merged /\ unwanted args r = false).
Proof.
  intros Hnd H. unfold remove_unwanted in H.
  rewrite (del_all_In_iff _ _ _ _ k r H Hnd). split; intros [HI Hk];
    (split; [assumption |]).
  - destruct (unwanted args r) eqn:Eu; [| reflexivity].
    exfalso. apply Hk. apply in_flat_map. exists (k, r).
    split; [assumption |]. unfold unwanted in Eu. simpl.
    destruct (Args.ours args && negb (AlgRecord.ours r)); simpl; [now left |].
    simpl in Eu. rewrite Eu. now left.
  - intros Hx. apply in_flat_map in Hx. destruct Hx as ([k0 r0] & H0 & Hx).
    simpl in Hx.
    assert (k = k0 /\ unwanted args r0 = true) as [<- Hu].
    { unfold unwanted.
      destruct (Args.ours args && negb (AlgRecord.ours r0)),
        (negb (Args.include_tests args) && AlgRecord.is_test r0);
        simpl in Hx; intuition. }
    pose proof (In_dict_get _ _ _ _ Hnd HI) as G1.
    pose proof (In_dict_get _ _ _ _ Hnd H0) as G2. congruence.
Qed.

(** X3: the records that reach the special case are exactly the records of
    the mapping built before the blacklist whose key is no line of the
    blacklist and which the options do not exclude: with [--ours] the
    records that are not from the catalog go, without [--include-tests]
    the records of test files go. *)
Theorem merge_filtered_survivors w args algs results m7 :
  merge_filtered w args algs results = ok m7 ->
  exists m5 blacklist,
    merge_annotated w algs results = ok m5
    /\ load_blacklist w = ok blacklist
    /\ forall k r,
         In (k, r) m7
         <-> In (k, r) m5 /\ ~ In k blacklist /\ unwanted args r = false.
Proof.
  unfold merge_filtered, remove_blacklisted. intros H.
  bind_inv H. rename m into m5, Hm into H5.
  bind_inv H. rename m into m6, Hm into H6.
  bind_inv H6. rename m into blacklist, Hm into Hbl.
  exists m5, blacklist. split; [assumption |]. split; [assumption |].
  pose proof (merge_annotated_NoDup _ _ _ _ H5) as Hnd5.
  destruct (del_all_NoDup _ _ _ _ H6 Hnd5) as [Hnd6 _].
  intros k r. rewrite (remove_unwanted_In_iff _ _ _ k r Hnd6 H).
  rewrite (del_all_In_iff _ _ _ _ k r H6 Hnd5). tauto.
Qed.

(** X4: no record of the returned mapping is excluded by the options: with
    [--ours] every returned record comes from the catalog, and without
    [--include-tests] none is the record of a test file. *)
Theorem merge_respects_options w args algs results m k r :
  merge w args algs results = ok m ->
  In (k, r) m ->
  (Args.ours args = true -> AlgRecord.ours r = true)
  /\ (Args.include_tests args = false -> AlgRecord.is_test r = false).
Proof.
  intros H HI. apply merge_ok in H. destruct H as (m7 & tmp & H7 & Ht & _ & Hm).
  assert (G : forall k0 r0, In (k0, r0) m7 -> unwanted args r0 = false).
  { intros k0 r0 H0. unfold merge_filtered in H7.
    bind_inv H7. bind_inv H7.
    assert (Hnd : NoDup (keys m1)).
    { unfold remove_blacklisted in Hm1. bind_inv Hm1.
      eapply del_all_NoDup; [exact Hm1 |].
      eapply merge_annotated_NoDup; eauto. }
    apply (remove_unwanted_In_iff _ _ _ k0 r0 Hnd H7) in H0. tauto. }
  assert (Hu : unwanted args r = false).
  { destruct (Hm _ _ HI) as [[_ ->] | (_ & _ & HI7)].
    - exact (G _ _ Ht).
    - exact (G _ _ HI7). }
  unfold unwanted in Hu. apply orb_false_iff in Hu. destruct Hu as [Ho Hi].
  split; intros E; rewrite E in *; simpl in *.
  - now destruct (AlgRecord.ours r).
  - exact Hi.
Qed.

(** ** When [merge] raises *)

Lemma int_cases s : (exists n, int s = ok n) \/ int s = raise (ValueError s).
Proof.
  unfold int. destruct s as [| c s]; [now right |].
  destruct (int_digits 0 (String c s)); [left; eauto | now right].
Qed.

Lemma init_superseded_cases m0 r :
  (exists v r', int (last_char (AlgRecord.name r)) = ok v
                /\ init_superseded m0 r = ok r')
  \/ init_superseded m0 r = raise (ValueError (last_char (AlgRecord.name r))).
Proof.
  unfold init_superseded.
  destruct (int_cases (last_char (AlgRecord.name r))) as [[v Hv] | He].
  - left. rewrite Hv. simpl. eauto.
  - right. rewrite He. reflexivity.
Qed.

Lemma update_values_init_superseded m0 (d : merged_t) :
  (Forall (fun kv => exists v, int (last_char (AlgRecord.name (snd kv))) = ok v) d
   /\ exists d', update_values (init_superseded m0) d = ok d')
  \/ exists r,
       In r (values d)
       /\ update_values (init_superseded m0) d
          = raise (ValueError (last_char (AlgRecord.name r))).
Proof.
  unfold update_values.
  induction d as [| [k r] d IH]; simpl.
  - left. split; [constructor | eauto].
  - destruct (init_superseded_cases m0 r) as [(v & r' & Hv & Hr) | He].
    + rewrite Hr. simpl. destruct IH as [[Hall [d' Hd']] | (r1 & Hr1 & He1)].
      * left. split; [constructor; simpl; eauto |].
        rewrite Hd'. simpl. eauto.
      * right. exists r1. split; [now right |]. rewrite He1. reflexivity.
    + right. exists r. split; [now left |]. rewrite He. reflexivity.
Qed.

(** X5: when a declared or observed name does not end in a decimal digit
    (the empty name is one), [merge] raises [ValueError] in the
    supersession pass, provided all versions are known so that the pass is
    reached. *)
Theorem name_without_version_digit_raises w args algs results m0 k :
  merge_unified algs results = ok m0 ->
  In k (input_names algs results) ->
  (forall v, int (last_char k) <> ok v) ->
  exists literal, merge w args algs results = raise (ValueError literal).
Proof.
  intros Hu Hk Hbad.
  destruct (update_values_init_superseded m0 m0)
    as [[Hall _] | (r & Hr & He)].
  - exfalso. apply (merge_unified_keys _ _ _ k Hu) in Hk.
    unfold keys in Hk. apply in_map_iff in Hk.
    destruct Hk as ([k0 r0] & E & HI). simpl in E. subst k0.
    pose proof (merge_unified_key_is_name _ _ _ Hu) as Hn.
    rewrite Forall_forall in Hn, Hall.
    specialize (Hn _ HI). specialize (Hall _ HI). unfold key_is_name in Hn.
    simpl in Hn, Hall. rewrite Hn in Hall. destruct Hall as [v Hv].
    exact (Hbad v Hv).
  - exists (last_char (AlgRecord.name r)).
    unfold merge, merge_filtered, merge_annotated. rewrite Hu. simpl.
    rewrite He. reflexivity.
Qed.

(** X6: without a readable deprecation list, or without a readable
    blacklist file, [merge] returns no mapping. *)
Theorem missing_list_file_raises w args algs results :
  read_file w (cache_dir w ++ "/deprecated-algorithms") = None
  \/ read_file w "blacklist" = None ->
  exists e, merge w args algs results = raise e.
Proof.
  intros Hmiss.
  destruct (merge w args algs results) as [e | m] eqn:H; [eauto |].
  exfalso. unfold merge, merge_filtered in H. bind_inv H. bind_inv Hm0.
  bind_inv Hm0. unfold remove_blacklisted, load_blacklist, open_read in Hm2.
  unfold merge_annotated, add_deprecation_info, open_read in Hm1.
  bind_inv Hm1. bind_inv Hm1. bind_inv Hm1. bind_inv Hm1.
  bind_inv Hm2. bind_inv Hm7.
  destruct Hmiss as [E | E]; rewrite E in *; discriminate.
Qed.

(** X7: once the mapping is built, the blacklist removal and the removal of
    unwanted items go through exactly when the lines of the blacklist are
    pairwise distinct keys of the mapping; a repeated line or a line that
    names no record makes [merge] raise. *)
Theorem filtering_returns_iff w args algs results m5 blacklist :
  merge_annotated w algs results = ok m5 ->
  load_blacklist w = ok blacklist ->
  ((exists m7, merge_filtered w args algs results = ok m7)
   <-> NoDup blacklist /\ incl blacklist (keys m5)).
Proof.
  intros H5 Hbl. pose proof (merge_annotated_NoDup _ _ _ _ H5) as Hnd5. split.
  - intros [m7 H7]. unfold merge_filtered, remove_blacklisted in H7.
    rewrite H5 in H7. simpl in H7. rewrite Hbl in H7. simpl in H7.
    bind_inv H7. eapply del_all_ok_inv; eauto.
  - intros [Hnd Hincl].
    destruct (del_all_returns _ _ _ Hnd Hincl) as [m6 H6].
    apply (merge_filtered_returns w args algs results m5 m6 H5).
    unfold remove_blacklisted. rewrite Hbl. exact H6.
Qed.

(** ** Numerals *)

Lemma int_digits_cons acc c s d :
  digit_value c = Some d ->
  int_digits acc (String c s) = int_digits (10 * acc + d) s.
Proof. intros H. simpl. rewrite H. reflexivity. Qed.

Lemma int_digits_string_of_uint_acc d acc :
  int_digits (Zpos acc) (NilEmpty.string_of_uint d)
  = Some (Zpos (Pos.of_uint_acc d acc)).
Proof.
  revert acc.
  induction d; intros acc; cbn [NilEmpty.string_of_uint Pos.of_uint_acc];
    [reflexivity | ..];
    (erewrite int_digits_cons by (vm_compute; reflexivity));
    rewrite <- IHd; f_equal; lia.
Qed.

Lemma int_digits_string_of_uint d :
  int_digits 0 (NilEmpty.string_of_uint d) = Some (Z.of_N (Pos.of_uint d)).
Proof.
  induction d; cbn [NilEmpty.string_of_uint Pos.of_uint];
    [reflexivity | ..];
    (erewrite int_digits_cons by (vm_compute; reflexivity));
    first [exact IHd | apply int_digits_string_of_uint_acc].
Qed.

(** [int(str(n)) == n] for a number that is not negative. *)
Lemma int_str n : 0 <= n -> int (str n) = ok n.
Proof.
  intros Hn. destruct n as [| p | p]; [reflexivity | | lia].
  unfold str. simpl.
  pose proof (DecimalPos.Unsigned.to_uint_nonnil p) as Hnil.
  pose proof (int_digits_string_of_uint (Pos.to_uint p)) as Hd.
  rewrite DecimalPos.Unsigned.of_to in Hd. simpl in Hd.
  unfold NilZero.string_of_uint.
  destruct (Pos.to_uint p) eqn:E; [contradiction | ..];
    unfold int; simpl NilEmpty.string_of_uint in *; cbv iota; rewrite Hd;
    reflexivity.
Qed.

Lemma str_is_not_dash n : 0 <= n -> str n <> "-".
Proof.
  intros Hn E. pose proof (int_str n Hn) as H. rewrite E in H. discriminate H.
Qed.

(** ** Line counts and tests *)

Lemma str_split_not_nil sep s : str_split sep s <> [].
Proof.
  destruct s as [| c s]; simpl; [discriminate |].
  destruct (Ascii.eqb c sep); [discriminate |].
  destruct (str_split sep s); discriminate.
Qed.

Lemma get_file_length_at_least_one w filename n :
  get_file_length w filename = ok n -> 1 <= n.
Proof.
  unfold get_file_length. intros H. bind_inv H. inversion H; subst.
  pose proof (str_split_not_nil newline (str_strip m)) as Hs.
  destruct (str_split newline (str_strip m)); [contradiction |].
  simpl List.length. lia.
Qed.

Lemma get_file_length_cases w filename :
  (read_file w filename = None
   /\ get_file_length w filename = raise (IOError filename))
  \/ (exists text n,
        read_file w filename = Some text
        /\ get_file_length w filename = ok n /\ 1 <= n).
Proof.
  destruct (get_file_length w filename) as [e | n] eqn:E.
  - left. unfold get_file_length, open_read in E.
    destruct (read_file w filename); simpl in E; [discriminate E |].
    inversion E. auto.
  - right. pose proof (get_file_length_at_least_one _ _ _ E) as Hn.
    unfold get_file_length, open_read in E.
    destruct (read_file w filename) as [text |]; simpl in E; [| discriminate E].
    exists text, n. auto.
Qed.

Lemma count_from_step sub c s skip :
  count_from sub (String c s) skip
  = match skip with
    | S k => count_from sub s k
    | O =>
        if prefix sub (String c s)
        then 1 + count_from sub s (String.length sub - 1)
        else count_from sub s 0
    end.
Proof. reflexivity. Qed.

Lemma str_count_from_nonneg sub s skip : 0 <= count_from sub s skip.
Proof.
  revert skip. induction s as [| c s IH]; intros skip; [simpl; lia |].
  rewrite count_from_step.
  destruct skip; [| apply IH].
  destruct (prefix sub (String c s)); [| apply IH].
  specialize (IH (String.length sub - 1)%nat). lia.
Qed.

Lemma get_test_count_nonneg w filename n :
  get_test_count w filename = ok n -> 0 <= n.
Proof.
  unfold get_test_count, str_count. intros H. bind_inv H. inversion H; subst.
  pose proof (str_count_from_nonneg "  void test" m 0).
  pose proof (str_count_from_nonneg "  def test" m 0). lia.
Qed.

Lemma Qdiv_pos (a b : Z) : 1 <= a -> 1 <= b -> (0 < inject_Z a / inject_Z b)%Q.
Proof.
  intros Ha Hb. destruct a as [| p | p]; try lia. destruct b as [| q | q]; try lia.
  unfold Qdiv, Qmult, Qinv, Qlt, inject_Z. simpl. lia.
Qed.

(** The test block on a record without test data. *)
Lemma add_test_info_ok w testsource source_lines count record :
  1 <= source_lines ->
  AlgRecord.has_test record = false ->
  AlgRecord.test_fraction record = 0%Q ->
  AlgRecord.test_count record = 0 ->
  let state := add_test_info w testsource source_lines count record in
  count <= fst state
  /\ same_but_tests record (snd state)
  /\ AlgRecord.count_direct (snd state) = AlgRecord.count_direct record
  /\ AlgRecord.line_count (snd state) = AlgRecord.line_count record
  /\ (AlgRecord.has_test (snd state) = true ->
      (0 < AlgRecord.test_fraction (snd state))%Q
      /\ 0 <= AlgRecord.test_count (snd state))
  /\ (AlgRecord.has_test (snd state) = false ->
      AlgRecord.test_fraction (snd state) = 0%Q
      /\ AlgRecord.test_count (snd state) = 0).
Proof.
  intros Hs Ht Hf Hc. unfold add_test_info.
  destruct (get_file_length w testsource) as [e | test_lines] eqn:E; simpl.
  - repeat split; auto; try lia; congruence.
  - apply get_file_length_at_least_one in E.
    destruct (get_test_count w testsource) as [e | n] eqn:En; simpl.
    + repeat split; auto; try lia; try discriminate.
      now apply Qdiv_pos.
    + apply get_test_count_nonneg in En.
      repeat split; auto; try lia; try discriminate.
      now apply Qdiv_pos.
Qed.

(** What [add_line_count_info] does to a record without test data. *)
Lemma add_line_count_info_ok w record record' :
  AlgRecord.has_test record = false ->
  AlgRecord.test_fraction record = 0%Q ->
  AlgRecord.test_count record = 0 ->
  add_line_count_info w record = ok record' ->
  same_but_tests record record'
  /\ line_counted w record'
  /\ test_data_ok record'.
Proof.
  intros Ht Hf Hc. unfold add_line_count_info.
  destruct (get_file_length_cases w (AlgRecord.path record))
    as [[Hn ->] | (text & n & Hr & -> & Hn)].
  - intros H. inversion H; subst. clear H. split; [repeat split |]. split.
    + left. simpl. auto.
    + split; simpl; [congruence | auto].
  - intros H. bind_inv H. rename m into count, Hm into Hcount.
    bind_inv H. rename m into state, Hm into Hstate. inversion H; subst. clear H.
    assert (Hcn : 1 <= count).
    { destruct (String.eqb (AlgRecord.type record) "C++"
                && negb (AlgRecord.is_test record)).
      - bind_inv Hcount. inversion Hcount; subst. unfold try_pass.
        destruct (get_file_length_cases w m) as [[_ ->] | (t & k & _ & -> & Hk)];
          simpl; lia.
      - inversion Hcount; subst. lia. }
    assert (G : count <= fst state
                /\ same_but_tests record (snd state)
                /\ (AlgRecord.has_test (snd state) = true ->
                    AlgRecord.is_test record = false
                    /\ (AlgRecord.type record = "C++"
                        \/ AlgRecord.type record = "Python")
                    /\ (0 < AlgRecord.test_fraction (snd state))%Q
                    /\ 0 <= AlgRecord.test_count (snd state))
                /\ (AlgRecord.has_test (snd state) = false ->
                    AlgRecord.test_fraction (snd state) = 0%Q
                    /\ AlgRecord.test_count (snd state) = 0)).
    { assert (Trivial : forall c, count <= c -> 
                c <= c
                /\ same_but_tests record record
                /\ (AlgRecord.has_test record = true ->
                    AlgRecord.is_test record = false
                    /\ (AlgRecord.type record = "C++"
                        \/ AlgRecord.type record = "Python")
                    /\ (0 < AlgRecord.test_fraction record)%Q
                    /\ 0 <= AlgRecord.test_count record)
                /\ (AlgRecord.has_test record = false ->
                    AlgRecord.test_fraction record = 0%Q
                    /\ AlgRecord.test_count record = 0)).
      { intros c _. split; [lia |]. split; [repeat split |].
        split; [congruence | auto]. }
      destruct (AlgRecord.is_test record) eqn:Eis; simpl in Hstate.
      - inversion Hstate; subst. simpl. apply Trivial. lia.
      - bind_inv Hstate. destruct m as [testsource |].
        + inversion Hstate; subst.
          destruct (add_test_info_ok w testsource n count record Hn Ht Hf Hc)
            as (A1 & A2 & _ & _ & A5 & A6).
          split; [exact A1 |]. split; [exact A2 |]. split; [| exact A6].
          intros Hh. destruct (A5 Hh) as [B1 B2].
          split; [reflexivity |]. split; [| auto].
          destruct (String.eqb_spec (AlgRecord.type record) "C++"); [now left |].
          destruct (String.eqb_spec (AlgRecord.type record) "Python");
            [now right |].
          discriminate Hm.
        + inversion Hstate; subst. simpl. apply Trivial. lia. }
    destruct G as (G1 & G2 & G3 & G4).
    destruct G2 as (S1 & S2 & S3 & S4 & S5 & S6 & S7 & S8).
    split; [repeat split; assumption |]. split.
    + right. exists text, (fst state). simpl. rewrite S3.
      repeat split; [assumption | lia].
    + split; simpl.
      * intros Hh. destruct (G3 Hh) as (B1 & B2 & B3 & B4).
        rewrite S5, S4. auto.
      * exact G4.
Qed.

(** X9: [get_file_length] raises [IOError] when the file cannot be read and
    otherwise returns at least 1; for an empty file it returns 1, the text
    being split into one empty line.  So the division by the number of
    source lines in [add_line_count_info] never divides by zero. *)
Theorem get_file_length_never_zero w filename :
  (read_file w filename = None ->
   get_file_length w filename = raise (IOError filename))
  /\ (forall text, read_file w filename = Some text ->
        exists n, get_file_length w filename = ok n /\ 1 <= n)
  /\ (read_file w filename = Some "" -> get_file_length w filename = ok 1).
Proof.
  split; [| split].
  - intros H. unfold get_file_length, open_read. rewrite H. reflexivity.
  - intros text H.
    destruct (get_file_length_cases w filename)
      as [[Hn _] | (t & n & _ & Hg & Hn)]; [congruence | eauto].
  - intros H. unfold get_file_length, open_read. rewrite H. reflexivity.
Qed.

(** ** The records of the mapping, pass by pass *)

Lemma add_result_data_fields r result r' :
  AlgRecord.add_result_data r result = ok r' ->
  (exists counts, r' = AlgRecord.set_count_internal counts r)
  \/ (exists counts, r' = AlgRecord.set_count_direct counts r).
Proof.
  unfold AlgRecord.add_result_data. intros H. bind_inv H.
  destruct (AlgResultRecord.is_child result); bind_inv H; inversion H; subst;
    eauto.
Qed.

Lemma merge_unified_untouched algs results merged :
  merge_unified algs results = ok merged ->
  Forall (fun kv => untouched kv /\ usage_only_shape kv) merged.
Proof.
  apply merge_unified_inv with (C := fun _ => True).
  - intros alg. split; [repeat split |]. unfold usage_only_shape. simpl.
    discriminate.
  - intros name. split; [repeat split |]. unfold usage_only_shape. simpl. auto.
  - intros k r result r' _ Hr H. apply add_result_data_fields in H.
    destruct H as [[c ->] | [c ->]]; exact Hr.
  - apply Forall_True.
Qed.

(** Every record of the mapping that reaches the blacklist is a record of
    the unified set taken through the three passes. *)
Lemma merge_annotated_record w algs results m5 k r :
  merge_annotated w algs results = ok m5 ->
  In (k, r) m5 ->
  exists m0 r0 r1 r2 text d,
    merge_unified algs results = ok m0
    /\ In (k, r0) m0
    /\ init_superseded m0 r0 = ok r1
    /\ add_line_count_info w r1 = ok r2
    /\ read_file w (cache_dir w ++ "/deprecated-algorithms") = Some text
    /\ is_deprecated w r2 (str_split newline text) = ok d
    /\ r = AlgRecord.set_is_deprecated d r2.
Proof.
  unfold merge_annotated, add_deprecation_info. intros H HI.
  bind_inv H. rename m into u, Hm into Hu.
  bind_inv H. rename m into s, Hm into Hs.
  bind_inv H. rename m into l, Hm into Hl.
  bind_inv H. rename m into text, Hm into Htext.
  destruct (update_values_In _ _ _ _ _ _ H HI) as (r2 & HI2 & Hb2).
  destruct (update_values_In _ _ _ _ _ _ Hl HI2) as (r1 & HI1 & Hb1).
  destruct (update_values_In _ _ _ _ _ _ Hs HI1) as (r0 & HI0 & Hb0).
  bind_inv Hb2. inversion Hb2; subst.
  unfold open_read in Htext.
  destruct (read_file w (cache_dir w ++ "/deprecated-algorithms")) as [t |];
    [| discriminate Htext].
  inversion Htext; subst.
  exists u, r0, r1, r2, text, m. repeat split; assumption.
Qed.

(** A returned record is a record of that mapping, renamed for [Q1D2.v1]. *)
Lemma merge_record_annotated w args algs results m k r :
  merge w args algs results = ok m ->
  In (k, r) m ->
  exists m5 k5 r5,
    merge_annotated w algs results = ok m5
    /\ In (k5, r5) m5
    /\ (r = r5 \/ r = AlgRecord.set_name "Q1D2.v1" r5).
Proof.
  intros H HI. apply merge_ok in H. destruct H as (m7 & tmp & H7 & Ht & _ & Hm).
  apply merge_filtered_ok in H7. destruct H7 as (m5 & bl & H5 & _ & Hi & _).
  exists m5. destruct (Hm _ _ HI) as [[_ ->] | (_ & _ & HI7)].
  - exists "Q1D.v2", tmp. auto.
  - exists k, r. auto.
Qed.

(** The fields of a record of the mapping that reaches the blacklist. *)
Lemma merge_annotated_fields w algs results m5 k r :
  merge_annotated w algs results = ok m5 ->
  In (k, r) m5 ->
  line_counted w r
  /\ test_data_ok r
  /\ usage_only_shape (k, r)
  /\ (AlgRecord.is_deprecated r = true ->
      AlgRecord.type r = "C++" /\ AlgRecord.is_test r = false).
Proof.
  intros H HI.
  destruct (merge_annotated_record _ _ _ _ _ _ H HI)
    as (m0 & r0 & r1 & r2 & text & d & Hu & HI0 & H1 & H2 & _ & Hd & ->).
  pose proof (merge_unified_untouched _ _ _ Hu) as Hun.
  rewrite Forall_forall in Hun. destruct (Hun _ HI0) as [U Sh].
  destruct U as (U1 & U2 & U3 & U4 & U5 & U6). simpl in *.
  apply init_superseded_ok in H1. destruct H1 as (v & _ & ->).
  destruct (add_line_count_info_ok w (AlgRecord.set_superseded _ r0) r2
              U1 U2 U3 H2) as (Sb & Lc & Td).
  destruct Sb as (S1 & S2 & S3 & S4 & S5 & S6 & S7 & S8). simpl in *.
  split; [| split; [| split]].
  - destruct Lc as [(A & B & C) | (t & n & A & B & C)]; [left | right]; simpl.
    + auto.
    + exists t, n. auto.
  - destruct Td as [T1 T2]. split; simpl; assumption.
  - unfold usage_only_shape in *. simpl in *. rewrite S1, S3, S4, S5, S6.
    exact Sh.
  - simpl. intros ->. unfold is_deprecated in Hd.
    destruct (String.eqb_spec (AlgRecord.type r2) "C++") as [E | E];
      simpl in Hd.
    + destruct (AlgRecord.is_test r2); simpl in Hd; [discriminate Hd | auto].
    + discriminate Hd.
Qed.

(** X10: in a returned record [line_count] is ['-'] exactly when the source
    file of the record cannot be read; otherwise it is the decimal numeral
    of a number of lines that is at least 1, which [int] reads back. *)
Theorem merge_line_count_is_dash_or_numeral w args algs results m k r :
  merge w args algs results = ok m ->
  In (k, r) m ->
  (AlgRecord.line_count r = "-" <-> read_file w (AlgRecord.path r) = None)
  /\ (AlgRecord.line_count r <> "-" ->
      exists n,
        1 <= n /\ AlgRecord.line_count r = str n
        /\ int (AlgRecord.line_count r) = ok n).
Proof.
  intros H HI.
  destruct (merge_record_annotated _ _ _ _ _ _ _ H HI)
    as (m5 & k5 & r5 & H5 & HI5 & Hr).
  destruct (merge_annotated_fields _ _ _ _ _ _ H5 HI5) as (Lc & _).
  assert (E : AlgRecord.line_count r = AlgRecord.line_count r5
              /\ AlgRecord.path r = AlgRecord.path r5)
    by (destruct Hr as [-> | ->]; auto).
  destruct E as [-> ->].
  destruct Lc as [(A & B & _) | (t & n & A & B & C)].
  - split; [tauto | congruence].
  - pose proof (str_is_not_dash n ltac:(lia)) as Hnd. split.
    + split; congruence.
    + intros _. exists n. rewrite C. split; [assumption |].
      split; [reflexivity | apply int_str; lia].
Qed.

(** X11: a returned record marked as having a test comes from the catalog,
    is not itself the record of a test file, is a C++ or Python record, has
    a line count and a positive test fraction; a record without a test has
    test fraction 0 and test count 0. *)
Theorem merge_test_data w args algs results m k r :
  merge w args algs results = ok m ->
  In (k, r) m ->
  (AlgRecord.has_test r = true ->
   AlgRecord.ours r = true
   /\ AlgRecord.is_test r = false
   /\ (AlgRecord.type r = "C++" \/ AlgRecord.type r = "Python")
   /\ AlgRecord.line_count r <> "-"
   /\ (0 < AlgRecord.test_fraction r)%Q)
  /\ (AlgRecord.has_test r = false ->
      AlgRecord.test_fraction r = 0%Q /\ AlgRecord.test_count r = 0).
Proof.
  intros H HI.
  destruct (merge_record_annotated _ _ _ _ _ _ _ H HI)
    as (m5 & k5 & r5 & H5 & HI5 & Hr).
  destruct (merge_annotated_fields _ _ _ _ _ _ H5 HI5) as (Lc & Td & Sh & _).
  assert (G : (AlgRecord.has_test r5 = true ->
               AlgRecord.ours r5 = true
               /\ AlgRecord.is_test r5 = false
               /\ (AlgRecord.type r5 = "C++" \/ AlgRecord.type r5 = "Python")
               /\ AlgRecord.line_count r5 <> "-"
               /\ (0 < AlgRecord.test_fraction r5)%Q)
              /\ (AlgRecord.has_test r5 = false ->
                  AlgRecord.test_fraction r5 = 0%Q
                  /\ AlgRecord.test_count r5 = 0)).
  { destruct Td as [T1 T2]. split; [| exact T2].
    intros Hh. destruct (T1 Hh) as (B1 & B2 & B3 & _).
    unfold usage_only_shape in Sh. simpl in Sh.
    repeat split; try assumption.
    - destruct (AlgRecord.ours r5); [reflexivity |].
      destruct (Sh eq_refl) as (_ & Ty & _).
      rewrite Ty in B2. destruct B2; discriminate.
    - destruct Lc as [(_ & _ & C) | (t & n & _ & Hn & C)]; [congruence |].
      rewrite C. apply str_is_not_dash. lia. }
  destruct Hr as [-> | ->]; exact G.
Qed.

(** X12: a returned record marked deprecated is a C++ record of the
    catalog that is not the record of a test file; a record known from the
    observations only is never deprecated and never has a test. *)
Theorem merge_deprecated_is_cpp w args algs results m k r :
  merge w args algs results = ok m ->
  In (k, r) m ->
  (AlgRecord.is_deprecated r = true ->
   AlgRecord.type r = "C++" /\ AlgRecord.is_test r = false
   /\ AlgRecord.ours r = true)
  /\ (AlgRecord.ours r = false ->
      AlgRecord.is_deprecated r = false /\ AlgRecord.has_test r = false
      /\ AlgRecord.path r = "-" /\ AlgRecord.type r = "-"
      /\ AlgRecord.module r = "-").
Proof.
  intros H HI.
  destruct (merge_record_annotated _ _ _ _ _ _ _ H HI)
    as (m5 & k5 & r5 & H5 & HI5 & Hr).
  destruct (merge_annotated_fields _ _ _ _ _ _ H5 HI5) as (_ & Td & Sh & Dp).
  unfold usage_only_shape in Sh. simpl in Sh.
  assert (G : (AlgRecord.is_deprecated r5 = true ->
               AlgRecord.type r5 = "C++" /\ AlgRecord.is_test r5 = false
               /\ AlgRecord.ours r5 = true)
              /\ (AlgRecord.ours r5 = false ->
                  AlgRecord.is_deprecated r5 = false
                  /\ AlgRecord.has_test r5 = false
                  /\ AlgRecord.path r5 = "-" /\ AlgRecord.type r5 = "-"
                  /\ AlgRecord.module r5 = "-")).
  { split.
    - intros Hd. destruct (Dp Hd) as [Ty It]. repeat split; try assumption.
      destruct (AlgRecord.ours r5); [reflexivity |].
      destruct (Sh eq_refl) as (_ & Ty' & _). congruence.
    - intros Ho. destruct (Sh Ho) as (P & Ty & Mo & _).
      repeat split; try assumption.
      + destruct (AlgRecord.is_deprecated r5) eqn:Ed; [| reflexivity].
        destruct (Dp eq_refl) as [Ty' _]. congruence.
      + destruct (AlgRecord.has_test r5) eqn:Eh; [| reflexivity].
        destruct Td as [T1 _]. destruct (T1 Eh) as (_ & [B | B] & _);
          congruence. }
  destruct Hr as [-> | ->]; exact G.
Qed.

(** ** Supersession *)

(** X13: in the mapping that reaches the blacklist, the record of [X.vN]
    with N from 1 to 9 is marked superseded exactly when [X.v(N+1)] is a
    key, that is, was declared or observed. *)
Theorem one_digit_version_superseded_iff w algs results m5 X N r :
  merge_annotated w algs results = ok m5 ->
  dict_get (identity X N) m5 = Some r ->
  1 <= N <= 9 ->
  (AlgRecord.superseded r = "superseded"
   <-> In (identity X (N + 1)) (input_names algs results)).
Proof.
  intros H5 Hg HN. apply dict_get_In in Hg.
  destruct (merge_annotated_record _ _ _ _ _ _ H5 Hg)
    as (m0 & r0 & r1 & r2 & text & d & Hu & HI0 & H1 & H2 & _ & _ & ->).
  pose proof (merge_unified_key_is_name _ _ _ Hu) as Hn.
  rewrite Forall_forall in Hn. specialize (Hn _ HI0). unfold key_is_name in Hn.
  simpl in Hn.
  rewrite (single_digit_successor m0 r0 X N Hn HN) in H1. inversion H1; subst r1.
  apply add_line_count_info_core in H2. destruct H2 as [_ Hs]. simpl in *.
  rewrite Hs. rewrite <- (merge_unified_keys _ _ _ _ Hu), <- dict_mem_true_iff.
  destruct (dict_mem (identity X (N + 1)) m0); split; intros E;
    congruence || reflexivity.
Qed.

(** ** More on the summary *)

Lemma get_summary_threshold_from args (rs : list AlgRecord.t) (acc : Summary.t) :
  Summary.up_to_threshold (fold_left (summary_step args) rs acc)
  = Summary.up_to_threshold acc
    + Z.of_nat
        (List.length
           (filter
              (fun r =>
                 (AlgRecord.get_count r =? 0)
                 || (0 <? AlgRecord.get_count r)
                    && (AlgRecord.get_count r <=? Args.max_count args))
              rs)).
Proof.
  revert acc. induction rs as [| r rs IH]; intros acc; simpl; [lia |].
  rewrite IH. unfold summary_step; simpl.
  destruct (Z.eqb_spec (AlgRecord.get_count r) 0) as [E | E]; simpl.
  - rewrite E. simpl. lia.
  - destruct ((0 <? AlgRecord.get_count r)
              && (AlgRecord.get_count r <=? Args.max_count args));
      simpl List.length; lia.
Qed.

Lemma threshold_filter_split args (rs : list AlgRecord.t) :
  Z.of_nat (List.length (filter
     (fun r => (AlgRecord.get_count r =? 0)
               || (0 <? AlgRecord.get_count r)
                  && (AlgRecord.get_count r <=? Args.max_count args))
     rs))
  = Z.of_nat (List.length (filter (fun r => AlgRecord.get_count r =? 0) rs))
    + Z.of_nat (List.length (filter
         (fun r => (0 <? AlgRecord.get_count r)
                   && (AlgRecord.get_count r <=? Args.max_count args))
         rs)).
Proof.
  induction rs as [| r rs IH]; [reflexivity |].
  cbn [filter].
  destruct (Z.eqb_spec (AlgRecord.get_count r) 0) as [E | E].
  - rewrite E. cbn [orb Z.ltb Z.compare andb List.length]. lia.
  - cbn [orb].
    destruct ((0 <? AlgRecord.get_count r)
              && (AlgRecord.get_count r <=? Args.max_count args));
      cbn [List.length]; lia.
Qed.

(** X14: the summary counts every record in its total; its threshold count
    is the number of unused records plus the number of records used at
    least once and at most [max_count] times, so it lies between the unused
    count and the total, equals the unused count when [max_count] is
    negative (the default -1), and is the number of records used at most
    [max_count] times when [max_count] and the use counts are not
    negative. *)
Theorem get_summary_total_and_threshold args merged :
  let s := get_summary args merged in
  Summary.total s = Z.of_nat (List.length merged)
  /\ Summary.up_to_threshold s
     = Summary.unused s
       + count_if
           (fun r =>
              (0 <? AlgRecord.get_count r)
              && (AlgRecord.get_count r <=? Args.max_count args))
           merged
  /\ Summary.unused s <= Summary.up_to_threshold s <= Summary.total s
  /\ (Args.max_count args < 0 -> Summary.up_to_threshold s = Summary.unused s)
  /\ (0 <= Args.max_count args ->
      Forall (fun r => 0 <= AlgRecord.get_count r) (values merged) ->
      Summary.up_to_threshold s
      = count_if (fun r => AlgRecord.get_count r <=? Args.max_count args) merged).
Proof.
  unfold get_summary. cbv zeta.
  destruct (get_summary_from args (values merged) Summary.init)
    as (T & U & _).
  pose proof (get_summary_threshold_from args (values merged) Summary.init) as Th.
  simpl in T, U, Th.
  assert (Hlen : List.length (values merged) = List.length merged)
    by (unfold values; apply length_map).
  pose proof (threshold_filter_split args (values merged)) as Hsplit.
  assert (Hle : Z.of_nat (List.length (filter
       (fun r => (AlgRecord.get_count r =? 0)
                 || (0 <? AlgRecord.get_count r)
                    && (AlgRecord.get_count r <=? Args.max_count args))
       (values merged))) <= Z.of_nat (List.length (values merged))).
  { apply inj_le. apply filter_length_le. }
  rewrite T, U, Th, Hsplit. unfold count_if. rewrite Hlen in *.
  split; [lia |]. split; [lia |]. split; [lia |]. split.
  - intros Hneg.
    replace (filter
               (fun r => (0 <? AlgRecord.get_count r)
                         && (AlgRecord.get_count r <=? Args.max_count args))
               (values merged)) with (@nil AlgRecord.t); [simpl; lia |].
    symmetry. clear - Hneg.
    induction (values merged) as [| r rs IH]; simpl; [reflexivity |].
    destruct (Z.ltb_spec 0 (AlgRecord.get_count r)); simpl; [| exact IH].
    destruct (Z.leb_spec (AlgRecord.get_count r) (Args.max_count args));
      [lia | exact IH].
  - intros Hmax Hnn. rewrite <- Hsplit. f_equal. f_equal.
    apply filter_ext_in. intros r Hr. rewrite Forall_forall in Hnn.
    specialize (Hnn _ Hr). simpl in Hnn.
    destruct (Z.eqb_spec (AlgRecord.get_count r) 0),
      (Z.ltb_spec 0 (AlgRecord.get_count r)),
      (Z.leb_spec (AlgRecord.get_count r) (Args.max_count args));
      simpl; try reflexivity; lia.
Qed.

(** * The reports *)

(** ** Sorting *)







(** ** The table *)



(** ** The summary report *)






Lemma merge_line_count_ok w args algs results m k r :
  merge w args algs results = ok m -> In (k, r) m -> line_count_ok r.
Proof.
  intros H HI.
  destruct (merge_record_annotated _ _ _ _ _ _ _ H HI)
    as (m5 & k5 & r5 & H5 & HI5 & Hr).
  destruct (merge_annotated_fields _ _ _ _ _ _ H5 HI5) as (Lc & _).
  assert (E : AlgRecord.line_count r = AlgRecord.line_count r5)
    by (destruct Hr as [-> | ->]; reflexivity).
  unfold line_count_ok. rewrite E.
  destruct Lc as [(_ & B & _) | (t & n & _ & B & C)]; [now left |].
  right. exists n. auto.
Qed.

Lemma line_value_ok r :
  line_count_ok r ->
  0 <= line_value r
  /\ (AlgRecord.line_count r = "-" -> line_value r = 0)
  /\ (AlgRecord.line_count r <> "-" ->
      1 <= line_value r /\ int (AlgRecord.line_count r) = ok (line_value r)).
Proof.
  unfold line_value. intros [E | (n & Hn & E)]; rewrite E.
  - simpl. split; [lia |]. split; [reflexivity |]. intros Hc. now elim Hc.
  - rewrite int_str by lia. unfold ok. split; [lia |]. split.
    + intros E'. exfalso. revert E'. apply str_is_not_dash. lia.
    + intros _. split; [lia | reflexivity].
Qed.




(** ** The figures *)

Ltac settle_comparisons :=
  repeat match goal with
    | |- context [?a >=? ?b] => rewrite (Z.geb_leb a b)
    | |- context [?a <=? ?b] =>
        first
          [ replace (a <=? b) with true by (symmetry; apply Z.leb_le; lia)
          | replace (a <=? b) with false by (symmetry; apply Z.leb_gt; lia) ]
    end.

Lemma bucket_cases count :
  (count < 1 /\ bucket_of count = 0%nat)
  \/ (1 <= count < 10 /\ bucket_of count = 1%nat)
  \/ (10 <= count < 20 /\ bucket_of count = 2%nat)
  \/ (20 <= count < 100 /\ bucket_of count = 3%nat)
  \/ (100 <= count < 1000 /\ bucket_of count = 4%nat)
  \/ (1000 <= count < 10000 /\ bucket_of count = 5%nat)
  \/ (10000 <= count < 1000000000 /\ bucket_of count = 6%nat)
  \/ (1000000000 <= count /\ bucket_of count = 7%nat).
Proof.
  assert (R : count < 1 \/ 1 <= count < 10 \/ 10 <= count < 20
              \/ 20 <= count < 100 \/ 100 <= count < 1000
              \/ 1000 <= count < 10000 \/ 10000 <= count < 1000000000
              \/ 1000000000 <= count) by lia.
  unfold bucket_of, thresholds. cbn [filter].
  repeat (destruct R as [R | R];
          [settle_comparisons; cbn [List.length]; tauto |]).
  settle_comparisons; cbn [List.length]; tauto.
Qed.

Lemma bucket_of_mono c c' : c <= c' -> (bucket_of c <= bucket_of c')%nat.
Proof.
  intros H.
  destruct (bucket_cases c) as [[R ->] | [[R ->] | [[R ->] | [[R ->]
    | [[R ->] | [[R ->] | [[R ->] | [R ->]]]]]]]];
  destruct (bucket_cases c') as [[R' ->] | [[R' ->] | [[R' ->] | [[R' ->]
    | [[R' ->] | [[R' ->] | [[R' ->] | [R' ->]]]]]]]]; lia.
Qed.

Lemma advance_reaches_bucket count index :
  (index <= bucket_of count)%nat ->
  advance count (skipn index thresholds) index
  = if (bucket_of count <? 7)%nat then ok (bucket_of count) else raise IndexError.
Proof.
  intros Hi.
  destruct (bucket_cases count) as [[R E] | [[R E] | [[R E] | [[R E]
    | [[R E] | [[R E] | [[R E] | [R E]]]]]]]]; rewrite E in *;
    do 8 (destruct index as [| index];
          [first [ exfalso; lia
                 | unfold thresholds; cbn [skipn advance]; settle_comparisons;
                   reflexivity ] |]);
    exfalso; lia.
Qed.

Lemma bucket_step_ok index counts code r :
  AlgRecord.get_count r < 1000000000 ->
  line_count_ok r ->
  (index <= bucket_of (AlgRecord.get_count r))%nat ->
  List.length counts = 7%nat -> List.length code = 7%nat ->
  exists counts' code',
    bucket_step (index, counts, code) r
    = ok (bucket_of (AlgRecord.get_count r), counts', code')
    /\ List.length counts' = 7%nat /\ List.length code' = 7%nat
    /\ forall i,
         nth i counts' 0 = nth i counts 0 + (if in_bucket i r then 1 else 0)
         /\ nth i code' 0
            = nth i code 0 + (if in_bucket i r then line_value r else 0).
Proof.
  intros Hc Hl Hi Lc Ld. unfold bucket_step.
  rewrite (advance_reaches_bucket _ _ Hi).
  assert (Hb : (bucket_of (AlgRecord.get_count r) < 7)%nat).
  { destruct (bucket_cases (AlgRecord.get_count r)) as [[R E] | [[R E]
      | [[R E] | [[R E] | [[R E] | [[R E] | [[R E] | [R E]]]]]]]]; lia. }
  replace (bucket_of (AlgRecord.get_count r) <? 7)%nat with true
    by (symmetry; now apply Nat.ltb_lt).
  cbn [bind ok].
  destruct (add_at_in_range counts (bucket_of (AlgRecord.get_count r)) 1)
    as [counts' Hc']; [lia |].
  rewrite Hc'. cbn [bind ok].
  pose proof (add_at_length _ _ _ _ Hc') as Lc'.
  assert (Nc : forall i, nth i counts' 0
                         = nth i counts 0 + (if in_bucket i r then 1 else 0)).
  { intros i. rewrite (add_at_nth _ _ _ _ i Hc'). unfold in_bucket.
    now rewrite Nat.eqb_sym. }
  destruct (line_value_ok r Hl) as (_ & Vd & Vn).
  destruct (String.eqb_spec (AlgRecord.line_count r) "-") as [E | E];
    cbn [negb].
  - exists counts', code. split; [reflexivity |].
    split; [lia |]. split; [assumption |]. intros i. split; [apply Nc |].
    rewrite (Vd E). destruct (in_bucket i r); lia.
  - destruct (Vn E) as [_ Hv]. rewrite Hv. cbn [bind ok].
    destruct (add_at_in_range code (bucket_of (AlgRecord.get_count r))
                (line_value r)) as [code' Hd']; [lia |].
    rewrite Hd'. cbn [bind ok].
    exists counts', code'. split; [reflexivity |].
    split; [lia |]. split; [rewrite (add_at_length _ _ _ _ Hd'); assumption |].
    intros i. split; [apply Nc |].
    rewrite (add_at_nth _ _ _ _ i Hd'). unfold in_bucket.
    now rewrite Nat.eqb_sym.
Qed.

Lemma bucket_step_overflow index counts code r :
  1000000000 <= AlgRecord.get_count r ->
  (index <= bucket_of (AlgRecord.get_count r))%nat ->
  bucket_step (index, counts, code) r = raise IndexError.
Proof.
  intros Hc Hi. unfold bucket_step. rewrite (advance_reaches_bucket _ _ Hi).
  destruct (bucket_cases (AlgRecord.get_count r)) as [[R E] | [[R E]
    | [[R E] | [[R E] | [[R E] | [[R E] | [[R E] | [R E]]]]]]]];
    try lia.
  rewrite E. reflexivity.
Qed.

(** The loop over records in ascending order of use count. *)
Lemma bucket_loop rs :
  Sorted.StronglySorted count_le rs ->
  Forall line_count_ok rs ->
  forall index counts code,
    (forall r, In r rs -> (index <= bucket_of (AlgRecord.get_count r))%nat) ->
    List.length counts = 7%nat -> List.length code = 7%nat ->
    (Forall (fun r => AlgRecord.get_count r < 1000000000) rs ->
     exists index' counts' code',
       for_each bucket_step rs (index, counts, code) = ok (index', counts', code')
       /\ forall i,
            nth i counts' 0
            = nth i counts 0
              + sum (map (fun r => if in_bucket i r then 1 else 0) rs)
            /\ nth i code' 0
               = nth i code 0
                 + sum (map (fun r => if in_bucket i r then line_value r else 0)
                          rs))
    /\ ((exists r, In r rs /\ 1000000000 <= AlgRecord.get_count r) ->
        for_each bucket_step rs (index, counts, code) = raise IndexError).
Proof.
  induction 1 as [| r rs Hs IH Hall]; intros Hok index counts code Hi Lc Ld.
  - split.
    + intros _. exists index, counts, code. split; [reflexivity |].
      intros i. unfold sum. simpl. split; lia.
    + intros (r & [] & _).
  - inversion Hok as [| ? ? Hr Hok']; subst.
    assert (Hnext : forall r', In r' rs ->
              (bucket_of (AlgRecord.get_count r)
               <= bucket_of (AlgRecord.get_count r'))%nat).
    { intros r' Hr'. apply bucket_of_mono. rewrite Forall_forall in Hall.
      exact (Hall _ Hr'). }
    assert (Hir : (index <= bucket_of (AlgRecord.get_count r))%nat)
      by (apply Hi; now left).
    destruct (Z.lt_ge_cases (AlgRecord.get_count r) 1000000000) as [Hlt | Hge].
    + destruct (bucket_step_ok index counts code r Hlt Hr Hir Lc Ld)
        as (counts1 & code1 & Hstep & Lc1 & Ld1 & Hn).
      destruct (IH Hok' (bucket_of (AlgRecord.get_count r)) counts1 code1
                  Hnext Lc1 Ld1) as [IHok IHbad].
      cbn [for_each]. rewrite Hstep. cbn [bind ok]. split.
      * intros Hsmall. inversion Hsmall as [| ? ? _ Hsmall']; subst.
        destruct (IHok Hsmall') as (i' & c' & d' & Hrun & Hnth).
        exists i', c', d'. split; [exact Hrun |].
        intros i. destruct (Hnth i) as [Hc' Hd']. destruct (Hn i) as [Hc1 Hd1].
        cbn [map]. rewrite !sum_cons. lia.
      * intros (r' & [<- | Hr'] & Hbig); [lia |].
        apply IHbad. eauto.
    + cbn [for_each]. rewrite (bucket_step_overflow _ _ _ _ Hge Hir). split.
      * intros Hsmall. inversion Hsmall; subst. lia.
      * intros _. reflexivity.
Qed.

Lemma insert_record_In x r records :
  In r (insert_record x records) <-> r = x \/ In r records.
Proof.
  induction records as [| y ys IH]; simpl; [intuition |].
  destruct (AlgRecord.get_count x <=? AlgRecord.get_count y); simpl;
    [intuition |].
  rewrite IH. intuition.
Qed.

Lemma sorted_by_count_In r records :
  In r (sorted_by_count records) <-> In r records.
Proof.
  induction records as [| x xs IH]; simpl; [tauto |].
  rewrite insert_record_In, IH. intuition.
Qed.

Lemma insert_record_sorted x records :
  Sorted.StronglySorted count_le records ->
  Sorted.StronglySorted count_le (insert_record x records).
Proof.
  induction 1 as [| y ys Hs IH Hall]; simpl.
  - repeat constructor.
  - destruct (Z.leb_spec (AlgRecord.get_count x) (AlgRecord.get_count y))
      as [Hle | Hgt].
    + constructor; [now constructor |].
      constructor; [exact Hle |].
      rewrite Forall_forall in *. intros z Hz. specialize (Hall _ Hz).
      unfold count_le in *. lia.
    + constructor; [exact IH |].
      apply Forall_forall. intros z Hz. apply insert_record_In in Hz.
      destruct Hz as [-> | Hz]; [unfold count_le; lia |].
      rewrite Forall_forall in Hall. auto.
Qed.

Lemma sorted_by_count_sorted records :
  Sorted.StronglySorted count_le (sorted_by_count records).
Proof.
  induction records as [| x xs IH]; simpl; [constructor |].
  now apply insert_record_sorted.
Qed.

Lemma sum_map_insert_record (g : AlgRecord.t -> Z) x records :
  sum (map g (insert_record x records)) = g x + sum (map g records).
Proof.
  induction records as [| y ys IH]; simpl; [now rewrite sum_cons |].
  destruct (AlgRecord.get_count x <=? AlgRecord.get_count y); cbn [map];
    rewrite !sum_cons; [reflexivity |].
  rewrite IH. lia.
Qed.

Lemma sum_map_sorted_by_count (g : AlgRecord.t -> Z) records :
  sum (map g (sorted_by_count records)) = sum (map g records).
Proof.
  induction records as [| x xs IH]; simpl; [reflexivity |].
  rewrite sum_map_insert_record, sum_cons, IH. reflexivity.
Qed.

Lemma sum_map_indicator (A : Type) (p : A -> bool) (f : A -> Z) (l : list A) :
  sum (map (fun x => if p x then f x else 0) l) = sum (map f (filter p l)).
Proof.
  induction l as [| x l IH]; [reflexivity |].
  cbn [map filter]. rewrite sum_cons, IH.
  destruct (p x); cbn [map]; rewrite ?sum_cons; lia.
Qed.

Lemma sum_map_ones (A : Type) (l : list A) :
  sum (map (fun _ => 1) l) = Z.of_nat (List.length l).
Proof.
  induction l as [| x l IH]; [reflexivity |].
  cbn [map List.length]. rewrite sum_cons, IH. lia.
Qed.

Lemma figure_loop merged :
  Forall line_count_ok (values merged) ->
  (Forall (fun r => AlgRecord.get_count r < 1000000000) (values merged) ->
   exists counts code,
     figure_buckets merged = ok (counts, code)
     /\ forall i,
          nth i counts 0 = count_if (in_bucket i) merged
          /\ nth i code 0
             = sum (map line_value (filter (in_bucket i) (values merged))))
  /\ ((exists r, In r (values merged) /\ 1000000000 <= AlgRecord.get_count r) ->
      figure_buckets merged = raise IndexError).
Proof.
  intros Hok. unfold figure_buckets.
  assert (Hok' : Forall line_count_ok (sorted_by_count (values merged))).
  { rewrite Forall_forall in *. intros r Hr. apply Hok.
    now apply sorted_by_count_In. }
  destruct (bucket_loop _ (sorted_by_count_sorted (values merged)) Hok'
              0%nat (repeat 0 (List.length thresholds))
              (repeat 0 (List.length thresholds)))
    as [Hgood Hbad]; [intros; lia | reflexivity | reflexivity |].
  split.
  - intros Hsmall.
    destruct Hgood as (i' & counts & code & Hrun & Hnth).
    { rewrite Forall_forall in *. intros r Hr. apply Hsmall.
      now apply sorted_by_count_In. }
    rewrite Hrun. cbn [bind ok fst snd]. exists counts, code.
    split; [reflexivity |]. intros i. destruct (Hnth i) as [Hc Hd].
    rewrite Hc, Hd, !sum_map_sorted_by_count, !sum_map_indicator.
    unfold count_if. rewrite sum_map_ones.
    assert (Z0 : forall j, nth j (repeat 0 (List.length thresholds)) 0 = 0).
    { intros j. simpl.
      destruct j as [| [| [| [| [| [| [| [| ]]]]]]]]; reflexivity. }
    rewrite Z0. split; lia.
  - intros (r & Hr & Hbig). rewrite Hbad; [reflexivity |].
    exists r. split; [now apply sorted_by_count_In | assumption].
Qed.

(** X19: on a mapping [merge] returned with every record used less than
    1000000000 times, the loop of the figures ends without an exception and
    range [i] of [counts] holds the number of records whose use count has
    reached exactly [i] thresholds (below 1, 1 to 9, 10 to 19, 20 to 99,
    100 to 999, 1000 to 9999, 10000 and more), range [i] of [code] the sum
    of their line counts; every record is in one range. *)
Theorem figure_buckets_partition w args algs results m :
  merge w args algs results = ok m ->
  Forall (fun r => AlgRecord.get_count r < 1000000000) (values m) ->
  exists counts code,
    figure_buckets m = ok (counts, code)
    /\ (forall i,
          nth i counts 0 = count_if (in_bucket i) m
          /\ nth i code 0
             = sum (map line_value (filter (in_bucket i) (values m))))
    /\ forall r, In r (values m) ->
         (bucket_of (AlgRecord.get_count r) < 7)%nat
         /\ (AlgRecord.get_count r < 1 <-> in_bucket 0 r = true)
         /\ (10000 <= AlgRecord.get_count r <-> in_bucket 6 r = true).
Proof.
  intros H Hsmall.
  assert (Hok : Forall line_count_ok (values m)).
  { apply Forall_forall. intros r Hr. unfold values in Hr.
    apply in_map_iff in Hr. destruct Hr as ([k r'] & E & HI). simpl in E.
    subst r'. eapply merge_line_count_ok; eauto. }
  destruct (figure_loop m Hok) as [Hgood _].
  destruct (Hgood Hsmall) as (counts & code & Hrun & Hnth).
  exists counts, code. split; [exact Hrun |]. split; [exact Hnth |].
  intros r Hr. rewrite Forall_forall in Hsmall. specialize (Hsmall _ Hr).
  simpl in Hsmall. unfold in_bucket.
  destruct (bucket_cases (AlgRecord.get_count r)) as [[R E] | [[R E]
    | [[R E] | [[R E] | [[R E] | [[R E] | [[R E] | [R E]]]]]]]];
    rewrite E; simpl; repeat split; intros; try lia; try discriminate.
Qed.

(** X20: on a mapping [merge] returned with a record used 1000000000 times
    or more, the loop of the figures raises [IndexError]: [index] runs past
    the last threshold. *)
Theorem figure_buckets_overflow w args algs results m k r :
  merge w args algs results = ok m ->
  In (k, r) m ->
  1000000000 <= AlgRecord.get_count r ->
  figure_buckets m = raise IndexError.
Proof.
  intros H HI Hbig.
  assert (Hok : Forall line_count_ok (values m)).
  { apply Forall_forall. intros r0 Hr. unfold values in Hr.
    apply in_map_iff in Hr. destruct Hr as ([k0 r'] & E & HI0). simpl in E.
    subst r'. eapply merge_line_count_ok; eauto. }
  destruct (figure_loop m Hok) as [_ Hbad]. apply Hbad.
  exists r. split; [| assumption].
  unfold values. apply in_map_iff. exists (k, r). auto.
Qed.

(** ** Where a record comes from *)

Lemma add_known_ours algs k r :
  In (k, r) (add_known algs) -> AlgRecord.ours r = true.
Proof.
  pose proof (add_known_inv (fun kv => AlgRecord.ours (snd kv) = true)
                (fun alg => eq_refl) algs) as Hz.
  rewrite Forall_forall in Hz. intros HI. exact (Hz _ HI).
Qed.

Lemma add_result_ours (declared : list string) merged result merged' :
  (forall k, In k declared -> In k (keys merged)) ->
  (forall k r, In (k, r) merged ->
     (AlgRecord.ours r = true <-> In k declared)) ->
  add_result merged result = ok merged' ->
  (forall k, In k declared -> In k (keys merged'))
  /\ (forall k r, In (k, r) merged' ->
        (AlgRecord.ours r = true <-> In k declared)).
Proof.
  intros Hkeys Hours H. split.
  - intros k Hk. apply (add_result_keys _ _ _ k H). right. auto.
  - revert H. unfold add_result, dict_setdefault.
    destruct (dict_get (AlgResultRecord.name result) merged) as [r0 |] eqn:E;
      intros H; bind_inv H; inversion H; subst; clear H; intros k r HI;
      apply add_result_data_core in Hm; destruct Hm as (_ & Ho & _).
    + apply In_dict_set in HI. destruct HI as [HI | HI]; [| auto].
      inversion HI; subst. rewrite Ho. apply Hours. now apply dict_get_In.
    + apply In_dict_set in HI. destruct HI as [HI | HI].
      * inversion HI; subst. rewrite Ho. simpl. split; [discriminate |].
        intros Hd. apply Hkeys in Hd. apply dict_get_None_iff in E.
        contradiction.
      * apply In_dict_set in HI. destruct HI as [HI | HI]; [| auto].
        inversion HI; subst. simpl. split; [discriminate |].
        intros Hd. apply Hkeys in Hd. apply dict_get_None_iff in E.
        contradiction.
Qed.

Lemma merge_unified_ours algs results m0 k r :
  merge_unified algs results = ok m0 ->
  In (k, r) m0 ->
  (AlgRecord.ours r = true <-> In k (map AlgFileRecord.name algs)).
Proof.
  unfold merge_unified, add_results. intros H.
  assert (G : forall merged,
            (forall k, In k (map AlgFileRecord.name algs) -> In k (keys merged)) ->
            (forall k r, In (k, r) merged ->
               (AlgRecord.ours r = true <-> In k (map AlgFileRecord.name algs))) ->
            for_each add_result results merged = ok m0 ->
            forall k r, In (k, r) m0 ->
              (AlgRecord.ours r = true <-> In k (map AlgFileRecord.name algs))).
  { clear H. induction results as [| result results IH]; simpl;
      intros merged Hk Ho H.
    - inversion H; subst. exact Ho.
    - bind_inv H.
      destruct (add_result_ours _ _ _ _ Hk Ho Hm) as [Hk' Ho'].
      exact (IH _ Hk' Ho' H). }
  apply (G (add_known algs)); [| | exact H].
  - intros k0 Hk0. now apply add_known_keys.
  - intros k0 r0 HI. split; [intros _ | intros _].
    + apply add_known_keys. eapply In_keys; eauto.
    + eapply add_known_ours; eauto.
Qed.

(** X21: a returned record is marked [ours] exactly when its name was
    declared in the catalog; for the record under [Q1D2.v1] the name is
    [Q1D.v2]. *)
Theorem merge_ours_iff_declared w args algs results m k r :
  merge w args algs results = ok m ->
  In (k, r) m ->
  (AlgRecord.ours r = true
   <-> In (observed_key k) (map AlgFileRecord.name algs)).
Proof.
  intros H HI. apply merge_ok in H. destruct H as (m7 & tmp & H7 & Ht & _ & Hm).
  apply merge_filtered_descends in H7. destruct H7 as (m0 & Hu & Hd).
  unfold observed_key.
  destruct (Hm _ _ HI) as [[-> ->] | (_ & Hne & HI7)].
  - destruct (Hd _ _ Ht) as (r0 & HI0 & (_ & Eo & _)). simpl.
    rewrite Eo. exact (merge_unified_ours _ _ _ _ _ Hu HI0).
  - destruct (Hd _ _ HI7) as (r0 & HI0 & (_ & Eo & _)).
    destruct (String.eqb_spec k "Q1D2.v1"); [contradiction |].
    rewrite Eo. exact (merge_unified_ours _ _ _ _ _ Hu HI0).
Qed.

(** * Runs of the further properties *)

Lemma rich_run :
  merge rich_world no_options rich_algs rich_results = ok rich_merged.
Proof. vm_compute. reflexivity. Defined.

Lemma rich_Q1D2_returned : In ("Q1D2.v1", rich_Q1D2) rich_merged.
Proof. apply dict_get_In. vm_compute. reflexivity. Defined.

(** [merge_slots_are_observed_totals] on slot 4 of the record under
    [Q1D2.v1] in the run of the rich world. *)
Lemma merge_slots_are_observed_totals_witness :
  merge rich_world no_options rich_algs rich_results = ok rich_merged
  /\ In ("Q1D2.v1", rich_Q1D2) rich_merged
  /\ nth 4 (AlgRecord.count_direct rich_Q1D2) 0
     = slot_total (observed_key "Q1D2.v1") false 4 rich_results
  /\ nth 4 (AlgRecord.count_internal rich_Q1D2) 0
     = slot_total (observed_key "Q1D2.v1") true 4 rich_results.
Proof.
  exact (conj rich_run (conj rich_Q1D2_returned
           (merge_slots_are_observed_totals _ _ _ _ _ _ _ 4%nat
              rich_run rich_Q1D2_returned))).
Defined.

(** [merge_returns_renamed_Q1D] on the run of the rich world. *)
Lemma merge_returns_renamed_Q1D_witness :
  merge rich_world no_options rich_algs rich_results = ok rich_merged
  /\ In "Q1D.v2" (input_names rich_algs rich_results)
  /\ dict_get "Q1D.v2" rich_merged = None.
Proof.
  pose proof (merge_returns_renamed_Q1D _ _ _ _ _ rich_run) as H.
  exact (conj rich_run (conj (proj1 H) (proj1 (proj2 H)))).
Defined.

(** [merge_filtered_survivors] on the run of the rich world. *)
Lemma merge_filtered_survivors_witness :
  merge_filtered rich_world no_options rich_algs rich_results = ok rich_filtered
  /\ exists m5 blacklist,
       merge_annotated rich_world rich_algs rich_results = ok m5
       /\ load_blacklist rich_world = ok blacklist
       /\ forall k r,
            In (k, r) rich_filtered
            <-> In (k, r) m5 /\ ~ In k blacklist
                /\ unwanted no_options r = false.
Proof.
  assert (H : merge_filtered rich_world no_options rich_algs rich_results
              = ok rich_filtered) by (vm_compute; reflexivity).
  exact (conj H (merge_filtered_survivors _ _ _ _ _ H)).
Defined.

(** [merge_respects_options] on the run of the rich world with [--ours]. *)
Lemma merge_respects_options_witness :
  merge rich_world ours_only rich_algs rich_results = ok rich_ours_merged
  /\ In ("Q1D2.v1", rich_Q1D2) rich_ours_merged
  /\ (Args.ours ours_only = true -> AlgRecord.ours rich_Q1D2 = true)
  /\ (Args.include_tests ours_only = false ->
      AlgRecord.is_test rich_Q1D2 = false).
Proof.
  assert (H : merge rich_world ours_only rich_algs rich_results
              = ok rich_ours_merged) by (vm_compute; reflexivity).
  assert (HI : In ("Q1D2.v1", rich_Q1D2) rich_ours_merged)
    by (apply dict_get_In; vm_compute; reflexivity).
  exact (conj H (conj HI (merge_respects_options _ _ _ _ _ _ _ H HI))).
Defined.

(** [name_without_version_digit_raises] on an observation of [Load]. *)
Lemma name_without_version_digit_raises_witness :
  merge_unified [] unversioned_results
  = ok (returned (merge_unified [] unversioned_results))
  /\ In "Load" (input_names [] unversioned_results)
  /\ (forall v, int (last_char "Load") <> ok v)
  /\ exists literal,
       merge bare_world no_options [] unversioned_results
       = raise (ValueError literal).
Proof.
  assert (Hu : merge_unified [] unversioned_results
               = ok (returned (merge_unified [] unversioned_results)))
    by (vm_compute; reflexivity).
  assert (Hk : In "Load" (input_names [] unversioned_results))
    by (simpl; auto).
  assert (Hbad : forall v, int (last_char "Load") <> ok v)
    by (intros v H; vm_compute in H; discriminate H).
  exact (conj Hu (conj Hk (conj Hbad
           (name_without_version_digit_raises bare_world no_options []
              unversioned_results _ "Load" Hu Hk Hbad)))).
Defined.

(** [missing_list_file_raises] in the world without files. *)
Lemma missing_list_file_raises_witness :
  (read_file bare_world (cache_dir bare_world ++ "/deprecated-algorithms") = None
   \/ read_file bare_world "blacklist" = None)
  /\ exists e, merge bare_world no_options sample_algs sample_results = raise e.
Proof.
  assert (H : read_file bare_world
                (cache_dir bare_world ++ "/deprecated-algorithms") = None
              \/ read_file bare_world "blacklist" = None)
    by (left; reflexivity).
  exact (conj H (missing_list_file_raises bare_world no_options sample_algs
                   sample_results H)).
Defined.

(** [filtering_returns_iff] on the run of the rich world. *)
Lemma filtering_returns_iff_witness :
  merge_annotated rich_world rich_algs rich_results = ok rich_annotated
  /\ load_blacklist rich_world = ok ["B.v1"]
  /\ ((exists m7,
         merge_filtered rich_world no_options rich_algs rich_results = ok m7)
      <-> NoDup ["B.v1"] /\ incl ["B.v1"] (keys rich_annotated)).
Proof.
  assert (H5 : merge_annotated rich_world rich_algs rich_results
               = ok rich_annotated) by (vm_compute; reflexivity).
  assert (Hbl : load_blacklist rich_world = ok ["B.v1"])
    by (vm_compute; reflexivity).
  exact (conj H5 (conj Hbl
           (filtering_returns_iff rich_world no_options rich_algs rich_results
              _ _ H5 Hbl))).
Defined.

(** [get_file_length_never_zero] on the empty file of the rich world. *)
Lemma get_file_length_never_zero_witness :
  read_file rich_world "empty.py" = Some ""
  /\ get_file_length rich_world "empty.py" = ok 1.
Proof.
  assert (H : read_file rich_world "empty.py" = Some "") by reflexivity.
  exact (conj H
           (proj2 (proj2 (get_file_length_never_zero rich_world "empty.py")) H)).
Defined.

(** [merge_line_count_is_dash_or_numeral] on the record under [Q1D2.v1]. *)
Lemma merge_line_count_is_dash_or_numeral_witness :
  merge rich_world no_options rich_algs rich_results = ok rich_merged
  /\ In ("Q1D2.v1", rich_Q1D2) rich_merged
  /\ (AlgRecord.line_count rich_Q1D2 = "-"
      <-> read_file rich_world (AlgRecord.path rich_Q1D2) = None).
Proof.
  exact (conj rich_run (conj rich_Q1D2_returned
           (proj1 (merge_line_count_is_dash_or_numeral _ _ _ _ _ _ _
                     rich_run rich_Q1D2_returned)))).
Defined.

(** [merge_test_data] on the record under [Q1D2.v1], which has a test. *)
Lemma merge_test_data_witness :
  merge rich_world no_options rich_algs rich_results = ok rich_merged
  /\ In ("Q1D2.v1", rich_Q1D2) rich_merged
  /\ AlgRecord.has_test rich_Q1D2 = true
  /\ AlgRecord.ours rich_Q1D2 = true
  /\ (0 < AlgRecord.test_fraction rich_Q1D2)%Q.
Proof.
  assert (Hh : AlgRecord.has_test rich_Q1D2 = true) by reflexivity.
  pose proof (proj1 (merge_test_data _ _ _ _ _ _ _ rich_run rich_Q1D2_returned)
                Hh) as H.
  exact (conj rich_run (conj rich_Q1D2_returned (conj Hh
           (conj (proj1 H) (proj2 (proj2 (proj2 (proj2 H)))))))).
Defined.

(** [merge_deprecated_is_cpp] on the record under [Q1D2.v1], which is
    deprecated. *)
Lemma merge_deprecated_is_cpp_witness :
  merge rich_world no_options rich_algs rich_results = ok rich_merged
  /\ In ("Q1D2.v1", rich_Q1D2) rich_merged
  /\ AlgRecord.is_deprecated rich_Q1D2 = true
  /\ AlgRecord.type rich_Q1D2 = "C++".
Proof.
  assert (Hd : AlgRecord.is_deprecated rich_Q1D2 = true) by reflexivity.
  pose proof (proj1 (merge_deprecated_is_cpp _ _ _ _ _ _ _ rich_run
                       rich_Q1D2_returned) Hd) as H.
  exact (conj rich_run (conj rich_Q1D2_returned (conj Hd (proj1 H)))).
Defined.

(** [one_digit_version_superseded_iff] on [A.v1] in the sample run. *)
Lemma one_digit_version_superseded_iff_witness :
  merge_annotated (sample_world "B.v1") sample_algs sample_results
  = ok sample_annotated
  /\ dict_get (identity "A" 1) sample_annotated
     = Some (record_at "A.v1" sample_annotated)
  /\ 1 <= 1 <= 9
  /\ (AlgRecord.superseded (record_at "A.v1" sample_annotated) = "superseded"
      <-> In (identity "A" (1 + 1)) (input_names sample_algs sample_results)).
Proof.
  assert (H5 : merge_annotated (sample_world "B.v1") sample_algs sample_results
               = ok sample_annotated) by (vm_compute; reflexivity).
  assert (Hg : dict_get (identity "A" 1) sample_annotated
               = Some (record_at "A.v1" sample_annotated))
    by (vm_compute; reflexivity).
  assert (HN : 1 <= 1 <= 9) by lia.
  exact (conj H5 (conj Hg (conj HN
           (one_digit_version_superseded_iff _ _ _ _ "A" 1 _ H5 Hg HN)))).
Defined.

(** [get_summary_total_and_threshold] on the run of the rich world with
    [--max-count 5]. *)
Lemma get_summary_total_and_threshold_witness :
  0 <= Args.max_count up_to_five
  /\ Forall (fun r => 0 <= AlgRecord.get_count r) (values rich_merged)
  /\ Summary.up_to_threshold (get_summary up_to_five rich_merged)
     = count_if (fun r => AlgRecord.get_count r <=? Args.max_count up_to_five)
         rich_merged.
Proof.
  assert (Hm : 0 <= Args.max_count up_to_five) by (simpl; lia).
  assert (Hn : Forall (fun r => 0 <= AlgRecord.get_count r) (values rich_merged))
    by (repeat constructor; vm_compute; discriminate).
  exact (conj Hm (conj Hn
           (proj2 (proj2 (proj2 (proj2
              (get_summary_total_and_threshold up_to_five rich_merged))))
              Hm Hn))).
Defined.



(** [figure_buckets_partition] on the run of the rich world. *)
Lemma figure_buckets_partition_witness :
  merge rich_world no_options rich_algs rich_results = ok rich_merged
  /\ Forall (fun r => AlgRecord.get_count r < 1000000000) (values rich_merged)
  /\ exists counts code, figure_buckets rich_merged = ok (counts, code).
Proof.
  assert (Hs : Forall (fun r => AlgRecord.get_count r < 1000000000)
                 (values rich_merged))
    by (repeat constructor).
  destruct (figure_buckets_partition _ _ _ _ _ rich_run Hs)
    as (counts & code & H & _).
  exact (conj rich_run (conj Hs (ex_intro _ counts (ex_intro _ code H)))).
Defined.

(** [figure_buckets_overflow] on a run with a use count of 1000000000. *)
Lemma figure_buckets_overflow_witness :
  merge (sample_world "B.v1") no_options [] huge_results = ok huge_merged
  /\ In ("Q1D2.v1", record_at "Q1D2.v1" huge_merged) huge_merged
  /\ 1000000000 <= AlgRecord.get_count (record_at "Q1D2.v1" huge_merged)
  /\ figure_buckets huge_merged = raise IndexError.
Proof.
  assert (H : merge (sample_world "B.v1") no_options [] huge_results
              = ok huge_merged) by (vm_compute; reflexivity).
  assert (HI : In ("Q1D2.v1", record_at "Q1D2.v1" huge_merged) huge_merged)
    by (apply dict_get_In; vm_compute; reflexivity).
  assert (Hb : 1000000000
               <= AlgRecord.get_count (record_at "Q1D2.v1" huge_merged))
    by (vm_compute; discriminate).
  exact (conj H (conj HI (conj Hb
           (figure_buckets_overflow _ _ _ _ _ _ _ H HI Hb)))).
Defined.

(** [merge_ours_iff_declared] on the record under [Q1D2.v1]. *)
Lemma merge_ours_iff_declared_witness :
  merge rich_world no_options rich_algs rich_results = ok rich_merged
  /\ In ("Q1D2.v1", rich_Q1D2) rich_merged
  /\ (AlgRecord.ours rich_Q1D2 = true
      <-> In (observed_key "Q1D2.v1") (map AlgFileRecord.name rich_algs)).
Proof.
  exact (conj rich_run (conj rich_Q1D2_returned
           (merge_ours_iff_declared _ _ _ _ _ _ _ rich_run rich_Q1D2_returned))).
Defined.

(** [merge_totals] on the record under [Q1D2.v1]. *)
Lemma merge_totals_witness :
  merge rich_world no_options rich_algs rich_results = ok rich_merged
  /\ In ("Q1D2.v1", rich_Q1D2) rich_merged
  /\ AlgRecord.get_count rich_Q1D2
     = observed_total
         (if String.eqb "Q1D2.v1" "Q1D2.v1" then "Q1D.v2" else "Q1D2.v1")
         rich_results.
Proof.
  exact (conj rich_run (conj rich_Q1D2_returned
           (merge_totals _ _ _ _ _ _ _ rich_run rich_Q1D2_returned))).
Defined.

(** [merge_empty_blacklist_raises] in the world with an empty blacklist
    file. *)
Lemma merge_empty_blacklist_raises_witness :
  read_file (sample_world "") "blacklist" = Some ""
  /\ exists e,
       merge (sample_world "") no_options sample_algs sample_results = raise e.
Proof.
  assert (H : read_file (sample_world "") "blacklist" = Some "") by reflexivity.
  exact (conj H (merge_empty_blacklist_raises (sample_world "") no_options
                   sample_algs sample_results H)).
Defined.
